(** * CLIPy: crawl orchestration and candidate reconciliation

    A shallow embedding of the reconciliation controller
    ([CLIPy/database/database.py]), of the temporal range mixin
    ([CLIPy/database/models.py], [CLIPy/database/candidates.py]) and of the
    worker loop ([CLIPy/crawler.py]), followed by the properties of the
    specification that concern them.

    Python integers are unbounded and are modelled by [Z]; [None] is the
    [None] of [option].  A raised exception is a value of [Exn]; code that
    may raise, or that mutates an object or the database session, lives in
    the state-and-exception monad [M]. *)

From Stdlib Require Import ZArith Lia List.
From stdpp Require Import base tactics option list strings pretty gmap.
From Equations Require Import Equations.

Local Open Scope string_scope.
Local Open Scope Z_scope.

(** ** Exceptions and the monad of effectful code *)

(** The exception classes the modelled code can meet.  [Exception] is the
    class the source raises itself; the others come from the interpreter
    ([TypeError], [AttributeError]) or from the storage backend
    ([IntegrityError]). *)
Inductive Exn :=
| Exception (msg : string)
| TypeError (msg : string)
| AttributeError (msg : string)
| IntegrityError (msg : string).

(** A call either returns a value or raises. *)
Inductive outcome (A : Type) :=
| Return (a : A)
| Raise (e : Exn).
Arguments Return {A} a.
Arguments Raise {A} e.

(** [M S A]: a computation over a mutable state [S].  The state that comes
    back with [Raise] is the state at the moment the exception left the
    computation: Python does not undo assignments when it unwinds. *)
Definition M (S A : Type) : Type := S -> outcome A * S.

Definition ret {S A} (a : A) : M S A := fun s => (Return a, s).

Definition bind {S A B} (m : M S A) (k : A -> M S B) : M S B :=
  fun s => match m s with
           | (Return a, s') => k a s'
           | (Raise e, s') => (Raise e, s')
           end.

Definition raise {S A} (e : Exn) : M S A := fun s => (Raise e, s).

Definition get {S} : M S S := fun s => (Return s, s).

Definition put {S} (s : S) : M S unit := fun _ => (Return tt, s).

Definition modify {S} (f : S -> S) : M S unit := fun s => (Return tt, f s).

(** [try: body except Exception: handler] *)
Definition try_except {S A} (body : M S A) (handler : Exn -> M S A) : M S A :=
  fun s => match body s with
           | (Return a, s') => (Return a, s')
           | (Raise e, s') => handler e s'
           end.

(** [try: body finally: final].  [final] runs on both exits; the outcome of
    [body] is kept unless [final] raises itself. *)
Definition try_finally {S A} (body : M S A) (final : M S unit) : M S A :=
  fun s => match body s with
           | (r, s') => match final s' with
                        | (Return _, s'') => (r, s'')
                        | (Raise e, s'') => (Raise e, s'')
                        end
           end.

Declare Scope M_scope.
Delimit Scope M_scope with M.
Bind Scope M_scope with M.
Notation "x ← y ; z" := (bind y (fun x => z))
  (at level 20, y at level 100, z at level 200, only parsing) : M_scope.
Notation "' x ← y ; z" := (bind y (fun x => z))
  (at level 20, x pattern, y at level 100, z at level 200, only parsing) : M_scope.
Notation "x ;; z" := (bind x (fun _ => z))
  (at level 100, z at level 200, only parsing, right associativity) : M_scope.
Local Open Scope M_scope.

(** [for x in xs: body x] *)
Fixpoint for_each {S A} (xs : list A) (body : A -> M S unit) : M S unit :=
  match xs with
  | [] => ret tt
  | x :: rest => body x;; for_each rest body
  end.

(** [for x in xs: body], with the local variables the loop updates passed
    from one iteration to the next. *)
Fixpoint for_fold {S A B} (xs : list A) (acc : B) (body : B -> A -> M S B) : M S B :=
  match xs with
  | [] => ret acc
  | x :: rest => acc' ← body acc x; for_fold rest acc' body
  end.

(** ** Python values *)

(** The line feed of a Python string literal. *)
Definition nl : string := String (Ascii.ascii_of_nat 10) EmptyString.

(** [str(e)] and the class name of an exception. *)
Definition exn_message (e : Exn) : string :=
  match e with
  | Exception msg | TypeError msg | AttributeError msg | IntegrityError msg => msg
  end.

Definition exn_class (e : Exn) : string :=
  match e with
  | Exception _ => "Exception"
  | TypeError _ => "TypeError"
  | AttributeError _ => "AttributeError"
  | IntegrityError _ => "sqlalchemy.exc.IntegrityError"
  end.

(** [traceback.format_exc()] inside a handler of [e]: the header and the
    closing line; the stack frames in between are left out. *)
Definition format_exc (e : Exn) : string :=
  "Traceback (most recent call last):" ++ nl
  ++ exn_class e ++ ": " ++ exn_message e ++ nl.


(** [a < b] on values that may be [None]: ordering [None] against anything
    is a [TypeError] in Python 3. *)
Definition py_lt {S} (a b : option Z) : M S bool :=
  match a, b with
  | Some x, Some y => ret (x <? y)
  | _, _ => raise (TypeError "'<' not supported between instances of 'NoneType' and 'int'")
  end.

Definition py_gt {S} (a b : option Z) : M S bool := py_lt b a.

(** [str(x)] for a value that is a string or [None], and for an integer. *)
Definition str_opt (x : option string) : string :=
  match x with
  | Some s => s
  | None => "None"
  end.

Definition str_int (x : Z) : string := pretty x.


(** [a <= b], with the same [TypeError] on [None]. *)
Definition py_le {S} (a b : option Z) : M S bool :=
  match a, b with
  | Some x, Some y => ret (x <=? y)
  | _, _ => raise (TypeError "'<=' not supported between instances of 'NoneType' and 'int'")
  end.

(** [x is not None] *)
Definition is_not_None {A} (x : option A) : bool :=
  match x with
  | Some _ => true
  | None => false
  end.

(** [x is None] *)
Definition is_None {A} (x : option A) : bool := negb (is_not_None x).

(** [a == b] and [a != b] on values with decidable equality. *)
Definition py_eq {A} `{EqDecision A} (a b : A) : bool := bool_decide (a = b).
Definition py_ne {A} `{EqDecision A} (a b : A) : bool := negb (py_eq a b).

(** ** [models.py]: persisted entities

    One record per mapped class, with the columns the controller reads or
    writes.  A relationship to another entity ([Class.department],
    [TurnInstance.room], ...) is held as the primary key of the row it
    points to, which is how the session identifies the object. *)

Module models.

(** [class RoomType(Enum)] *)
Inductive RoomType :=
| generic | classroom | auditorium | laboratory | computer
| meeting_room | masters.

#[global] Instance RoomType_eq_dec : EqDecision RoomType.
Proof. solve_decision. Defined.

Definition RoomType_value (t : RoomType) : positive :=
  match t with
  | generic => 1 | classroom => 2 | auditorium => 3 | laboratory => 4
  | computer => 5 | meeting_room => 6 | masters => 7
  end%positive.

Definition RoomType_of_value (p : positive) : option RoomType :=
  match p with
  | 1 => Some generic | 2 => Some classroom | 3 => Some auditorium
  | 4 => Some laboratory | 5 => Some computer | 6 => Some meeting_room
  | 7 => Some masters | _ => None
  end%positive.

#[global] Instance RoomType_countable : Countable RoomType.
Proof.
  refine (inj_countable RoomType_value RoomType_of_value _).
  intros []; reflexivity.
Defined.

(** [class FileType(Enum)]: every member has a pair as its value, a
    number and the argument the site's URLs use for the type.  Iterating
    the class yields the members in the order of their definition. *)
Module FileType.
Inductive t :=
| image | slides | problems | protocols | seminar | exams | tests | support | others.

#[global] Instance eq_dec : EqDecision t.
Proof. solve_decision. Defined.

Definition members : list t :=
  [image; slides; problems; protocols; seminar; exams; tests; support; others].

Definition value (type : t) : Z * option string :=
  match type with
  | image => (1, None)
  | slides => (2, Some "0ac")
  | problems => (3, Some "1e")
  | protocols => (4, Some "2tr")
  | seminar => (5, Some "3sm")
  | exams => (6, Some "ex")
  | tests => (7, Some "t")
  | support => (8, Some "ta")
  | others => (9, Some "xot")
  end.

Definition to_url_argument (self : t) : option string := snd (value self).

(** The loop returns at the first member that matches and falls off the
    end, returning [None], when there is none. *)
Definition from_id (identifier : Z) : option t :=
  List.find (fun type => py_eq (fst (value type)) identifier) members.

Definition from_url_argument (arg : option string) : option t :=
  List.find (fun type => py_eq (snd (value type)) arg) members.
End FileType.

(** [class TemporalEntity]: the two nullable integer columns. *)
Record TemporalEntity := {
  first_year : option Z;
  last_year : option Z
}.

#[global] Instance TemporalEntity_eq_dec : EqDecision TemporalEntity.
Proof. solve_decision. Defined.

Definition set_first_year (y : option Z) : M TemporalEntity unit :=
  modify (fun e => {| first_year := y; last_year := last_year e |}).

Definition set_last_year (y : option Z) : M TemporalEntity unit :=
  modify (fun e => {| first_year := first_year e; last_year := y |}).

Definition has_time_range (e : TemporalEntity) : bool :=
  negb (is_None (first_year e) || is_None (last_year e)).

(** [TemporalEntity.add_year]:
<<
    if year is None: return
    if self.first_year is None: self.first_year = year
    if self.last_year is None: self.last_year = year
    if self.first_year > year: self.first_year = year
    elif self.last_year < year: self.last_year = year
>> *)
Definition add_year (year : option Z) : M TemporalEntity unit :=
  match year with
  | None => ret tt
  | Some _ =>
      self ← get;
      (if is_None (first_year self) then set_first_year year else ret tt);;
      self ← get;
      (if is_None (last_year self) then set_last_year year else ret tt);;
      self ← get;
      below ← py_gt (first_year self) year;
      if below then set_first_year year
      else
        above ← py_lt (last_year self) year;
        if above then set_last_year year else ret tt
  end.

(** [TemporalEntity.contains]: [self.first_year <= year <= self.last_year] *)
Definition contains (year : option Z) : M TemporalEntity bool :=
  self ← get;
  lower ← py_le (first_year self) year;
  if lower then py_le year (last_year self) else ret false.

(** [class Institution(Base, TemporalEntity)], with the columns
    [add_institutions] passes to its constructor. *)
Module Institution.
Record t := mk {
  id : Z;
  name : option string;
  abbreviation : option string;
  temporal : TemporalEntity
}.
Definition first_year (i : t) := models.first_year (temporal i).
Definition last_year (i : t) := models.last_year (temporal i).
Definition set_name v (i : t) := mk (id i) v (abbreviation i) (temporal i).
Definition set_abbreviation v (i : t) := mk (id i) (name i) v (temporal i).
Definition set_first_year v (i : t) :=
  mk (id i) (name i) (abbreviation i)
     {| models.first_year := v; models.last_year := last_year i |}.
Definition set_last_year v (i : t) :=
  mk (id i) (name i) (abbreviation i)
     {| models.first_year := first_year i; models.last_year := v |}.
End Institution.

(** [class Department(Base, TemporalEntity)] *)
Module Department.
Record t := mk {
  id : Z;
  name : option string;
  institution : option Z;
  temporal : TemporalEntity
}.
Definition first_year (d : t) := models.first_year (temporal d).
Definition last_year (d : t) := models.last_year (temporal d).
Definition set_name v (d : t) := mk (id d) v (institution d) (temporal d).
Definition set_first_year v (d : t) :=
  mk (id d) (name d) (institution d)
     {| models.first_year := v; models.last_year := last_year d |}.
Definition set_last_year v (d : t) :=
  mk (id d) (name d) (institution d)
     {| models.first_year := first_year d; models.last_year := v |}.
End Department.

(** [class Class(Base)]: [id] is the generated primary key, [internal_id]
    the identifier the portal assigns. *)
Module Class.
Record t := mk {
  id : Z;
  internal_id : Z;
  name : option string;
  department : Z;
  abbreviation : option string;
  ects : option Z
}.
Definition set_abbreviation v (c : t) :=
  mk (id c) (internal_id c) (name c) (department c) v (ects c).
End Class.

(** [class ClassInstance(Base)] *)
Module ClassInstance.
Record t := mk {
  id : Z;
  parent : Z;
  year : Z;
  period : Z
}.
End ClassInstance.

(** [class Course(Base, TemporalEntity)] *)
Module Course.
Record t := mk {
  id : Z;
  internal_id : option Z;
  name : option string;
  abbreviation : option string;
  degree : option Z;
  institution : option Z;
  temporal : TemporalEntity
}.
Definition first_year (c : t) := models.first_year (temporal c).
Definition last_year (c : t) := models.last_year (temporal c).
Definition set_abbreviation v (c : t) :=
  mk (id c) (internal_id c) (name c) v (degree c) (institution c) (temporal c).
Definition set_degree v (c : t) :=
  mk (id c) (internal_id c) (name c) (abbreviation c) v (institution c) (temporal c).
Definition set_first_year v (c : t) :=
  mk (id c) (internal_id c) (name c) (abbreviation c) (degree c) (institution c)
     {| models.first_year := v; models.last_year := last_year c |}.
Definition set_last_year v (c : t) :=
  mk (id c) (internal_id c) (name c) (abbreviation c) (degree c) (institution c)
     {| models.first_year := first_year c; models.last_year := v |}.
(** [course.initial_year]: the mapped class and its mixin declare
    [first_year] and [last_year] only, so reading [initial_year] is an
    [AttributeError]. *)
Definition initial_year {S} (c : t) : M S (option Z) :=
  raise (AttributeError "'Course' object has no attribute 'initial_year'").
End Course.

(** [class Building(Base, TemporalEntity)] *)
Module Building.
Record t := mk {
  id : Z;
  name : string;
  temporal : TemporalEntity
}.
End Building.

(** [class Room(Base)] *)
Module Room.
Record t := mk {
  id : Z;
  name : string;
  room_type : option RoomType;
  building : Z
}.
End Room.

(** [class Turn(Base)], columns only; the [teachers] and [students]
    relationships are rows of the association tables [turn_teachers] and
    [turn_students]. *)
Module Turn.
Record t := mk {
  id : Z;
  class_instance : Z;
  number : Z;
  type_ : option Z;
  enrolled : option Z;
  capacity : option Z;
  minutes : option Z;
  routes : option string;
  restrictions : option string;
  state : option string
}.
Definition set_enrolled v (x : t) :=
  mk (id x) (class_instance x) (number x) (type_ x) v (capacity x)
     (minutes x) (routes x) (restrictions x) (state x).
Definition set_capacity v (x : t) :=
  mk (id x) (class_instance x) (number x) (type_ x) (enrolled x) v
     (minutes x) (routes x) (restrictions x) (state x).
Definition set_minutes v (x : t) :=
  mk (id x) (class_instance x) (number x) (type_ x) (enrolled x) (capacity x)
     v (routes x) (restrictions x) (state x).
Definition set_routes v (x : t) :=
  mk (id x) (class_instance x) (number x) (type_ x) (enrolled x) (capacity x)
     (minutes x) v (restrictions x) (state x).
Definition set_restrictions v (x : t) :=
  mk (id x) (class_instance x) (number x) (type_ x) (enrolled x) (capacity x)
     (minutes x) (routes x) v (state x).
Definition set_state v (x : t) :=
  mk (id x) (class_instance x) (number x) (type_ x) (enrolled x) (capacity x)
     (minutes x) (routes x) (restrictions x) v.
End Turn.

(** [class TurnInstance(Base)]; [end_] is the column [end]. *)
Module TurnInstance.
Record t := mk {
  id : Z;
  turn : Z;
  start : Z;
  end_ : Z;
  room : option Z;
  weekday : Z
}.
Definition set_room v (x : t) :=
  mk (id x) (turn x) (start x) (end_ x) v (weekday x).
End TurnInstance.

(** [class Admission(Base)]; [option_] is the column [option]. *)
Module Admission.
Record t := mk {
  id : Z;
  student : option Z;
  name : option string;
  course : option Z;
  phase : Z;
  year : Z;
  option_ : Z;
  state : option string
}.
End Admission.

(** [class Teacher(Base)], with the columns [add_teacher] reads and
    writes. *)
Module Teacher.
Record t := mk {
  id : Z;
  name : option string;
  department : option Z
}.
End Teacher.

(** [class Student(Base)], with the columns [add_student] reads and
    writes; [id] is the generated key. *)
Module Student.
Record t := mk {
  id : Z;
  internal_id : option Z;
  name : option string;
  abbreviation : option string;
  institution : option Z;
  course : option Z
}.
Definition set_abbreviation v (s : t) :=
  mk (id s) (internal_id s) (name s) v (institution s) (course s).
Definition set_course v (s : t) :=
  mk (id s) (internal_id s) (name s) (abbreviation s) (institution s) v.
End Student.

(** [class Enrollment(Base)], with the columns [add_enrollments] reads and
    writes. *)
Module Enrollment.
Record t := mk {
  id : Z;
  student : Z;
  class_instance : Z;
  attempt : option Z;
  student_year : option Z;
  statutes : option string;
  observation : option string
}.
Definition set_attempt v (e : t) :=
  mk (id e) (student e) (class_instance e) v (student_year e) (statutes e) (observation e).
Definition set_student_year v (e : t) :=
  mk (id e) (student e) (class_instance e) (attempt e) v (statutes e) (observation e).
Definition set_statutes v (e : t) :=
  mk (id e) (student e) (class_instance e) (attempt e) (student_year e) v (observation e).
Definition set_observation v (e : t) :=
  mk (id e) (student e) (class_instance e) (attempt e) (student_year e) (statutes e) v.
End Enrollment.

#[global] Instance Institution_eq_dec : EqDecision Institution.t.
Proof. solve_decision. Defined.
#[global] Instance Teacher_eq_dec : EqDecision Teacher.t.
Proof. solve_decision. Defined.
#[global] Instance Student_eq_dec : EqDecision Student.t.
Proof. solve_decision. Defined.
#[global] Instance Enrollment_eq_dec : EqDecision Enrollment.t.
Proof. solve_decision. Defined.
#[global] Instance Department_eq_dec : EqDecision Department.t.
Proof. solve_decision. Defined.
#[global] Instance Class_eq_dec : EqDecision Class.t.
Proof. solve_decision. Defined.
#[global] Instance ClassInstance_eq_dec : EqDecision ClassInstance.t.
Proof. solve_decision. Defined.
#[global] Instance Course_eq_dec : EqDecision Course.t.
Proof. solve_decision. Defined.
#[global] Instance Room_eq_dec : EqDecision Room.t.
Proof. solve_decision. Defined.
#[global] Instance Turn_eq_dec : EqDecision Turn.t.
Proof. solve_decision. Defined.
#[global] Instance TurnInstance_eq_dec : EqDecision TurnInstance.t.
Proof. solve_decision. Defined.
#[global] Instance Admission_eq_dec : EqDecision Admission.t.
Proof. solve_decision. Defined.

End models.

(** ** [candidates.py]: unpersisted candidates *)

Module candidates.

(** [class TemporalEntity] of the candidates: the same two bounds. *)
Record TemporalEntity := {
  first_year : option Z;
  last_year : option Z
}.

Definition set_first_year (y : option Z) : M TemporalEntity unit :=
  modify (fun e => {| first_year := y; last_year := last_year e |}).

Definition set_last_year (y : option Z) : M TemporalEntity unit :=
  modify (fun e => {| first_year := first_year e; last_year := y |}).

Definition has_time_range (e : TemporalEntity) : bool :=
  negb (is_None (first_year e) || is_None (last_year e)).

(** [TemporalEntity.add_year] of the candidates: as in [models], without
    the guard on [year is None]. *)
Definition add_year (year : option Z) : M TemporalEntity unit :=
  self ← get;
  (if is_None (first_year self) then set_first_year year else ret tt);;
  self ← get;
  (if is_None (last_year self) then set_last_year year else ret tt);;
  self ← get;
  below ← py_gt (first_year self) year;
  if below then set_first_year year
  else
    above ← py_lt (last_year self) year;
    if above then set_last_year year else ret tt.

(** The institution candidate as [add_institutions] reads it. *)
Module Institution.
Record t := mk {
  id : Z;
  name : option string;
  abbreviation : option string;
  temporal : TemporalEntity
}.
Definition first_year (c : t) := candidates.first_year (temporal c).
Definition last_year (c : t) := candidates.last_year (temporal c).
End Institution.

(** [class Department(TemporalEntity)] *)
Module Department.
Record t := mk {
  id : Z;
  name : option string;
  institution : option Z;
  temporal : TemporalEntity
}.
Definition first_year (c : t) := candidates.first_year (temporal c).
Definition last_year (c : t) := candidates.last_year (temporal c).
End Department.

(** [class Class] *)
Module Class.
Record t := mk {
  id : Z;
  name : option string;
  department : Z;
  abbreviation : option string;
  ects : option Z
}.
End Class.

(** [class ClassInstance] *)
Module ClassInstance.
Record t := mk {
  parent : Z;
  period : Z;
  year : Z
}.
End ClassInstance.

(** [class Course(TemporalEntity)] *)
Module Course.
Record t := mk {
  id : Z;
  name : option string;
  institution : option Z;
  degree : option Z;
  abbreviation : option string;
  temporal : TemporalEntity
}.
Definition first_year (c : t) := candidates.first_year (temporal c).
Definition last_year (c : t) := candidates.last_year (temporal c).
End Course.

(** [class Room]; [type_] is the attribute [type]. *)
Module Room.
Record t := mk {
  id : Z;
  name : string;
  type_ : option models.RoomType;
  building : Z
}.
End Room.

(** The turn candidate as [add_turn] reads it; [teachers] holds persisted
    teachers. *)
Module Turn.
Record t := mk {
  class_instance : Z;
  number : Z;
  type_ : option Z;
  enrolled : option Z;
  capacity : option Z;
  minutes : option Z;
  routes : option string;
  restrictions : option string;
  state : option string;
  teachers : list Z
}.
End Turn.

(** The time-slot candidate as [add_turn_instances] reads it. *)
Module TurnInstance.
Record t := mk {
  turn : Z;
  start : Z;
  end_ : Z;
  weekday : Z;
  room : option Z
}.
End TurnInstance.

(** [class Admission] *)
Module Admission.
Record t := mk {
  student : option Z;
  name : option string;
  course : option Z;
  phase : Z;
  year : Z;
  option_ : Z;
  state : option string
}.
End Admission.

(** [class Building(TemporalEntity)]; the constructor refuses a missing
    name, so a candidate has one. *)
Module Building.
Record t := mk {
  id : Z;
  name : string;
  temporal : TemporalEntity
}.
End Building.

(** [class Teacher(TemporalEntity)], as [add_teacher] reads it. *)
Module Teacher.
Record t := mk {
  id : Z;
  name : option string;
  department : option Z
}.
End Teacher.

(** [class Student(TemporalEntity)], as [add_student] reads it: [course]
    is a persisted course, whose institution the method reads, and
    [institution] the attribute the method falls back to. *)
Module Student.
Record t := mk {
  id : option Z;
  name : option string;
  abbreviation : option string;
  course : option models.Course.t;
  institution : option Z
}.
End Student.

(** [class Enrollment]; [student] and [class_instance] are persisted. *)
Module Enrollment.
Record t := mk {
  student : Z;
  class_instance : Z;
  attempt : option Z;
  student_year : option Z;
  statutes : option string;
  observation : option string
}.
End Enrollment.

#[global] Instance TurnInstance_eq_dec : EqDecision TurnInstance.t.
Proof. solve_decision. Defined.

End candidates.

(** ** [database.py]: the session and the reconciliation controller *)

Module database.

Import models.

(** *** The store

    The tables the controller touches, each as the list of its rows in
    insertion order (the order [first()] and [all()] see), the two
    association tables as lists of key pairs, and the generator of
    primary keys for the tables that do not take theirs from the
    candidate. *)
Record DB := mkDB {
  institutions : list models.Institution.t;
  departments : list models.Department.t;
  classes : list models.Class.t;
  class_instances : list models.ClassInstance.t;
  courses : list models.Course.t;
  buildings : list models.Building.t;
  rooms : list models.Room.t;
  turns : list models.Turn.t;
  turn_instances : list models.TurnInstance.t;
  turn_teachers : list (Z * Z);
  turn_students : list (Z * Z);
  admissions : list models.Admission.t;
  teachers : list models.Teacher.t;
  students : list models.Student.t;
  enrollments : list models.Enrollment.t;
  sequence : Z
}.

Definition set_institutions (v : list models.Institution.t) (db : DB) : DB :=
  mkDB v (departments db) (classes db) (class_instances db) (courses db) (buildings db) (rooms db) (turns db) (turn_instances db) (turn_teachers db) (turn_students db) (admissions db) (teachers db) (students db) (enrollments db) (sequence db).
Definition set_departments (v : list models.Department.t) (db : DB) : DB :=
  mkDB (institutions db) v (classes db) (class_instances db) (courses db) (buildings db) (rooms db) (turns db) (turn_instances db) (turn_teachers db) (turn_students db) (admissions db) (teachers db) (students db) (enrollments db) (sequence db).
Definition set_classes (v : list models.Class.t) (db : DB) : DB :=
  mkDB (institutions db) (departments db) v (class_instances db) (courses db) (buildings db) (rooms db) (turns db) (turn_instances db) (turn_teachers db) (turn_students db) (admissions db) (teachers db) (students db) (enrollments db) (sequence db).
Definition set_class_instances (v : list models.ClassInstance.t) (db : DB) : DB :=
  mkDB (institutions db) (departments db) (classes db) v (courses db) (buildings db) (rooms db) (turns db) (turn_instances db) (turn_teachers db) (turn_students db) (admissions db) (teachers db) (students db) (enrollments db) (sequence db).
Definition set_courses (v : list models.Course.t) (db : DB) : DB :=
  mkDB (institutions db) (departments db) (classes db) (class_instances db) v (buildings db) (rooms db) (turns db) (turn_instances db) (turn_teachers db) (turn_students db) (admissions db) (teachers db) (students db) (enrollments db) (sequence db).
Definition set_buildings (v : list models.Building.t) (db : DB) : DB :=
  mkDB (institutions db) (departments db) (classes db) (class_instances db) (courses db) v (rooms db) (turns db) (turn_instances db) (turn_teachers db) (turn_students db) (admissions db) (teachers db) (students db) (enrollments db) (sequence db).
Definition set_rooms (v : list models.Room.t) (db : DB) : DB :=
  mkDB (institutions db) (departments db) (classes db) (class_instances db) (courses db) (buildings db) v (turns db) (turn_instances db) (turn_teachers db) (turn_students db) (admissions db) (teachers db) (students db) (enrollments db) (sequence db).
Definition set_turns (v : list models.Turn.t) (db : DB) : DB :=
  mkDB (institutions db) (departments db) (classes db) (class_instances db) (courses db) (buildings db) (rooms db) v (turn_instances db) (turn_teachers db) (turn_students db) (admissions db) (teachers db) (students db) (enrollments db) (sequence db).
Definition set_turn_instances (v : list models.TurnInstance.t) (db : DB) : DB :=
  mkDB (institutions db) (departments db) (classes db) (class_instances db) (courses db) (buildings db) (rooms db) (turns db) v (turn_teachers db) (turn_students db) (admissions db) (teachers db) (students db) (enrollments db) (sequence db).
Definition set_turn_teachers (v : list (Z * Z)) (db : DB) : DB :=
  mkDB (institutions db) (departments db) (classes db) (class_instances db) (courses db) (buildings db) (rooms db) (turns db) (turn_instances db) v (turn_students db) (admissions db) (teachers db) (students db) (enrollments db) (sequence db).
Definition set_turn_students (v : list (Z * Z)) (db : DB) : DB :=
  mkDB (institutions db) (departments db) (classes db) (class_instances db) (courses db) (buildings db) (rooms db) (turns db) (turn_instances db) (turn_teachers db) v (admissions db) (teachers db) (students db) (enrollments db) (sequence db).
Definition set_admissions (v : list models.Admission.t) (db : DB) : DB :=
  mkDB (institutions db) (departments db) (classes db) (class_instances db) (courses db) (buildings db) (rooms db) (turns db) (turn_instances db) (turn_teachers db) (turn_students db) v (teachers db) (students db) (enrollments db) (sequence db).
Definition set_teachers (v : list models.Teacher.t) (db : DB) : DB :=
  mkDB (institutions db) (departments db) (classes db) (class_instances db) (courses db) (buildings db) (rooms db) (turns db) (turn_instances db) (turn_teachers db) (turn_students db) (admissions db) v (students db) (enrollments db) (sequence db).
Definition set_students (v : list models.Student.t) (db : DB) : DB :=
  mkDB (institutions db) (departments db) (classes db) (class_instances db) (courses db) (buildings db) (rooms db) (turns db) (turn_instances db) (turn_teachers db) (turn_students db) (admissions db) (teachers db) v (enrollments db) (sequence db).
Definition set_enrollments (v : list models.Enrollment.t) (db : DB) : DB :=
  mkDB (institutions db) (departments db) (classes db) (class_instances db) (courses db) (buildings db) (rooms db) (turns db) (turn_instances db) (turn_teachers db) (turn_students db) (admissions db) (teachers db) (students db) v (sequence db).
Definition set_sequence (v : Z) (db : DB) : DB :=
  mkDB (institutions db) (departments db) (classes db) (class_instances db) (courses db) (buildings db) (rooms db) (turns db) (turn_instances db) (turn_teachers db) (turn_students db) (admissions db) (teachers db) (students db) (enrollments db) v.

Definition empty_db : DB := mkDB [] [] [] [] [] [] [] [] [] [] [] [] [] [] [] 1.

(** The uniqueness constraints of the schema.  A key with a [NULL] column
    collides with nothing, as in SQL: [key] returns [None] for it. *)
Definition unique {A K} `{EqDecision K} (key : A -> option K) (rows : list A) : bool :=
  bool_decide (NoDup (omap key rows)).

(** [un_room] *)
Definition un_room (r : Room.t) : option (Z * string * RoomType) :=
  match Room.room_type r with
  | Some t => Some (Room.building r, Room.name r, t)
  | None => None
  end.

(** [un_class_instance] *)
Definition un_class_instance (i : ClassInstance.t) : option (Z * Z * Z) :=
  Some (ClassInstance.parent i, ClassInstance.year i, ClassInstance.period i).

(** [un_turn] *)
Definition un_turn (t : Turn.t) : option (Z * Z * Z) :=
  match Turn.type_ t with
  | Some ty => Some (Turn.class_instance t, Turn.number t, ty)
  | None => None
  end.

(** [un_turn_instance] *)
Definition un_turn_instance (i : TurnInstance.t) : option (Z * Z * Z) :=
  Some (TurnInstance.turn i, TurnInstance.start i, TurnInstance.weekday i).

(** [un_admission] *)
Definition un_admission (a : Admission.t) : option (Z * string * Z * Z) :=
  match Admission.student a, Admission.name a with
  | Some s, Some n => Some (s, n, Admission.year a, Admission.phase a)
  | _, _ => None
  end.

(** [un_enrollment] *)
Definition un_enrollment (e : Enrollment.t) : option (Z * Z) :=
  Some (Enrollment.student e, Enrollment.class_instance e).

(** What the backend checks when rows are written: the primary keys that
    come from candidates, the composite primary keys of the association
    tables, and the declared unique constraints. *)
Definition integrity (db : DB) : bool :=
  unique (fun i => Some (Institution.id i)) (institutions db)
  && unique (fun d => Some (Department.id d)) (departments db)
  && unique (fun b => Some (Building.id b)) (buildings db)
  && unique (fun r => Some (Room.id r)) (rooms db)
  && unique un_room (rooms db)
  && unique un_class_instance (class_instances db)
  && unique un_turn (turns db)
  && unique un_turn_instance (turn_instances db)
  && unique (fun p : Z * Z => Some p) (turn_teachers db)
  && unique (fun p : Z * Z => Some p) (turn_students db)
  && unique un_admission (admissions db)
  && unique (fun t => Some (Teacher.id t)) (teachers db)
  && unique Student.abbreviation (students db)
  && unique un_enrollment (enrollments db).

(** *** The session

    [pending] is the database as the open transaction sees it (what a
    query returns, with the objects added or changed since the last
    commit), [committed] what the last commit left. *)
Record Session := mkSession {
  committed : DB;
  pending : DB
}.

(** *** [class Controller]

    The caches are dictionaries from a key to a mapped object; an object
    is held as its primary key and read through the session, so a change
    made through a cached object is a change of the session's row.
    The keys of [__rooms__] are building names; a key of that dictionary
    is written [inl name], and a mapped object used as a key [inr pk]. *)
Record Controller := mkController {
  session : Session;
  __caching__ : bool;
  __institutions__ : gmap Z Z;
  __departments__ : gmap Z Z;
  __courses__ : gmap (option Z) Z;
  __course_abbrs__ : gmap (option string) (list Z);
  __rooms__ : gmap (string + Z) (gmap (option RoomType) (gmap string Z))
}.

Definition set_session (v : Session) (c : Controller) : Controller :=
  mkController v (__caching__ c) (__institutions__ c) (__departments__ c)
    (__courses__ c) (__course_abbrs__ c) (__rooms__ c).
Definition set___institutions__ v (c : Controller) : Controller :=
  mkController (session c) (__caching__ c) v (__departments__ c)
    (__courses__ c) (__course_abbrs__ c) (__rooms__ c).
Definition set___departments__ v (c : Controller) : Controller :=
  mkController (session c) (__caching__ c) (__institutions__ c) v
    (__courses__ c) (__course_abbrs__ c) (__rooms__ c).
Definition set___courses__ v w (c : Controller) : Controller :=
  mkController (session c) (__caching__ c) (__institutions__ c)
    (__departments__ c) v w (__rooms__ c).
Definition set___rooms__ v (c : Controller) : Controller :=
  mkController (session c) (__caching__ c) (__institutions__ c)
    (__departments__ c) (__courses__ c) (__course_abbrs__ c) v.

(** The open transaction's view of the database. *)
Definition db (c : Controller) : DB := pending (session c).

(** A write of the open transaction. *)
Definition write (f : DB -> DB) : M Controller unit :=
  modify (fun c => set_session (mkSession (committed (session c)) (f (db c))) c).

(** [self.session.commit()]: the pending rows reach the backend, which
    refuses them with an [IntegrityError] when a constraint fails. *)
Definition commit : M Controller unit :=
  self ← get;
  if integrity (db self)
  then put (set_session (mkSession (db self) (db self)) self)
  else raise (IntegrityError "UNIQUE constraint failed").

(** [self.session.rollback()] *)
Definition rollback : M Controller unit :=
  modify (fun c => set_session (mkSession (committed (session c)) (committed (session c))) c).

(** The next generated primary key. *)
Definition nextval : M Controller Z :=
  self ← get;
  write (set_sequence (sequence (db self) + 1));;
  ret (sequence (db self)).

(** [query.filter_by(...).first()]: the first row that satisfies [P],
    with its position in the table. *)
Definition first {A} (P : A -> Prop) `{forall x, Decision (P x)} (rows : list A) :
    option (nat * A) :=
  list_find P rows.

(** [query.filter_by(...).all()] *)
Definition all {A} (P : A -> Prop) `{forall x, Decision (P x)} (rows : list A) : list A :=
  filter P rows.

(** *** Loading the caches *)

Definition __load_institutions__ : M Controller unit :=
  self ← get;
  put (set___institutions__
         (foldl (fun d i => <[Institution.id i := Institution.id i]> d) ∅
                (institutions (db self))) self).

Definition __load_departments__ : M Controller unit :=
  self ← get;
  put (set___departments__
         (foldl (fun d x => <[Department.id x := Department.id x]> d) ∅
                (departments (db self))) self).

Definition __load_courses__ : M Controller unit :=
  self ← get;
  let rows := courses (db self) in
  put (set___courses__
         (foldl (fun d c => <[Course.internal_id c := Course.id c]> d) ∅ rows)
         (foldl (fun d c =>
                   <[Course.abbreviation c :=
                       (default [] (d !! Course.abbreviation c) ++ [Course.id c])%list]> d)
                ∅ rows)
         self).

(** [__load_rooms__] walks [query(models.Room, models.Building)], that is
    every pair of a room and a building, and stores the building. *)
Definition __load_rooms__ : M Controller unit :=
  self ← get;
  let pairs := flat_map (fun r => map (pair r) (buildings (db self))) (rooms (db self)) in
  put (set___rooms__
         (foldl (fun d '(room, building) =>
                   let by_type := default ∅ (d !! inl (Building.name building)) in
                   let by_name := default ∅ (by_type !! Room.room_type room) in
                   <[inl (Building.name building) :=
                       <[Room.room_type room :=
                           <[Room.name room := Building.id building]> by_name]> by_type]> d)
                ∅ pairs)
         self).

(** The session object a cache entry stands for. *)
Definition cached_object {A} (pk_of : A -> Z) (rows : list A) (pk : Z) : option (nat * A) :=
  list_find (fun r => pk_of r = pk) rows.

(** *** Lookups *)

(** The closing loop of [get_course]:
<<
    for match in matches:
        if match.initial_year <= year <= match.last_year:
            return match
>>
    Falling off the end returns [None]. *)
Fixpoint first_in_range (matches : list Course.t) (year : option Z) :
    M Controller (option Course.t) :=
  match matches with
  | [] => ret None
  | match_ :: rest =>
      initial_year ← Course.initial_year match_;
      lower ← py_le initial_year year;
      inside ← (if lower then py_le year (Course.last_year match_) else ret false);
      if inside then ret (Some match_) else first_in_range rest year
  end.

(** [Controller.get_course(identifier=None, abbreviation=None, year=None)] *)
Definition get_course (identifier : option Z) (abbreviation : option string)
    (year : option Z) : M Controller (option Course.t) :=
  self ← get;
  if is_not_None identifier then
    if __caching__ self then
      match __courses__ self !! identifier with
      | Some pk => ret (snd <$> cached_object Course.id (courses (db self)) pk)
      | None => ret None
      end
    else
      ret (snd <$> first (fun c => Course.internal_id c = identifier) (courses (db self)))
  else if is_not_None abbreviation then
    if __caching__ self then
      match __course_abbrs__ self !! abbreviation with
      | None => ret None
      | Some pks =>
          let matches := omap (fun pk => snd <$> cached_object Course.id (courses (db self)) pk) pks in
          match matches with
          | [] => ret None
          | [match_] => ret (Some match_)
          | _ =>
              if is_None year then raise (Exception "Multiple matches. Year unspecified")
              else first_in_range matches year
          end
      end
    else
      let matches := all (fun c => Course.internal_id c = identifier) (courses (db self)) in
      match matches with
      | [] => ret None
      | [match_] => ret (Some match_)
      | _ =>
          if is_None year then raise (Exception "Multiple matches. Year unspecified")
          else first_in_range matches year
      end
  else ret None.

(** *** Batch reconciliation *)

(** The update branch of [add_institutions]: the stored institution after
    the assignments, and the local flag [updated]. *)
Definition update_institution (candidate : candidates.Institution.t)
    (institution : Institution.t) : Institution.t * bool :=
  let updated := false in
  let '(institution, updated) :=
    if is_not_None (candidates.Institution.name candidate)
       && py_ne (Institution.name institution) (candidates.Institution.name candidate)
    then (Institution.set_name (candidates.Institution.name candidate) institution, true)
    else (institution, updated) in
  let '(institution, updated) :=
    if is_not_None (candidates.Institution.abbreviation candidate)
    then (Institution.set_abbreviation
            (candidates.Institution.abbreviation candidate) institution, true)
    else (institution, updated) in
  let '(institution, updated) :=
    match Institution.first_year institution, candidates.Institution.first_year candidate with
    | None, first_year => (Institution.set_first_year first_year institution, true)
    | Some stored, Some first_year =>
        if first_year <? stored
        then (Institution.set_first_year (Some first_year) institution, true)
        else (institution, updated)
    | Some _, None => (institution, updated)
    end in
  let '(institution, updated) :=
    match Institution.last_year institution, candidates.Institution.last_year candidate with
    | None, last_year => (Institution.set_last_year last_year institution, true)
    | Some stored, Some last_year =>
        if last_year >? stored
        then (Institution.set_last_year (Some last_year) institution, true)
        else (institution, updated)
    | Some _, None => (institution, updated)
    end in
  (institution, updated).

(** One iteration of the loop of [add_institutions]; [counts] holds
    [new_count] and [updated_count]. *)
Definition add_institutions_step (counts : Z * Z)
    (candidate : candidates.Institution.t) : M Controller (Z * Z) :=
  let '(new_count, updated_count) := counts in
  self ← get;
  let institution :=
    if __caching__ self then
      match __institutions__ self !! candidates.Institution.id candidate with
      | Some pk => cached_object Institution.id (institutions (db self)) pk
      | None => None
      end
    else
      first (fun i => Institution.id i = candidates.Institution.id candidate)
            (institutions (db self)) in
  match institution with
  | None =>
      write (fun d => set_institutions
               (institutions d ++
                  [Institution.mk (candidates.Institution.id candidate)
                     (candidates.Institution.name candidate)
                     (candidates.Institution.abbreviation candidate)
                     {| first_year := candidates.Institution.first_year candidate;
                        last_year := candidates.Institution.last_year candidate |}])%list d);;
      ret (new_count + 1, updated_count)
  | Some (pos, institution) =>
      let '(institution, updated) := update_institution candidate institution in
      write (fun d => set_institutions (<[pos := institution]> (institutions d)) d);;
      ret (new_count, if updated then updated_count + 1 else updated_count)
  end.

(** The body of the [try] of [add_institutions]: the loop, the commit and
    the reload of the cache. *)
Definition add_institutions_try (institutions : list candidates.Institution.t) :
    M Controller unit :=
  for_fold institutions (0, 0) add_institutions_step;;
  commit;;
  self ← get;
  if __caching__ self then __load_institutions__ else ret tt.

(** [Controller.add_institutions]: the handler logs and rolls back. *)
Definition add_institutions (institutions : list candidates.Institution.t) :
    M Controller unit :=
  try_except (add_institutions_try institutions) (fun _ => rollback).

(** The update branch of [add_departments]. *)
Definition update_department (candidate : candidates.Department.t)
    (department : Department.t) : Department.t * bool :=
  let updated := false in
  let '(department, updated) :=
    if is_not_None (candidates.Department.name candidate)
       && py_ne (Department.name department) (candidates.Department.name candidate)
    then (Department.set_name (candidates.Department.name candidate) department, true)
    else (department, updated) in
  let '(department, updated) :=
    match Department.first_year department, candidates.Department.first_year candidate with
    | None, first_year => (Department.set_first_year first_year department, true)
    | Some stored, Some first_year =>
        if first_year <? stored
        then (Department.set_first_year (Some first_year) department, true)
        else (department, updated)
    | Some _, None => (department, updated)
    end in
  let '(department, updated) :=
    match Department.last_year department, candidates.Department.last_year candidate with
    | None, last_year => (Department.set_last_year last_year department, true)
    | Some stored, Some last_year =>
        if last_year >? stored
        then (Department.set_last_year (Some last_year) department, true)
        else (department, updated)
    | Some _, None => (department, updated)
    end in
  (department, updated).

(** One iteration of the loop of [add_departments]. *)
Definition add_departments_step (counts : Z * Z)
    (candidate : candidates.Department.t) : M Controller (Z * Z) :=
  let '(new_count, updated_count) := counts in
  self ← get;
  let department :=
    if __caching__ self then
      match __departments__ self !! candidates.Department.id candidate with
      | Some pk => cached_object Department.id (departments (db self)) pk
      | None => None
      end
    else
      first (fun x => Department.id x = candidates.Department.id candidate)
            (departments (db self)) in
  match department with
  | None =>
      write (fun d => set_departments
               (departments d ++
                  [Department.mk (candidates.Department.id candidate)
                     (candidates.Department.name candidate)
                     (candidates.Department.institution candidate)
                     {| first_year := candidates.Department.first_year candidate;
                        last_year := candidates.Department.last_year candidate |}])%list d);;
      ret (new_count + 1, updated_count)
  | Some (pos, department) =>
      let '(department, updated) := update_department candidate department in
      write (fun d => set_departments (<[pos := department]> (departments d)) d);;
      ret (new_count, if updated then updated_count + 1 else updated_count)
  end.

(** The body of the [try] of [add_departments]. *)
Definition add_departments_try (departments : list candidates.Department.t) :
    M Controller unit :=
  for_fold departments (0, 0) add_departments_step;;
  commit;;
  self ← get;
  if __caching__ self then __load_departments__ else ret tt.

(** [Controller.add_departments]: the handler logs and rolls back. *)
Definition add_departments (departments : list candidates.Department.t) :
    M Controller unit :=
  try_except (add_departments_try departments) (fun _ => rollback).

(** The assignments of the update branch of [add_courses] that follow the
    check of the name, and the local flag [changed]:
<<
    if db_course.first_year is None \
            or course.first_year is not None and course.first_year < db_course.first_year:
        db_course.first_year = course.first_year
    if db_course.last_year is None \
            or course.last_year is not None and course.last_year < db_course.last_year:
        db_course.last_year = course.last_year
>> *)
Definition update_course (course : candidates.Course.t) (db_course : Course.t) :
    Course.t * bool :=
  let changed := false in
  let '(db_course, changed) :=
    if is_not_None (candidates.Course.abbreviation course)
    then (Course.set_abbreviation (candidates.Course.abbreviation course) db_course, true)
    else (db_course, changed) in
  let '(db_course, changed) :=
    if is_not_None (candidates.Course.degree course)
    then (Course.set_degree (candidates.Course.degree course) db_course, true)
    else (db_course, changed) in
  let '(db_course, changed) :=
    match Course.first_year db_course, candidates.Course.first_year course with
    | None, first_year => (Course.set_first_year first_year db_course, true)
    | Some stored, Some first_year =>
        if first_year <? stored
        then (Course.set_first_year (Some first_year) db_course, true)
        else (db_course, changed)
    | Some _, None => (db_course, changed)
    end in
  let '(db_course, changed) :=
    match Course.last_year db_course, candidates.Course.last_year course with
    | None, last_year => (Course.set_last_year last_year db_course, true)
    | Some stored, Some last_year =>
        if last_year <? stored
        then (Course.set_last_year (Some last_year) db_course, true)
        else (db_course, changed)
    | Some _, None => (db_course, changed)
    end in
  (db_course, changed).

(** One iteration of the loop of [add_courses]; the local variable is
    [updated]. *)
Definition add_courses_step (updated : Z) (course : candidates.Course.t) :
    M Controller Z :=
  self ← get;
  match first (fun c => Course.internal_id c = Some (candidates.Course.id course)
                        /\ Course.institution c = candidates.Course.institution course)
              (courses (db self)) with
  | None =>
      pk ← nextval;
      write (fun d => set_courses
               (courses d ++
                  [Course.mk pk (Some (candidates.Course.id course))
                     (candidates.Course.name course)
                     (candidates.Course.abbreviation course)
                     (candidates.Course.degree course)
                     (candidates.Course.institution course)
                     {| first_year := candidates.Course.first_year course;
                        last_year := candidates.Course.last_year course |}])%list d);;
      commit;;
      ret updated
  | Some (pos, db_course) =>
      let updated := updated + 1 in
      if is_not_None (candidates.Course.name course)
         && py_ne (candidates.Course.name course) (Course.name db_course)
      then raise (Exception "Attempted to change a course name")
      else
        let '(db_course, changed) := update_course course db_course in
        write (fun d => set_courses (<[pos := db_course]> (courses d)) d);;
        (if changed then commit else ret tt);;
        ret updated
  end.

(** The body of the [try] of [add_courses]. *)
Definition add_courses_try (courses : list candidates.Course.t) : M Controller unit :=
  for_fold courses 0 add_courses_step;; ret tt.

(** [Controller.add_courses]: the handler rolls back and raises a new
    exception that carries the traceback; the cache is reloaded on every
    exit. *)
Definition add_courses (courses : list candidates.Course.t) : M Controller unit :=
  try_finally
    (try_except
       (add_courses_try courses)
       (fun e =>
          rollback;;
          raise (Exception ("Failed to add courses." ++ nl ++ format_exc e))))
    (self ← get;
     if __caching__ self then __load_courses__ else ret tt).

(** *** Classes, class instances, rooms, admissions *)

(** [Controller.add_class] *)
Definition add_class (candidate : candidates.Class.t) : M Controller Class.t :=
  self ← get;
  match first (fun c => Class.internal_id c = candidates.Class.id candidate
                        /\ Class.department c = candidates.Class.department candidate)
              (classes (db self)) with
  | Some (pos, db_class) =>
      if py_ne (Class.name db_class) (candidates.Class.name candidate) then
        raise (Exception ("Class name change attempt. " ++ str_opt (Class.name db_class)
                          ++ " to " ++ str_opt (candidates.Class.name candidate)
                          ++ " (iid " ++ str_int (candidates.Class.id candidate) ++ ")"))
      else if is_not_None (candidates.Class.abbreviation candidate) then
        if is_None (Class.abbreviation db_class) then
          let db_class :=
            Class.set_abbreviation (candidates.Class.abbreviation candidate) db_class in
          write (fun d => set_classes (<[pos := db_class]> (classes d)) d);;
          commit;;
          ret db_class
        else if is_not_None (Class.abbreviation db_class)
                && py_ne (Class.abbreviation db_class)
                         (candidates.Class.abbreviation candidate) then
          raise (Exception ("Class abbreviation change attempt. "
                            ++ str_opt (Class.abbreviation db_class)
                            ++ " to " ++ str_opt (candidates.Class.abbreviation candidate)
                            ++ " (iid " ++ str_int (candidates.Class.id candidate) ++ ")"))
        else ret db_class
      else ret db_class
  | None =>
      pk ← nextval;
      let db_class :=
        Class.mk pk (candidates.Class.id candidate) (candidates.Class.name candidate)
          (candidates.Class.department candidate)
          (candidates.Class.abbreviation candidate) (candidates.Class.ects candidate) in
      write (fun d => set_classes (classes d ++ [db_class])%list d);;
      commit;;
      ret db_class
  end.

(** One iteration of the loop of [add_class_instances]; the local variable
    is [ignored]. *)
Definition add_class_instances_step (ignored : Z)
    (instance : candidates.ClassInstance.t) : M Controller Z :=
  self ← get;
  match first (fun i => ClassInstance.parent i = candidates.ClassInstance.parent instance
                        /\ ClassInstance.year i = candidates.ClassInstance.year instance
                        /\ ClassInstance.period i = candidates.ClassInstance.period instance)
              (class_instances (db self)) with
  | Some _ => ret (ignored + 1)
  | None =>
      pk ← nextval;
      write (fun d => set_class_instances
               (class_instances d ++
                  [ClassInstance.mk pk (candidates.ClassInstance.parent instance)
                     (candidates.ClassInstance.year instance)
                     (candidates.ClassInstance.period instance)])%list d);;
      commit;;
      ret ignored
  end.

(** [Controller.add_class_instances] *)
Definition add_class_instances (instances : list candidates.ClassInstance.t) :
    M Controller unit :=
  for_fold instances 0 add_class_instances_step;; ret tt.

(** The new row of [add_room]. *)
Definition new_room (candidate : candidates.Room.t) : Room.t :=
  Room.mk (candidates.Room.id candidate) (candidates.Room.name candidate)
    (candidates.Room.type_ candidate) (candidates.Room.building candidate).

(** [Controller.add_room].  The body of the [try] gives back the room and
    the local flag [reload_cache]; the handler logs, rolls back and lets
    the method end without a value; the [finally] reloads the cache when
    the flag is set.  With the cache on, the dictionary is probed with the
    candidate's building, a mapped object ([inr]), and what it holds under a
    room name is the key [__load_rooms__] stored there. *)
Definition add_room (candidate : candidates.Room.t) : M Controller (option Room.t) :=
  '(room, reload_cache) ←
    try_except
      (self ← get;
       if __caching__ self then
         match __rooms__ self !! inr (candidates.Room.building candidate) with
         | Some by_type =>
             match by_type !! candidates.Room.type_ candidate with
             | Some by_name =>
                 match by_name !! candidates.Room.name candidate with
                 | Some pk => ret (snd <$> cached_object Room.id (rooms (db self)) pk, false)
                 | None =>
                     write (fun d => set_rooms (rooms d ++ [new_room candidate])%list d);;
                     commit;;
                     ret (Some (new_room candidate), true)
                 end
             | None =>
                 write (fun d => set_rooms (rooms d ++ [new_room candidate])%list d);;
                 commit;;
                 ret (Some (new_room candidate), true)
             end
         | None =>
             write (fun d => set_rooms (rooms d ++ [new_room candidate])%list d);;
             commit;;
             ret (Some (new_room candidate), true)
         end
       else
         match first (fun r => Room.name r = candidates.Room.name candidate
                               /\ Room.room_type r = candidates.Room.type_ candidate
                               /\ Room.building r = candidates.Room.building candidate)
                     (rooms (db self)) with
         | Some (_, room) => ret (Some room, false)
         | None =>
             write (fun d => set_rooms (rooms d ++ [new_room candidate])%list d);;
             commit;;
             ret (Some (new_room candidate), false)
         end)
      (fun _ => rollback;; ret (None, false));
  self ← get;
  (if __caching__ self && reload_cache then __load_rooms__ else ret tt);;
  ret room.

(** The rows [add_admissions] builds from its candidates. *)
Fixpoint new_admissions (pk : Z) (admissions : list candidates.Admission.t) :
    list Admission.t :=
  match admissions with
  | [] => []
  | admission :: rest =>
      Admission.mk pk (candidates.Admission.student admission)
        (candidates.Admission.name admission) (candidates.Admission.course admission)
        (candidates.Admission.phase admission) (candidates.Admission.year admission)
        (candidates.Admission.option_ admission) (candidates.Admission.state admission)
      :: new_admissions (pk + 1) rest
  end.

(** [Controller.add_admissions]: every candidate becomes a row; nothing is
    looked up. *)
Definition add_admissions (admissions : list candidates.Admission.t) :
    M Controller unit :=
  self ← get;
  let rows := new_admissions (sequence (db self)) admissions in
  write (fun d => set_sequence (sequence d + Z.of_nat (length rows))
                    (set_admissions (database.admissions d ++ rows)%list d));;
  if (0 <? Z.of_nat (length rows)) then commit else ret tt.

(** *** Turns *)

(** A many-to-many relationship of a turn ([turn.teachers],
    [turn.students]) as the session loads it: the partners of the rows
    of the association table that belong to the turn. *)
Definition collection (table : list (Z * Z)) (owner : Z) : list Z :=
  snd <$> filter (fun row => fst row = owner) table.

(** What the unit of work finds added to a collection when it flushes:
    the elements of the current list that were not in the list as loaded
    ([[c for c in current if c not in original]]), one association row
    each.  An element that was loaded yields no row, however often it
    occurs in the current list. *)
Definition added (original current : list Z) : list Z :=
  filter (fun c => c ∉ original) current.

(** [[turn.collection.append(x) for x in xs]] on such a relationship: the
    collection is loaded, every [x] is appended to the list in memory, and
    the rows for what was added are written.  The list in memory is
    returned. *)
Definition append_all (table : DB -> list (Z * Z))
    (set_table : list (Z * Z) -> DB -> DB) (owner : Z) (xs : list Z) :
    M Controller (list Z) :=
  self ← get;
  let original := collection (table (db self)) owner in
  let current := (original ++ xs)%list in
  write (fun d => set_table (table d ++ (pair owner <$> added original current))%list d);;
  ret current.

(** The update branch of [add_turn] and the local flag [changed]. *)
Definition update_turn (turn : candidates.Turn.t) (db_turn : Turn.t) : Turn.t * bool :=
  let changed := false in
  let '(db_turn, changed) :=
    if is_not_None (candidates.Turn.minutes turn)
       && py_ne (candidates.Turn.minutes turn) (Some 0)
    then (Turn.set_minutes (candidates.Turn.minutes turn) db_turn, true)
    else (db_turn, changed) in
  let '(db_turn, changed) :=
    if is_not_None (candidates.Turn.enrolled turn)
    then (Turn.set_enrolled (candidates.Turn.enrolled turn) db_turn, true)
    else (db_turn, changed) in
  let '(db_turn, changed) :=
    if is_not_None (candidates.Turn.capacity turn)
    then (Turn.set_capacity (candidates.Turn.capacity turn) db_turn, true)
    else (db_turn, changed) in
  let '(db_turn, changed) :=
    if is_not_None (candidates.Turn.minutes turn)
       && py_ne (candidates.Turn.minutes turn) (Some 0)
    then (Turn.set_minutes (candidates.Turn.minutes turn) db_turn, true)
    else (db_turn, changed) in
  let '(db_turn, changed) :=
    if is_not_None (candidates.Turn.routes turn)
    then (Turn.set_routes (candidates.Turn.routes turn) db_turn, true)
    else (db_turn, changed) in
  let '(db_turn, changed) :=
    if is_not_None (candidates.Turn.restrictions turn)
    then (Turn.set_restrictions (candidates.Turn.restrictions turn) db_turn, true)
    else (db_turn, changed) in
  let '(db_turn, changed) :=
    if is_not_None (candidates.Turn.state turn)
    then (Turn.set_state (candidates.Turn.state turn) db_turn, true)
    else (db_turn, changed) in
  (db_turn, changed).

(** [Controller.add_turn].  A new turn is built with
    [state=turn.restrictions], as the source has it. *)
Definition add_turn (turn : candidates.Turn.t) : M Controller Turn.t :=
  self ← get;
  db_turn ←
    match first (fun t => Turn.number t = candidates.Turn.number turn
                          /\ Turn.class_instance t = candidates.Turn.class_instance turn
                          /\ Turn.type_ t = candidates.Turn.type_ turn)
                (turns (db self)) with
    | None =>
        pk ← nextval;
        let db_turn :=
          Turn.mk pk (candidates.Turn.class_instance turn) (candidates.Turn.number turn)
            (candidates.Turn.type_ turn) (candidates.Turn.enrolled turn)
            (candidates.Turn.capacity turn) (candidates.Turn.minutes turn)
            (candidates.Turn.routes turn) (candidates.Turn.restrictions turn)
            (candidates.Turn.restrictions turn) in
        write (fun d => set_turns (turns d ++ [db_turn])%list d);;
        commit;;
        ret db_turn
    | Some (pos, db_turn) =>
        let '(db_turn, changed) := update_turn turn db_turn in
        write (fun d => set_turns (<[pos := db_turn]> (turns d)) d);;
        (if changed then commit else ret tt);;
        ret db_turn
    end;
  append_all turn_teachers set_turn_teachers (Turn.id db_turn)
    (candidates.Turn.teachers turn);;
  ret db_turn.

(** [Controller.add_turn_students]; [turn] is a persisted turn,
    [students] persisted students. *)
Definition add_turn_students (turn : Turn.t) (students : list Z) : M Controller unit :=
  append_all turn_students set_turn_students (Turn.id turn) students;;
  if (0 <? Z.of_nat (length students)) then commit else ret tt.

(** The first loop of [add_turn_instances]: the turn all candidates belong
    to, [None] for an empty list. *)
Fixpoint common_turn (turn : option Z) (instances : list candidates.TurnInstance.t) :
    M Controller (option Z) :=
  match instances with
  | [] => ret turn
  | instance :: rest =>
      match turn with
      | None => common_turn (Some (candidates.TurnInstance.turn instance)) rest
      | Some t =>
          if py_ne t (candidates.TurnInstance.turn instance)
          then raise (Exception "Instances belong to multiple turns")
          else common_turn turn rest
      end
  end.

(** The test of the inner loop: same start, end and weekday. *)
Definition same_slot (db_turn_instance : TurnInstance.t)
    (instance : candidates.TurnInstance.t) : bool :=
  py_eq (TurnInstance.start db_turn_instance) (candidates.TurnInstance.start instance)
  && py_eq (TurnInstance.end_ db_turn_instance) (candidates.TurnInstance.end_ instance)
  && py_eq (TurnInstance.weekday db_turn_instance)
           (candidates.TurnInstance.weekday instance).

(** The inner loop [for instance in instances[:]]: the first candidate in
    the slot of [db_turn_instance], and [instances] once
    [instances.remove(instance)] has run; [None] when the loop ends
    without a match. *)
Fixpoint take_match (db_turn_instance : TurnInstance.t)
    (instances : list candidates.TurnInstance.t) :
    option (candidates.TurnInstance.t * list candidates.TurnInstance.t) :=
  match instances with
  | [] => None
  | instance :: rest =>
      if same_slot db_turn_instance instance then Some (instance, rest)
      else
        match take_match db_turn_instance rest with
        | Some (found, rest') => Some (found, instance :: rest')
        | None => None
        end
  end.

(** The loop over the stored instances of the turn; the candidates still
    unmatched are handed from one iteration to the next.  A stored
    instance is the row with its primary key. *)
Definition sync_step (instances : list candidates.TurnInstance.t)
    (db_turn_instance : TurnInstance.t) : M Controller (list candidates.TurnInstance.t) :=
  match take_match db_turn_instance instances with
  | Some (instance, instances) =>
      (if py_ne (TurnInstance.room db_turn_instance) (candidates.TurnInstance.room instance)
       then
         write (fun d => set_turn_instances
                  ((fun row =>
                      if py_eq (TurnInstance.id row) (TurnInstance.id db_turn_instance)
                      then TurnInstance.set_room (candidates.TurnInstance.room instance) row
                      else row) <$> turn_instances d) d)
       else ret tt);;
      ret instances
  | None =>
      write (fun d => set_turn_instances
               (filter (fun row => TurnInstance.id row ≠ TurnInstance.id db_turn_instance)
                       (turn_instances d)) d);;
      ret instances
  end.

(** [turn.instances.append(models.TurnInstance(turn=turn, ...))] *)
Definition append_instance (turn : Z) (instance : candidates.TurnInstance.t) :
    M Controller unit :=
  pk ← nextval;
  write (fun d => set_turn_instances
           (turn_instances d ++
              [TurnInstance.mk pk turn (candidates.TurnInstance.start instance)
                 (candidates.TurnInstance.end_ instance)
                 (candidates.TurnInstance.room instance)
                 (candidates.TurnInstance.weekday instance)])%list d).

(** [Controller.add_turn_instances(instances, destructive=False)].  The
    method returns nothing.  What is given back here is the list the caller
    passed, as the call leaves it: the incremental loop takes out of that
    very list every candidate it has matched ([instances.remove(instance)]),
    so the caller is left with the candidates that were inserted; the other
    paths do not touch the list. *)
Definition add_turn_instances (instances : list candidates.TurnInstance.t)
    (destructive : bool) : M Controller (list candidates.TurnInstance.t) :=
  turn ← common_turn None instances;
  match turn with
  | None => ret instances
  | Some turn =>
      if destructive then
        try_except
          (write (fun d => set_turn_instances
                    (filter (fun row => TurnInstance.turn row ≠ turn) (turn_instances d)) d))
          (fun e =>
             rollback;;
             raise (Exception ("Error deleting turn instances for turn "
                               ++ str_int turn ++ nl ++ format_exc e)));;
        for_each instances (append_instance turn);;
        (if (0 <? Z.of_nat (length instances)) then commit else ret tt);;
        ret instances
      else
        self ← get;
        let db_turn_instances :=
          all (fun row => TurnInstance.turn row = turn) (turn_instances (db self)) in
        instances ← for_fold db_turn_instances instances sync_step;
        for_each instances (append_instance turn);;
        ret instances
  end.

(** [Controller.get_institution] *)
Definition get_institution (identifier : Z) : M Controller (option Institution.t) :=
  self ← get;
  if __caching__ self then
    match __institutions__ self !! identifier with
    | None => ret None
    | Some pk => ret (snd <$> cached_object Institution.id (institutions (db self)) pk)
    end
  else
    ret (snd <$> first (fun i => Institution.id i = identifier) (institutions (db self))).

(** [Controller.get_department] *)
Definition get_department (identifier : Z) : M Controller (option Department.t) :=
  self ← get;
  if __caching__ self then
    match __departments__ self !! identifier with
    | None => ret None
    | Some pk => ret (snd <$> cached_object Department.id (departments (db self)) pk)
    end
  else
    ret (snd <$> first (fun x => Department.id x = identifier) (departments (db self))).

(** *** Buildings

    [add_building] and [get_building] read one more attribute of the
    controller, the dictionary [__buildings__] from the name of a building
    to the building.  [WithBuildings] is the controller with that
    attribute; what the other methods do to the controller is done to
    [base]. *)
Record WithBuildings := mkWithBuildings {
  base : Controller;
  __buildings__ : gmap string Z
}.

Definition on_base {A} (m : M Controller A) : M WithBuildings A :=
  fun self => match m (base self) with
              | (r, c) => (r, mkWithBuildings c (__buildings__ self))
              end.

Definition __load_buildings__ : M WithBuildings unit :=
  self ← get;
  put (mkWithBuildings (base self)
         (foldl (fun d b => <[Building.name b := Building.id b]> d) ∅
                (buildings (db (base self))))).

(** [models.Building(id=building.id, name=building.name)] *)
Definition new_building (building : candidates.Building.t) : Building.t :=
  Building.mk (candidates.Building.id building) (candidates.Building.name building)
    {| first_year := None; last_year := None |}.

(** [Controller.add_building].  With the cache on, a name that is not in
    the dictionary leads to the [try]: its handler logs, rolls back and
    lets the method end without a value, and its [finally] reloads the
    dictionary.  With the cache off nothing catches what [commit] raises. *)
Definition add_building (building : candidates.Building.t) :
    M WithBuildings (option Building.t) :=
  self ← get;
  if __caching__ (base self) then
    match __buildings__ self !! candidates.Building.name building with
    | Some pk =>
        ret (snd <$> cached_object Building.id (buildings (db (base self))) pk)
    | None =>
        try_finally
          (try_except
             (on_base (write (fun d => set_buildings
                                (buildings d ++ [new_building building])%list d));;
              on_base commit;;
              ret (Some (new_building building)))
             (fun _ => on_base rollback;; ret None))
          (self ← get;
           if __caching__ (base self) then __load_buildings__ else ret tt)
    end
  else
    match first (fun b => Building.name b = candidates.Building.name building)
                (buildings (db (base self))) with
    | Some (_, db_building) => ret (Some db_building)
    | None =>
        on_base (write (fun d => set_buildings
                           (buildings d ++ [new_building building])%list d));;
        on_base commit;;
        ret (Some (new_building building))
    end.

(** [Controller.get_building] *)
Definition get_building (building : string) : M WithBuildings (option Building.t) :=
  self ← get;
  if __caching__ (base self) then
    match __buildings__ self !! building with
    | Some pk =>
        ret (snd <$> cached_object Building.id (buildings (db (base self))) pk)
    | None => ret None
    end
  else
    ret (snd <$> first (fun b => Building.name b = building) (buildings (db (base self)))).

(** *** Teachers, students, enrollments *)

(** [Controller.add_teacher].  With the cache on, the method also reloads
    the dictionary of teachers, an attribute that no method embedded here
    reads. *)
Definition add_teacher (candidate : candidates.Teacher.t) : M Controller Teacher.t :=
  self ← get;
  match first (fun t => Teacher.id t = candidates.Teacher.id candidate
                        /\ Teacher.name t = candidates.Teacher.name candidate
                        /\ Teacher.department t = candidates.Teacher.department candidate)
              (teachers (db self)) with
  | Some (_, teacher) => ret teacher
  | None =>
      let teacher :=
        Teacher.mk (candidates.Teacher.id candidate) (candidates.Teacher.name candidate)
          (candidates.Teacher.department candidate) in
      write (fun d => set_teachers (teachers d ++ [teacher])%list d);;
      commit;;
      ret teacher
  end.

(** [Student.__str__], of the mapped class and of the candidate. *)
Definition Student_str (name : option string) (id : option Z)
    (abbreviation : option string) : string :=
  str_opt name ++ " (" ++ match id with Some i => str_int i | None => "None" end
  ++ ", " ++ str_opt abbreviation ++ ")".

(** [models.Student(internal_id=student.id, ...)] under the key [pk]. *)
Definition new_student (pk : Z) (student : candidates.Student.t)
    (institution : option Z) : Student.t :=
  Student.mk pk (candidates.Student.id student) (candidates.Student.name student)
    (candidates.Student.abbreviation student) institution
    (Course.id <$> candidates.Student.course student).

(** [Controller.add_student] once the candidate has passed the checks of
    its name and identifier and [institution] has been read off it. *)
Definition add_student_checked (student : candidates.Student.t) (institution : option Z) :
    M Controller Student.t :=
  self ← get;
  let found := fun s => Student.internal_id s = candidates.Student.id student in
  match all found (students (db self)) with
  | [] =>
      pk ← nextval;
      let db_student := new_student pk student institution in
      write (fun d => set_students (students d ++ [db_student])%list d);;
      commit;;
      ret db_student
  | [db_student] =>
      let pos := match first found (students (db self)) with
                 | Some (pos, _) => pos
                 | None => 0%nat
                 end in
      if py_eq (Student.abbreviation db_student) (candidates.Student.abbreviation student)
         || py_eq (Student.name db_student) (candidates.Student.name student)
      then
        db_student ←
          (if is_None (Student.abbreviation db_student) then
             if is_not_None (candidates.Student.abbreviation student) then
               let db_student :=
                 Student.set_abbreviation (candidates.Student.abbreviation student)
                   db_student in
               write (fun d => set_students (<[pos := db_student]> (students d)) d);;
               commit;;
               ret db_student
             else ret db_student
           else if is_not_None (candidates.Student.abbreviation student)
                   && py_ne (candidates.Student.abbreviation student)
                            (Student.abbreviation db_student)
           then raise (Exception
                         ("Attempted to change the student abbreviation to another one" ++ nl
                          ++ "Student:"
                          ++ Student_str (Student.name db_student) (Some (Student.id db_student))
                               (Student.abbreviation db_student) ++ nl
                          ++ "Candidate"
                          ++ Student_str (candidates.Student.name student)
                               (candidates.Student.id student)
                               (candidates.Student.abbreviation student)))
           else ret db_student);
        match candidates.Student.course student with
        | Some course =>
            let db_student := Student.set_course (Some (Course.id course)) db_student in
            write (fun d => set_students (<[pos := db_student]> (students d)) d);;
            commit;;
            ret db_student
        | None => ret db_student
        end
      else
        pk ← nextval;
        let db_student := new_student pk student institution in
        write (fun d => set_students (students d ++ [db_student])%list d);;
        ret db_student
  | db_students =>
      raise (Exception
               ("Duplicated students found:" ++ nl
                ++ String.concat ""
                     ((fun s => Student_str (Student.name s) (Some (Student.id s))
                                  (Student.abbreviation s) ++ ",") <$> db_students)))
  end.

(** [Controller.add_student] *)
Definition add_student (student : candidates.Student.t) : M Controller Student.t :=
  (if is_None (candidates.Student.name student)
      || py_eq (candidates.Student.name student) (Some "")
   then raise (Exception "Invalid name") else ret tt);;
  (if is_None (candidates.Student.id student)
   then raise (Exception "No student ID provided") else ret tt);;
  institution ←
    match candidates.Student.course student with
    | Some course => ret (Course.institution course)
    | None =>
        if is_not_None (candidates.Student.institution student)
        then ret (candidates.Student.institution student)
        else raise (Exception "Neither course nor institution provided")
    end;
  add_student_checked student institution.

(** The update branch of [add_enrollments] and the local flag [changed]. *)
Definition update_enrollment (enrollment : candidates.Enrollment.t)
    (db_enrollment : Enrollment.t) : Enrollment.t * bool :=
  let changed := false in
  let '(db_enrollment, changed) :=
    if is_None (Enrollment.observation db_enrollment)
       && is_not_None (candidates.Enrollment.observation enrollment)
    then (Enrollment.set_observation (candidates.Enrollment.observation enrollment)
            db_enrollment, true)
    else (db_enrollment, changed) in
  let '(db_enrollment, changed) :=
    if is_None (Enrollment.student_year db_enrollment)
       && is_not_None (candidates.Enrollment.student_year enrollment)
    then (Enrollment.set_student_year (candidates.Enrollment.student_year enrollment)
            db_enrollment, true)
    else (db_enrollment, changed) in
  let '(db_enrollment, changed) :=
    if is_None (Enrollment.attempt db_enrollment)
       && is_not_None (candidates.Enrollment.attempt enrollment)
    then (Enrollment.set_attempt (candidates.Enrollment.attempt enrollment)
            db_enrollment, true)
    else (db_enrollment, changed) in
  let '(db_enrollment, changed) :=
    if is_None (Enrollment.statutes db_enrollment)
       && is_not_None (candidates.Enrollment.statutes enrollment)
    then (Enrollment.set_statutes (candidates.Enrollment.statutes enrollment)
            db_enrollment, true)
    else (db_enrollment, changed) in
  (db_enrollment, changed).

(** One iteration of the loop of [add_enrollments]; the local variables
    are [added] and [updated]. *)
Definition add_enrollments_step (counts : Z * Z)
    (enrollment : candidates.Enrollment.t) : M Controller (Z * Z) :=
  let '(added, updated) := counts in
  self ← get;
  match first (fun e => Enrollment.student e = candidates.Enrollment.student enrollment
                        /\ Enrollment.class_instance e
                           = candidates.Enrollment.class_instance enrollment)
              (enrollments (db self)) with
  | Some (pos, db_enrollment) =>
      let '(db_enrollment, changed) := update_enrollment enrollment db_enrollment in
      write (fun d => set_enrollments (<[pos := db_enrollment]> (enrollments d)) d);;
      if changed then commit;; ret (added, updated + 1) else ret (added, updated)
  | None =>
      pk ← nextval;
      write (fun d => set_enrollments
               (enrollments d ++
                  [Enrollment.mk pk (candidates.Enrollment.student enrollment)
                     (candidates.Enrollment.class_instance enrollment)
                     (candidates.Enrollment.attempt enrollment)
                     (candidates.Enrollment.student_year enrollment)
                     (candidates.Enrollment.statutes enrollment)
                     (candidates.Enrollment.observation enrollment)])%list d);;
      commit;;
      ret (added + 1, updated)
  end.

(** [Controller.add_enrollments] *)
Definition add_enrollments (enrollments : list candidates.Enrollment.t) :
    M Controller unit :=
  for_fold enrollments (0, 0) add_enrollments_step;; ret tt.
End database.
(** ** [crawler.py]: the worker loop *)

Module crawler.

Section PageCrawler.

(** [W] is the type of the work units, [St] everything a crawl task can
    reach: the web session and the worker's database session. *)
Context {W St : Type}.

(** [self.crawl_function], applied to the worker's web session and
    controller, and [db_session.rollback()]. *)
Variable crawl_function : W -> M St unit.
Variable db_session_rollback : M St unit.

(** A running [PageCrawler]: the state the task acts on and the work
    queue, and, to state properties, the calls of the task and the
    sleeps so far, oldest first. *)
Record Thread := mkThread {
  env : St;
  work_queue : list W;
  calls : list W;
  sleeps : list Z
}.

Definition lift {A} (m : M St A) : M Thread A :=
  fun th => match m (env th) with
            | (r, st) => (r, mkThread st (work_queue th) (calls th) (sleeps th))
            end.

(** [self.work_queue.get()], the queue being [work_unit :: rest]. *)
Definition work_queue_get (rest : list W) : M Thread unit :=
  modify (fun th => mkThread (env th) rest (calls th) (sleeps th)).

Definition call (work_unit : W) : M Thread unit :=
  modify (fun th => mkThread (env th) (work_queue th)
                      (calls th ++ [work_unit])%list (sleeps th));;
  lift (crawl_function work_unit).

(** [sleep(seconds)] *)
Definition sleep (seconds : Z) : M Thread unit :=
  modify (fun th => mkThread (env th) (work_queue th) (calls th)
                      (sleeps th ++ [seconds])%list).

(** The inner [while True] of [run], entered with the current value of
    [exception_count]; it gives back the value the counter has when the
    loop is left by [break]:
<<
    try:
        self.crawl_function(self.web_session, db_controller, work_unit)
        exception_count = 0
        break
    except Exception:
        db_session.rollback()
        exception_count += 1
    if exception_count > 10:
        raise Exception("Thread {} failed for more than 10 times.")
    sleep(5 + min(exception_count, 55))
>> *)
Equations? attempt (work_unit : W) (exception_count : nat) (th : Thread) :
    outcome nat * Thread by wf (11 - exception_count)%nat lt :=
  attempt work_unit exception_count th with call work_unit th => {
    | (Return _, th1) => (Return 0%nat, th1)
    | (Raise _, th1) with lift db_session_rollback th1 => {
        | (Raise e, th2) => (Raise e, th2)
        | (Return _, th2) with le_lt_dec (S exception_count) 10 => {
            | right _ =>
                (Raise (Exception "Thread {} failed for more than 10 times."), th2)
            | left _ =>
                attempt work_unit (S exception_count)
                  (snd (sleep (5 + Z.min (Z.of_nat (S exception_count)) 55) th2)) } } }.
Proof. lia. Qed.

(** The outer [while True] of [run], the work queue holding [queue]:
    pop under the lock, run the inner loop, go on; leave when the queue
    is empty. *)
Fixpoint drain (queue : list W) : M Thread unit :=
  match queue with
  | [] => ret tt
  | work_unit :: rest =>
      work_queue_get rest;;
      attempt work_unit 0;;
      drain rest
  end.

(** [PageCrawler.run] *)
Definition run : M Thread unit :=
  th ← get;
  drain (work_queue th).

End PageCrawler.

End crawler.

(** * Notions used to state the properties *)

(** The range invariant of the data model: both bounds unset, or both set
    and ordered. *)
Definition range_ok (e : models.TemporalEntity) : Prop :=
  match models.first_year e, models.last_year e with
  | None, None => True
  | Some f, Some l => f <= l
  | _, _ => False
  end.

Definition range (f l : Z) : models.TemporalEntity :=
  {| models.first_year := Some f; models.last_year := Some l |}.

Definition crange (f l : Z) : candidates.TemporalEntity :=
  {| candidates.first_year := Some f; candidates.last_year := Some l |}.

(** Unfolds a straight-line monadic body down to its comparisons. *)
Ltac run_M :=
  cbv [models.add_year candidates.add_year models.set_first_year
       models.set_last_year candidates.set_first_year
       candidates.set_last_year bind ret get put modify raise py_gt py_lt
       models.first_year models.last_year candidates.first_year
       candidates.last_year range crange is_None is_not_None negb].


(** A controller on a clean session over [d], as [Controller(registry,
    cache)] builds it: with the caches loaded when [cache] is set. *)
Definition uncached (d : database.DB) : database.Controller :=
  database.mkController (database.mkSession d d) false ∅ ∅ ∅ ∅ ∅.

Definition load_caches : M database.Controller unit :=
  database.__load_institutions__;;
  database.__load_departments__;;
  database.__load_courses__;;
  database.__load_rooms__.

Definition cached (d : database.DB) : database.Controller :=
  snd (load_caches (database.mkController (database.mkSession d d) true ∅ ∅ ∅ ∅ ∅)).

(** The result and the final state of a call. *)
Definition result {S A} (r : outcome A * S) : outcome A := fst r.
Definition final {S A} (r : outcome A * S) : S := snd r.

(** *** Sample data *)

Definition informatics : models.Course.t :=
  models.Course.mk 1 (Some 100) (Some "Informatics") (Some "LEI") None (Some 97747)
    (range 2010 2015).

Definition informatics_candidate (f l : Z) : candidates.Course.t :=
  candidates.Course.mk 100 (Some "Informatics") (Some 97747) None None (crange f l).

Definition course_db (rows : list models.Course.t) : database.DB :=
  database.set_sequence 10 (database.set_courses rows database.empty_db).

Definition lei_old : models.Course.t :=
  models.Course.mk 1 (Some 100) (Some "Informatics (pre-Bologna)") (Some "LEI") None
    (Some 97747) (range 1990 2005).

Definition lei_new : models.Course.t :=
  models.Course.mk 2 (Some 200) (Some "Informatics") (Some "LEI") None
    (Some 97747) (range 2006 2020).

(** *** Natural keys *)

(** The natural key of a stored class, and the one a candidate asks for. *)
Definition class_key (c : models.Class.t) : Z * Z :=
  (models.Class.internal_id c, models.Class.department c).

Definition class_candidate_key (c : candidates.Class.t) : Z * Z :=
  (candidates.Class.id c, candidates.Class.department c).

Definition algebra : models.Class.t :=
  models.Class.mk 1 7001 (Some "Linear Algebra") 12 (Some "AL") (Some 12).

Definition class_db (rows : list models.Class.t) : database.DB :=
  database.set_sequence 10 (database.set_classes rows database.empty_db).

(** Tactics for the monad: [mred] unfolds the plumbing, [mcase] splits on
    the next test the computation waits for. *)
Ltac mred :=
  cbv beta iota delta [bind ret get put modify raise try_except try_finally
                         database.write database.nextval result final fst snd].

Ltac mcase :=
  match goal with
  | |- context [if ?b then _ else _] => destruct b eqn:?
  | |- context [match ?x with Some _ => _ | None => _ end] => destruct x eqn:?
  end.

(** *** Reconciling twice *)

(** A stored class instance that carries the natural key of a candidate. *)
Definition stores_instance (self : database.Controller)
    (instance : candidates.ClassInstance.t) : Prop :=
  exists row, row ∈ database.class_instances (database.db self)
    /\ models.ClassInstance.parent row = candidates.ClassInstance.parent instance
    /\ models.ClassInstance.year row = candidates.ClassInstance.year instance
    /\ models.ClassInstance.period row = candidates.ClassInstance.period instance.

Definition ana : candidates.Admission.t :=
  candidates.Admission.mk None (Some "Ana Silva") (Some 200) 1 2018 1 (Some "Colocado").

Definition rui : candidates.Admission.t :=
  candidates.Admission.mk (Some 41000) (Some "Rui Costa") (Some 200) 1 2018 1
    (Some "Colocado").

Definition room_127 : candidates.Room.t :=
  candidates.Room.mk 900 "127" (Some models.classroom) 2.

(** *** Failures inside a batch *)

(** Whenever the body of the [try] raises, the method raises to its
    caller. *)
Definition reraises {A} (body call : M database.Controller A)
    (self : database.Controller) : Prop :=
  forall e s, body self = (Raise e, s) -> exists e' s', call self = (Raise e', s').

(** The session after a rollback to what [self] had committed. *)
Definition rolled_back (self : database.Controller) : database.Session :=
  database.mkSession (database.committed (database.session self))
    (database.committed (database.session self)).

(** Nothing is pending. *)
Definition clean (self : database.Controller) : Prop :=
  database.db self = database.committed (database.session self).

Definition physics : candidates.Department.t :=
  candidates.Department.mk 2 (Some "Physics") (Some 97747) (crange 1990 2018).

Definition maths : candidates.Department.t :=
  candidates.Department.mk 1 (Some "Mathematics") (Some 97747) (crange 1985 2018).

Definition renamed_informatics : candidates.Course.t :=
  candidates.Course.mk 100 (Some "Computer Science") (Some 97747) None None
    (crange 2010 2015).

Definition biology_candidate : candidates.Course.t :=
  candidates.Course.mk 300 (Some "Biology") (Some 97747) None (Some "LB")
    (crange 2000 2015).

(** *** Turns *)

(** The stored turn a candidate resolves to: the first with its number,
    class instance and type. *)
Definition resolves_to (self : database.Controller) (turn : candidates.Turn.t)
    (db_turn : models.Turn.t) : Prop :=
  exists pos,
    database.first
      (fun t => models.Turn.number t = candidates.Turn.number turn
                /\ models.Turn.class_instance t = candidates.Turn.class_instance turn
                /\ models.Turn.type_ t = candidates.Turn.type_ turn)
      (database.turns (database.db self)) = Some (pos, db_turn).

(** The teachers, and the students, associated with a turn. *)
Definition teachers_of (self : database.Controller) (turn : Z) : list Z :=
  database.collection (database.turn_teachers (database.db self)) turn.

Definition students_of (self : database.Controller) (turn : Z) : list Z :=
  database.collection (database.turn_students (database.db self)) turn.

Definition practical_1 : models.Turn.t :=
  models.Turn.mk 5 31 1 (Some 2) (Some 20) (Some 25) (Some 120) None None (Some "Aberto").

Definition practical_1_candidate (teachers : list Z) : candidates.Turn.t :=
  candidates.Turn.mk 31 1 (Some 2) (Some 22) (Some 25) (Some 120) None None
    (Some "Aberto") teachers.

Definition turn_db : database.DB :=
  database.set_sequence 10
    (database.set_turn_students [(5, 41000); (5, 41001)]
       (database.set_turn_teachers [(5, 77)]
          (database.set_turns [practical_1] database.empty_db))).

(** Reduces the accessors of the session and of the tables, nothing else. *)
Ltac db_red :=
  cbn [database.db database.session database.pending database.committed
       database.set_session database.__caching__
       database.institutions database.departments database.classes
       database.class_instances database.courses database.buildings database.rooms
       database.turns database.turn_instances database.turn_teachers
       database.turn_students database.admissions database.teachers
       database.students database.enrollments database.sequence
       database.set_institutions database.set_departments database.set_classes
       database.set_class_instances database.set_courses database.set_buildings
       database.set_rooms database.set_turns database.set_turn_instances
       database.set_turn_teachers database.set_turn_students database.set_admissions
       database.set_teachers database.set_students database.set_enrollments
       database.set_sequence].

(** *** Time slots of a turn *)

(** The slot of a stored instance and of a candidate: start, end, weekday. *)
Definition slot (row : models.TurnInstance.t) : Z * Z * Z :=
  (models.TurnInstance.start row, models.TurnInstance.end_ row,
   models.TurnInstance.weekday row).

Definition candidate_slot (instance : candidates.TurnInstance.t) : Z * Z * Z :=
  (candidates.TurnInstance.start instance, candidates.TurnInstance.end_ instance,
   candidates.TurnInstance.weekday instance).

(** The instances stored for a turn. *)
Definition instances_of (self : database.Controller) (turn : Z) :
    list models.TurnInstance.t :=
  database.all (fun row => models.TurnInstance.turn row = turn)
    (database.turn_instances (database.db self)).

(** The row a candidate is stored as, under the key [pk]. *)
Definition stored_as (pk : Z) (instance : candidates.TurnInstance.t) :
    models.TurnInstance.t :=
  models.TurnInstance.mk pk (candidates.TurnInstance.turn instance)
    (candidates.TurnInstance.start instance) (candidates.TurnInstance.end_ instance)
    (candidates.TurnInstance.room instance) (candidates.TurnInstance.weekday instance).

(** The controller with the table of turn instances replaced. *)
Definition with_turn_instances (rows : list models.TurnInstance.t)
    (self : database.Controller) : database.Controller :=
  database.set_session
    (database.mkSession (database.committed (database.session self))
       (database.set_turn_instances rows (database.db self)))
    self.

(** What one iteration of the loop over the stored instances does to the
    table and to the list of candidates. *)
Definition sync_rows (db_turn_instance : models.TurnInstance.t)
    (instances : list candidates.TurnInstance.t)
    (rows : list models.TurnInstance.t) : list models.TurnInstance.t :=
  match database.take_match db_turn_instance instances with
  | Some (instance, _) =>
      if py_ne (models.TurnInstance.room db_turn_instance)
               (candidates.TurnInstance.room instance)
      then (fun row =>
              if py_eq (models.TurnInstance.id row) (models.TurnInstance.id db_turn_instance)
              then models.TurnInstance.set_room (candidates.TurnInstance.room instance) row
              else row) <$> rows
      else rows
  | None =>
      filter (fun row => models.TurnInstance.id row ≠ models.TurnInstance.id db_turn_instance)
             rows
  end.

Definition sync_candidates (db_turn_instance : models.TurnInstance.t)
    (instances : list candidates.TurnInstance.t) : list candidates.TurnInstance.t :=
  match database.take_match db_turn_instance instances with
  | Some (_, instances) => instances
  | None => instances
  end.

(** The same for the whole loop. *)
Fixpoint sync_all (existing : list models.TurnInstance.t)
    (instances : list candidates.TurnInstance.t) (rows : list models.TurnInstance.t) :
    list models.TurnInstance.t * list candidates.TurnInstance.t :=
  match existing with
  | [] => (rows, instances)
  | db_turn_instance :: others =>
      sync_all others (sync_candidates db_turn_instance instances)
        (sync_rows db_turn_instance instances rows)
  end.

(** The rows the closing loop appends, the generator standing at [pk]. *)
Fixpoint new_rows (pk turn : Z) (instances : list candidates.TurnInstance.t) :
    list models.TurnInstance.t :=
  match instances with
  | [] => []
  | instance :: rest =>
      models.TurnInstance.mk pk turn (candidates.TurnInstance.start instance)
        (candidates.TurnInstance.end_ instance) (candidates.TurnInstance.room instance)
        (candidates.TurnInstance.weekday instance)
      :: new_rows (pk + 1) turn rest
  end.

(** The first candidate in the slot of a stored instance. *)
Definition matching (instances : list candidates.TurnInstance.t)
    (row : models.TurnInstance.t) : option candidates.TurnInstance.t :=
  List.find (fun c => bool_decide (candidate_slot c = slot row)) instances.

(** A list of candidates without its first candidate in the slot [s]. *)
Fixpoint remove_first (s : Z * Z * Z) (instances : list candidates.TurnInstance.t) :
    list candidates.TurnInstance.t :=
  match instances with
  | [] => []
  | c :: rest => if decide (candidate_slot c = s) then rest else c :: remove_first s rest
  end.

(** What is left of the candidates once every stored instance of
    [existing] has taken the first candidate in its slot. *)
Definition leftover (existing : list models.TurnInstance.t)
    (instances : list candidates.TurnInstance.t) : list candidates.TurnInstance.t :=
  foldl (fun left e => remove_first (slot e) left) instances existing.

(** What becomes of a stored instance of the turn: it takes the room of
    the first candidate in its slot, or goes when there is none. *)
Definition kept (instances : list candidates.TurnInstance.t)
    (row : models.TurnInstance.t) : option models.TurnInstance.t :=
  match matching instances row with
  | Some instance =>
      Some (models.TurnInstance.set_room (candidates.TurnInstance.room instance) row)
  | None => None
  end.

(** Monday to Friday, and times in minutes from midnight, as stored. *)
Definition monday : Z := 0.
Definition wednesday : Z := 2.
Definition friday : Z := 4.
Definition room_a : option Z := Some 101.
Definition room_b : option Z := Some 102.

Definition schedule_db : database.DB :=
  database.set_sequence 10
    (database.set_turn_instances
       [models.TurnInstance.mk 1 5 540 660 room_a monday;
        models.TurnInstance.mk 2 5 540 660 room_a wednesday;
        models.TurnInstance.mk 3 6 540 660 room_a wednesday]
       database.empty_db).

Definition schedule_candidates : list candidates.TurnInstance.t :=
  [candidates.TurnInstance.mk 5 540 660 monday room_b;
   candidates.TurnInstance.mk 5 840 960 friday room_a].

(** What becomes of a stored row when the instances [existing] are
    synchronised with the candidates: a row of [existing] takes the room of
    the first candidate in its slot, or goes when there is none; any other
    row stays. *)
Definition synced (existing : list models.TurnInstance.t)
    (instances : list candidates.TurnInstance.t) (row : models.TurnInstance.t) :
    option models.TurnInstance.t :=
  if decide (row ∈ existing) then kept instances row else Some row.

(** The candidates in the slot of no stored instance of [existing]. *)
Definition unmatched (existing : list models.TurnInstance.t)
    (instances : list candidates.TurnInstance.t) : list candidates.TurnInstance.t :=
  filter (fun instance => Forall (fun row => slot row ≠ candidate_slot instance) existing)
         instances.

(** *** Crawl tasks *)

(** A task that raises whatever the state it is called in, and a
    computation that always returns. *)
Definition always_fails {W St} (crawl_function : W -> M St unit) (work_unit : W) : Prop :=
  forall st, exists e st', crawl_function work_unit st = (Raise e, st').

Definition always_returns {St} (m : M St unit) : Prop :=
  forall st, exists st', m st = (Return tt, st').

(** [fails_before_success k st st']: from [st], the task on [work_unit]
    raises [k] times, each failure followed by a rollback that returns, and
    then returns, leaving [st']. *)
Inductive fails_before_success {W St} (crawl_function : W -> M St unit)
    (db_session_rollback : M St unit) (work_unit : W) : nat -> St -> St -> Prop :=
| fbs_success st st' :
    crawl_function work_unit st = (Return tt, st') ->
    fails_before_success crawl_function db_session_rollback work_unit 0 st st'
| fbs_failure k st e st1 st2 st' :
    crawl_function work_unit st = (Raise e, st1) ->
    db_session_rollback st1 = (Return tt, st2) ->
    fails_before_success crawl_function db_session_rollback work_unit k st2 st' ->
    fails_before_success crawl_function db_session_rollback work_unit (S k) st st'.

(** The sleeps after the failures number [from + 1] to [from + n]. *)
Definition delays (from n : nat) : list Z :=
  (fun failures => 5 + Z.min (Z.of_nat failures) 55) <$> seq (S from) n.

(** A task on work units numbered by [Z] that fails on unit 7 and counts
    its successes. *)
Definition flaky (work_unit : Z) : M nat unit :=
  if bool_decide (work_unit = 7) then raise (Exception "timeout")
  else modify S.

Definition building_db : database.DB :=
  database.set_buildings [models.Building.mk 2 "Ed. II" (range 2001 2018)]
    database.empty_db.

(** *** Batches without the cache *)

(** The keys of the institutions and of the departments the open
    transaction sees. *)
Definition institution_ids (self : database.Controller) : list Z :=
  models.Institution.id <$> database.institutions (database.db self).

Definition department_ids (self : database.Controller) : list Z :=
  models.Department.id <$> database.departments (database.db self).

(** *** Rebuilding the instances of a turn *)

(** The columns of the unique constraint of a turn instance but the turn. *)
Definition candidate_start (instance : candidates.TurnInstance.t) : Z * Z :=
  (candidates.TurnInstance.start instance, candidates.TurnInstance.weekday instance).

(** Every stored instance has a key the generator has passed. *)
Definition keys_generated (self : database.Controller) : Prop :=
  forall row, row ∈ database.turn_instances (database.db self) ->
              models.TurnInstance.id row < database.sequence (database.db self).

(** *** Merging a candidate

    The tests a merge branches on, once their operands are known. *)
Ltac merge_case :=
  match goal with
  | |- context [?a >? ?b] => rewrite (Z.gtb_ltb a b)
  | |- context [?a <? ?b] => is_var a; is_var b; destruct (Z.ltb_spec a b)
  | |- context [bool_decide (?x = Some ?y)] =>
      is_var x; is_var y; destruct (bool_decide_reflect (x = Some y)); [subst x|]
  | |- context [bool_decide (Some ?x = Some ?y)] =>
      is_var x; destruct (bool_decide_reflect (Some x = Some y))
  | |- context [bool_decide (None = Some ?y)] =>
      rewrite (bool_decide_eq_false_2 (None = Some y)) by discriminate
  end.

Ltac merge_cases :=
  cbn; repeat (merge_case; cbn); try reflexivity; try congruence; try lia.

(** *** Reconciling a candidate twice

    [resolves_in view call wrap stored self]: when [call] returns [wrap r]
    from [self], then [r] is stored under the natural key of the candidate
    in the state the call leaves, and [call] from that state returns
    [wrap r] again and leaves what [view] shows of the state as it is. *)
Definition resolves_in {S A R V} (view : S -> V) (call : M S A) (wrap : R -> A)
    (stored : R -> S -> Prop) (self : S) : Prop :=
  forall r self1, call self = (Return (wrap r), self1) ->
    stored r self1
    /\ exists self2, call self1 = (Return (wrap r), self2) /\ view self2 = view self1.

(** The natural keys, as the lookups of the [add_] methods read them. *)
Definition stored_class (candidate : candidates.Class.t) (db_class : models.Class.t)
    (self : database.Controller) : Prop :=
  db_class ∈ database.classes (database.db self)
  /\ models.Class.internal_id db_class = candidates.Class.id candidate
  /\ models.Class.department db_class = candidates.Class.department candidate.

Definition stored_class_instances (instances : list candidates.ClassInstance.t) (_ : unit)
    (self : database.Controller) : Prop :=
  forall instance, instance ∈ instances -> stores_instance self instance.

Definition stored_room (candidate : candidates.Room.t) (room : models.Room.t)
    (self : database.Controller) : Prop :=
  room ∈ database.rooms (database.db self)
  /\ models.Room.name room = candidates.Room.name candidate
  /\ models.Room.room_type room = candidates.Room.type_ candidate
  /\ models.Room.building room = candidates.Room.building candidate.

Definition stored_building (building : candidates.Building.t) (db_building : models.Building.t)
    (self : database.WithBuildings) : Prop :=
  db_building ∈ database.buildings (database.db (database.base self))
  /\ models.Building.name db_building = candidates.Building.name building.

Definition stored_teacher (candidate : candidates.Teacher.t) (teacher : models.Teacher.t)
    (self : database.Controller) : Prop :=
  teacher ∈ database.teachers (database.db self)
  /\ models.Teacher.id teacher = candidates.Teacher.id candidate
  /\ models.Teacher.name teacher = candidates.Teacher.name candidate
  /\ models.Teacher.department teacher = candidates.Teacher.department candidate.

Definition stored_student (student : candidates.Student.t) (db_student : models.Student.t)
    (self : database.Controller) : Prop :=
  db_student ∈ database.students (database.db self)
  /\ models.Student.internal_id db_student = candidates.Student.id student.

Definition stored_enrollment (enrollment : candidates.Enrollment.t) (_ : unit)
    (self : database.Controller) : Prop :=
  exists row, row ∈ database.enrollments (database.db self)
    /\ models.Enrollment.student row = candidates.Enrollment.student enrollment
    /\ models.Enrollment.class_instance row = candidates.Enrollment.class_instance enrollment.

Definition stored_institution (candidate : candidates.Institution.t) (_ : unit)
    (self : database.Controller) : Prop :=
  exists row, row ∈ database.institutions (database.db self)
    /\ models.Institution.id row = candidates.Institution.id candidate.

Definition stored_department (candidate : candidates.Department.t) (_ : unit)
    (self : database.Controller) : Prop :=
  exists row, row ∈ database.departments (database.db self)
    /\ models.Department.id row = candidates.Department.id candidate.

Definition stored_course (course : candidates.Course.t) (_ : unit)
    (self : database.Controller) : Prop :=
  exists row, row ∈ database.courses (database.db self)
    /\ models.Course.internal_id row = Some (candidates.Course.id course)
    /\ models.Course.institution row = candidates.Course.institution course.

Definition stored_turn (turn : candidates.Turn.t) (db_turn : models.Turn.t)
    (self : database.Controller) : Prop :=
  db_turn ∈ database.turns (database.db self)
  /\ models.Turn.number db_turn = candidates.Turn.number turn
  /\ models.Turn.class_instance db_turn = candidates.Turn.class_instance turn
  /\ models.Turn.type_ db_turn = candidates.Turn.type_ turn.

Definition stored_admission (admission : candidates.Admission.t) (_ : unit)
    (self : database.Controller) : Prop :=
  exists row, row ∈ database.admissions (database.db self)
    /\ models.Admission.student row = candidates.Admission.student admission
    /\ models.Admission.name row = candidates.Admission.name admission
    /\ models.Admission.course row = candidates.Admission.course admission
    /\ models.Admission.phase row = candidates.Admission.phase admission
    /\ models.Admission.year row = candidates.Admission.year admission
    /\ models.Admission.option_ row = candidates.Admission.option_ admission.

(** With the cache on, the dictionary is what loading it again would
    give. *)
Definition institutions_current (self : database.Controller) : Prop :=
  database.__caching__ self = true -> final (database.__load_institutions__ self) = self.

Definition departments_current (self : database.Controller) : Prop :=
  database.__caching__ self = true -> final (database.__load_departments__ self) = self.

Definition buildings_current (self : database.WithBuildings) : Prop :=
  database.__caching__ (database.base self) = true ->
  final (database.__load_buildings__ self) = self.

(** A batch of one institution or department has been committed with
    [rows] as the table. *)
Definition committed_institutions (rows : list models.Institution.t)
    (self s : database.Controller) : Prop :=
  database.db s = database.set_institutions rows (database.db self)
  /\ database.__caching__ s = database.__caching__ self
  /\ institutions_current s
  /\ database.integrity (database.db s) = true.

Definition committed_departments (rows : list models.Department.t)
    (self s : database.Controller) : Prop :=
  database.db s = database.set_departments rows (database.db self)
  /\ database.__caching__ s = database.__caching__ self
  /\ departments_current s
  /\ database.integrity (database.db s) = true.

(** The rows the insert branches build. *)
Definition new_institution (candidate : candidates.Institution.t) : models.Institution.t :=
  models.Institution.mk (candidates.Institution.id candidate)
    (candidates.Institution.name candidate)
    (candidates.Institution.abbreviation candidate)
    {| models.first_year := candidates.Institution.first_year candidate;
       models.last_year := candidates.Institution.last_year candidate |}.

Definition new_department (candidate : candidates.Department.t) : models.Department.t :=
  models.Department.mk (candidates.Department.id candidate)
    (candidates.Department.name candidate)
    (candidates.Department.institution candidate)
    {| models.first_year := candidates.Department.first_year candidate;
       models.last_year := candidates.Department.last_year candidate |}.

Definition new_course (pk : Z) (course : candidates.Course.t) : models.Course.t :=
  models.Course.mk pk (Some (candidates.Course.id course)) (candidates.Course.name course)
    (candidates.Course.abbreviation course) (candidates.Course.degree course)
    (candidates.Course.institution course)
    {| models.first_year := candidates.Course.first_year course;
       models.last_year := candidates.Course.last_year course |}.

(** No student is stored under the identifier of the candidate with
    another name and another abbreviation. *)
Definition student_agrees (student : candidates.Student.t) (self : database.Controller) :
    Prop :=
  forall s, s ∈ database.students (database.db self) ->
    models.Student.internal_id s = candidates.Student.id student ->
    models.Student.abbreviation s = candidates.Student.abbreviation student
    \/ models.Student.name s = candidates.Student.name student.

(** The turn of the candidate is stored, or the candidate brings no
    state of its own: a new turn is built with the restrictions of the
    candidate as its state. *)
Definition turn_settled (turn : candidates.Turn.t) (self : database.Controller) : Prop :=
  (exists db_turn, resolves_to self turn db_turn)
  \/ candidates.Turn.state turn = None
  \/ candidates.Turn.state turn = candidates.Turn.restrictions turn.

(** Sample data: a stored student and a candidate with the same
    identifier under another name and another abbreviation; a candidate
    turn that brings a state of its own. *)
Definition stored_rui : models.Student.t :=
  models.Student.mk 1 (Some 41000) (Some "Rui Costa") (Some "r.costa") (Some 1) None.

Definition other_rui : candidates.Student.t :=
  candidates.Student.mk (Some 41000) (Some "Rui M. Costa") (Some "rm.costa")
    (Some informatics) None.

Definition student_db : database.DB :=
  database.set_sequence 2 (database.set_students [stored_rui] database.empty_db).

Definition lecture_candidate : candidates.Turn.t :=
  candidates.Turn.mk 7 1 (Some 1) None None None None (Some "LEI") (Some "Aberto") [].

Definition nova : candidates.Institution.t :=
  candidates.Institution.mk 97747 (Some "Universidade Nova") (Some "UNL") (crange 2001 2019).
(** * Properties *)

(** ** Temporal range tracking *)

Example add_year_unset :
  models.add_year (Some 2011)
    {| models.first_year := None; models.last_year := None |}
  = (Return tt, range 2011 2011).
Proof. reflexivity. Qed.

Example add_year_candidate_none_raises :
  exists msg e,
    candidates.add_year None
      {| candidates.first_year := None; candidates.last_year := None |}
    = (Raise (TypeError msg), e).
Proof. eexists _, _. reflexivity. Qed.

(** A year inside a set range changes nothing, in the persisted entity. *)
Lemma add_year_inside (f l y : Z) :
  f <= y <= l ->
  models.add_year (Some y) (range f l) = (Return tt, range f l).
Proof.
  intros [Hf Hl]. run_M. cbn.
  destruct (Z.ltb_spec y f); [lia|].
  destruct (Z.ltb_spec l y); [lia|]. reflexivity.
Qed.

(** The same for a candidate. *)
Lemma add_year_candidate_inside (f l y : Z) :
  f <= y <= l ->
  candidates.add_year (Some y) (crange f l) = (Return tt, crange f l).
Proof.
  intros [Hf Hl]. run_M. cbn.
  destruct (Z.ltb_spec y f); [lia|].
  destruct (Z.ltb_spec l y); [lia|]. reflexivity.
Qed.

(** C4. [add_year] widens monotonically: from [2010, 2012], adding 2008 and
    then 2015 gives exactly [2008, 2015], for the persisted entity and for
    the candidate; and adding a year [y] with [first_year <= y <= last_year]
    returns with both bounds unchanged. *)
Theorem add_year_monotonic_widening (f l y : Z) (Hin : f <= y <= l) :
  (models.add_year (Some 2008);; models.add_year (Some 2015)) (range 2010 2012)
    = (Return tt, range 2008 2015)
  /\ (candidates.add_year (Some 2008);; candidates.add_year (Some 2015))
       (crange 2010 2012)
     = (Return tt, crange 2008 2015)
  /\ models.add_year (Some y) (range f l) = (Return tt, range f l)
  /\ candidates.add_year (Some y) (crange f l) = (Return tt, crange f l).
Proof.
  split; [reflexivity|]. split; [reflexivity|].
  split; [apply add_year_inside | apply add_year_candidate_inside]; exact Hin.
Qed.

Lemma add_year_monotonic_widening_witness :
  2010 <= 2011 <= 2012
  /\ models.add_year (Some 2011) (range 2010 2012) = (Return tt, range 2010 2012).
Proof.
  split; [lia|].
  apply (add_year_monotonic_widening 2010 2012 2011); lia.
Defined.

(** C10. [TemporalEntity.add_year] of the persisted entities keeps the range
    invariant (both bounds unset, or both set with
    [first_year <= last_year]) for every argument, never raising; and
    [add_year(None)] returns with both bounds exactly as they were. *)
Theorem add_year_preserves_range_ok (e : models.TemporalEntity) (year : option Z)
    (Hok : range_ok e) :
  (exists e', models.add_year year e = (Return tt, e') /\ range_ok e')
  /\ models.add_year None e = (Return tt, e).
Proof.
  split; [|reflexivity].
  destruct year as [y|]; [|exists e; split; [reflexivity|exact Hok]].
  destruct e as [[f|] [l|]]; cbv [range_ok models.first_year models.last_year] in Hok;
    try contradiction.
  - run_M. cbn.
    destruct (Z.ltb_spec y f).
    + eexists; split; [reflexivity|]. cbv [range_ok]. cbn. lia.
    + destruct (Z.ltb_spec l y); eexists; (split; [reflexivity|]);
        cbv [range_ok]; cbn; lia.
  - run_M. cbn. rewrite Z.ltb_irrefl.
    eexists; split; [reflexivity|]. cbv [range_ok]. cbn. lia.
Qed.

Lemma add_year_preserves_range_ok_witness :
  range_ok (range 2010 2012)
  /\ exists e', models.add_year (Some 2015) (range 2010 2012) = (Return tt, e')
                /\ range_ok e'.
Proof.
  assert (Hok : range_ok (range 2010 2012)) by (cbv [range_ok range]; cbn; lia).
  split; [exact Hok|].
  exact (proj1 (add_year_preserves_range_ok (range 2010 2012) (Some 2015) Hok)).
Defined.

(** ** Temporal ranges under batch reconciliation *)

(** Merging a candidate into a stored institution never narrows a set
    range. *)
Lemma update_institution_widens candidate institution f l :
  models.Institution.first_year institution = Some f ->
  models.Institution.last_year institution = Some l ->
  exists f' l',
    models.Institution.first_year (fst (database.update_institution candidate institution))
      = Some f'
    /\ models.Institution.last_year (fst (database.update_institution candidate institution))
       = Some l'
    /\ f' <= f /\ l <= l'.
Proof.
  destruct institution as [i n a [fy ly]], candidate as [ci cn ca [cf cl]].
  cbn. intros -> ->. unfold database.update_institution. cbn.
  destruct (is_not_None cn && _), (is_not_None ca); cbn;
    destruct cf as [cf|], cl as [cl|]; cbn;
    repeat match goal with
           | |- context [?a <? ?b] => destruct (Z.ltb_spec a b); cbn
           | |- context [?a >? ?b] => rewrite (Z.gtb_ltb a b)
           end;
    eexists _, _; (split; [reflexivity|]); (split; [reflexivity|]); lia.
Qed.

(** The same for a stored department. *)
Lemma update_department_widens candidate department f l :
  models.Department.first_year department = Some f ->
  models.Department.last_year department = Some l ->
  exists f' l',
    models.Department.first_year (fst (database.update_department candidate department))
      = Some f'
    /\ models.Department.last_year (fst (database.update_department candidate department))
       = Some l'
    /\ f' <= f /\ l <= l'.
Proof.
  destruct department as [i n a [fy ly]], candidate as [ci cn ca [cf cl]].
  cbn. intros -> ->. unfold database.update_department. cbn.
  destruct (is_not_None cn && _); cbn;
    destruct cf as [cf|], cl as [cl|]; cbn;
    repeat match goal with
           | |- context [?a <? ?b] => destruct (Z.ltb_spec a b); cbn
           | |- context [?a >? ?b] => rewrite (Z.gtb_ltb a b)
           end;
    eexists _, _; (split; [reflexivity|]); (split; [reflexivity|]); lia.
Qed.

(** For a stored course the lower bound is never raised. *)
Lemma update_course_first_year course db_course f :
  models.Course.first_year db_course = Some f ->
  exists f',
    models.Course.first_year (fst (database.update_course course db_course)) = Some f'
    /\ f' <= f.
Proof.
  destruct db_course as [i ii n a dg inst [fy ly]], course as [ci cn cinst cd ca [cf cl]].
  cbn. intros ->. unfold database.update_course. cbn.
  destruct (is_not_None ca), (is_not_None cd); cbn;
    destruct cf as [cf|], cl as [cl|], ly as [ly|]; cbn;
    repeat match goal with
           | |- context [?a <? ?b] => destruct (Z.ltb_spec a b); cbn
           end;
    eexists; (split; [reflexivity|]); lia.
Qed.

(** With both bounds unset, each of the three merges takes the bounds of the
    candidate. *)
Lemma update_initialises_range :
  (forall candidate institution,
      models.Institution.temporal institution
        = {| models.first_year := None; models.last_year := None |} ->
      models.Institution.temporal (fst (database.update_institution candidate institution))
      = {| models.first_year := candidates.Institution.first_year candidate;
           models.last_year := candidates.Institution.last_year candidate |})
  /\ (forall candidate department,
        models.Department.temporal department
          = {| models.first_year := None; models.last_year := None |} ->
        models.Department.temporal (fst (database.update_department candidate department))
        = {| models.first_year := candidates.Department.first_year candidate;
             models.last_year := candidates.Department.last_year candidate |})
  /\ (forall course db_course,
        models.Course.temporal db_course
          = {| models.first_year := None; models.last_year := None |} ->
        models.Course.temporal (fst (database.update_course course db_course))
        = {| models.first_year := candidates.Course.first_year course;
             models.last_year := candidates.Course.last_year course |}).
Proof.
  split; [|split].
  - intros [ci cn ca [cf cl]] [i n a t]. cbn. intros ->.
    unfold database.update_institution. cbn.
    destruct (is_not_None cn && _), (is_not_None ca); reflexivity.
  - intros [ci cn cinst [cf cl]] [i n inst t]. cbn. intros ->.
    unfold database.update_department. cbn.
    destruct (is_not_None cn && _); reflexivity.
  - intros [ci cn cinst cd ca [cf cl]] [i ii n a dg inst t]. cbn. intros ->.
    unfold database.update_course. cbn.
    destruct (is_not_None ca), (is_not_None cd); reflexivity.
Qed.

(** C1. The stored course [2010, 2015] and the candidate of the same course
    with the years [2010, 2012]: [add_courses] returns, and the stored and
    committed upper bound is 2012, below the 2015 it was. *)
Theorem add_courses_narrows_last_year :
  let before := uncached (course_db [informatics]) in
  let after := final (database.add_courses [informatics_candidate 2010 2012] before) in
  result (database.add_courses [informatics_candidate 2010 2012] before) = Return tt
  /\ models.Course.last_year <$> database.courses (database.db before) = [Some 2015]
  /\ models.Course.last_year <$> database.courses (database.db after) = [Some 2012]
  /\ database.committed (database.session after) = database.db after.
Proof. vm_compute. repeat split. Qed.

(** ** Course lookup *)

Example get_course_by_identifier :
  result (database.get_course (Some 200) None None (uncached (course_db [lei_old; lei_new])))
  = Return (Some lei_new).
Proof. vm_compute. reflexivity. Qed.

Example get_course_cached_no_year :
  result (database.get_course None (Some "LEI") None (cached (course_db [lei_old; lei_new])))
  = Raise (Exception "Multiple matches. Year unspecified").
Proof. vm_compute. reflexivity. Qed.

(** C8. Where [get_course] leaves the claim.  Without the cache the rows are
    selected by [internal_id=identifier], the identifier being [None]: the
    only course that uses an abbreviation is not returned, and with two
    courses on one abbreviation and no year nothing is raised.  With the
    cache, two courses on one abbreviation and a year inside the range of
    the second: the loop reads [initial_year] and the call ends in an
    [AttributeError]. *)
Theorem get_course_by_abbreviation_fails :
  result (database.get_course None (Some "LEI") None (uncached (course_db [lei_new])))
    = Return None
  /\ result (database.get_course None (Some "LEI") None
               (uncached (course_db [lei_old; lei_new])))
     = Return None
  /\ result (database.get_course None (Some "LEI") (Some 2010)
               (cached (course_db [lei_old; lei_new])))
     = Raise (AttributeError "'Course' object has no attribute 'initial_year'").
Proof. vm_compute. repeat split. Qed.

(** ** Lookup by a natural key *)

(** In a table whose rows have distinct keys, the lookup of a key finds the
    row that carries it. *)
Lemma first_unique {A K} (key : A -> K) (P : A -> Prop) `{forall x, Decision (P x)}
    (k : K) (rows : list A) (x : A) :
  (forall r, P r <-> key r = k) ->
  NoDup (key <$> rows) -> x ∈ rows -> key x = k ->
  exists pos, database.first P rows = Some (pos, x).
Proof.
  intros HP Hnd Hin Hk.
  apply list_elem_of_lookup in Hin as [pos Hpos].
  exists pos. apply list_find_Some. split; [exact Hpos|]. split; [by apply HP|].
  intros j y Hj Hlt Hy. apply HP in Hy.
  assert (pos = j); [|lia].
  eapply NoDup_lookup; [exact Hnd| |]; rewrite list_lookup_fmap.
  - rewrite Hpos. reflexivity.
  - rewrite Hj. cbn. congruence.
Qed.

(** ** Conflicts in [add_class] *)

Lemma add_class_lookup self candidate db_class :
  NoDup (class_key <$> database.classes (database.db self)) ->
  db_class ∈ database.classes (database.db self) ->
  class_key db_class = class_candidate_key candidate ->
  exists pos,
    database.first
      (fun c => models.Class.internal_id c = candidates.Class.id candidate
                /\ models.Class.department c = candidates.Class.department candidate)
      (database.classes (database.db self)) = Some (pos, db_class).
Proof.
  intros Hnd Hin Hk.
  eapply (first_unique class_key _ (class_candidate_key candidate)); eauto.
  intros r. unfold class_key, class_candidate_key. split.
  - intros [-> ->]. reflexivity.
  - intros [= -> ->]. done.
Qed.

(** C3. A stored class with a name, natural keys being unique among the
    stored classes, and a candidate with the same natural key.  If the
    candidate's name differs, [add_class] raises the exception whose message
    gives the stored and the new name, and the controller, with its session,
    is as it was.  If the names agree and both abbreviations are set and
    differ, it raises the exception whose message gives the stored and the
    new abbreviation, and again nothing has changed. *)
Theorem add_class_conflict (self : database.Controller) (candidate : candidates.Class.t)
    (db_class : models.Class.t) (old : string)
    (Hunique : NoDup (class_key <$> database.classes (database.db self)))
    (Hstored : db_class ∈ database.classes (database.db self))
    (Hkey : class_key db_class = class_candidate_key candidate)
    (Hname : models.Class.name db_class = Some old) :
  (candidates.Class.name candidate <> Some old ->
   database.add_class candidate self
   = (Raise (Exception ("Class name change attempt. " ++ old ++ " to "
                        ++ str_opt (candidates.Class.name candidate)
                        ++ " (iid " ++ str_int (candidates.Class.id candidate) ++ ")")),
      self))
  /\ (forall stored new : string,
        candidates.Class.name candidate = Some old ->
        models.Class.abbreviation db_class = Some stored ->
        candidates.Class.abbreviation candidate = Some new ->
        new <> stored ->
        database.add_class candidate self
        = (Raise (Exception ("Class abbreviation change attempt. " ++ stored ++ " to "
                             ++ new ++ " (iid "
                             ++ str_int (candidates.Class.id candidate) ++ ")")),
           self)).
Proof.
  destruct (add_class_lookup self candidate db_class Hunique Hstored Hkey) as [pos Hpos].
  split.
  - intros Hdiff. unfold database.add_class. mred. rewrite Hpos.
    unfold py_ne, py_eq. rewrite Hname.
    rewrite bool_decide_eq_false_2 by congruence. reflexivity.
  - intros stored new Hsame Habbr Hcand Hdiff.
    unfold database.add_class. mred. rewrite Hpos.
    unfold py_ne, py_eq. rewrite Hname, Hsame, Habbr, Hcand.
    rewrite bool_decide_eq_true_2 by reflexivity. cbn.
    rewrite bool_decide_eq_false_2 by congruence. reflexivity.
Qed.

Lemma add_class_conflict_witness :
  let self := uncached (class_db [algebra]) in
  let candidate := candidates.Class.mk 7001 (Some "Algebra I") 12 (Some "AL") (Some 12) in
  database.add_class candidate self
  = (Raise (Exception "Class name change attempt. Linear Algebra to Algebra I (iid 7001)"),
     self).
Proof.
  refine (proj1 (add_class_conflict (uncached (class_db [algebra]))
                   (candidates.Class.mk 7001 (Some "Algebra I") 12 (Some "AL") (Some 12))
                   algebra "Linear Algebra" _ _ _ _) _).
  - vm_compute. apply NoDup_cons. split; [apply not_elem_of_nil | apply NoDup_nil_2].
  - vm_compute. apply list_elem_of_here.
  - reflexivity.
  - reflexivity.
  - discriminate.
Defined.

(** ** Reconciling the same candidate twice *)

Lemma first_insert {A} (P : A -> Prop) `{forall x, Decision (P x)} rows pos x x' :
  database.first P rows = Some (pos, x) -> P x' ->
  database.first P (<[pos := x']> rows) = Some (pos, x').
Proof.
  intros Hfind Hx'. apply list_find_Some in Hfind as (Hpos & _ & Hbefore).
  apply list_find_Some. split; [|split; [exact Hx'|]].
  - apply list_lookup_insert_eq. eapply lookup_lt_Some, Hpos.
  - intros j y Hj Hlt. rewrite list_lookup_insert_ne in Hj by lia. eauto.
Qed.

Lemma first_app_new {A} (P : A -> Prop) `{forall x, Decision (P x)} rows x :
  database.first P rows = None -> P x ->
  database.first P (rows ++ [x]) = Some (length rows, x).
Proof.
  intros Hnone Hx. apply list_find_None in Hnone.
  apply list_find_Some. split; [|split; [exact Hx|]].
  - rewrite lookup_app_r by lia. by rewrite Nat.sub_diag.
  - intros j y Hj Hlt. rewrite lookup_app_l in Hj by lia.
    eapply Forall_lookup_1 in Hnone; eauto.
Qed.

(** [add_class]: when the first call returns a class, the second call with
    the same candidate returns it again and changes nothing. *)
Lemma add_class_twice self candidate db_class self1 :
  database.add_class candidate self = (Return db_class, self1) ->
  database.add_class candidate self1 = (Return db_class, self1).
Proof.
  intros Hfirst. generalize Hfirst. unfold database.add_class at 1. mred.
  destruct (database.first _ (database.classes (database.db self)))
    as [[pos stored]|] eqn:Hfind.
  - destruct (py_ne _ _) eqn:Hname; [discriminate|].
    destruct (is_not_None _) eqn:Hca; [|by intros [= <- <-]].
    destruct (is_None _) eqn:Hsa.
    + unfold database.commit. mred.
      destruct (database.integrity _); [|discriminate].
      intros [= <- <-]. clear Hfirst.
      unfold database.add_class. mred. cbn.
      erewrite first_insert; [|exact Hfind|].
      2:{ apply list_find_Some in Hfind as (_ & HP & _). exact HP. }
      cbn. rewrite Hname.
      destruct (candidates.Class.abbreviation candidate) as [a|]; [|discriminate].
      cbn. unfold py_ne, py_eq. rewrite bool_decide_eq_true_2 by reflexivity.
      reflexivity.
    + destruct (_ && _); [discriminate|]. by intros [= <- <-].
  - unfold database.commit. mred.
    destruct (database.integrity _); [|discriminate].
    intros [= <- <-]. clear Hfirst.
    unfold database.add_class. mred. cbn.
    erewrite first_app_new; [|exact Hfind|done].
    cbn. unfold py_ne, py_eq. rewrite bool_decide_eq_true_2 by reflexivity. cbn.
    destruct (candidates.Class.abbreviation candidate) as [a|]; cbn; [|reflexivity].
    rewrite bool_decide_eq_true_2 by reflexivity. reflexivity.
Qed.

(** A candidate whose class instance is stored is counted as ignored and
    nothing is written. *)
Lemma add_class_instances_step_stored self ignored instance :
  stores_instance self instance ->
  database.add_class_instances_step ignored instance self = (Return (ignored + 1), self).
Proof.
  intros (row & Hin & Hp & Hy & Hper).
  unfold database.add_class_instances_step. mred.
  destruct (database.first _ _) as [[pos found]|] eqn:Hfind; [reflexivity|].
  apply list_find_None in Hfind.
  eapply Forall_forall in Hfind; [|exact Hin]. tauto.
Qed.

(** A step that returns leaves the candidate stored and keeps what was
    stored. *)
Lemma add_class_instances_step_stores self ignored instance n self1 :
  database.add_class_instances_step ignored instance self = (Return n, self1) ->
  stores_instance self1 instance
  /\ forall other, stores_instance self other -> stores_instance self1 other.
Proof.
  unfold database.add_class_instances_step. mred.
  destruct (database.first _ _) as [[pos found]|] eqn:Hfind.
  - intros [= <- <-]. split; [|done].
    apply list_find_Some in Hfind as (Hpos & HP & _).
    exists found. split; [|tauto]. eapply list_elem_of_lookup_2, Hpos.
  - unfold database.commit. mred.
    destruct (database.integrity _); [|discriminate].
    intros [= <- <-]. split.
    + eexists. split; [cbn; apply elem_of_app; right; apply list_elem_of_here|].
      done.
    + intros other (row & Hin & Hrest). exists row. split; [|exact Hrest].
      cbn. apply elem_of_app. by left.
Qed.

Lemma add_class_instances_stores instances : forall self ignored n self1,
  for_fold instances ignored database.add_class_instances_step self = (Return n, self1) ->
  (forall instance, instance ∈ instances -> stores_instance self1 instance)
  /\ forall other, stores_instance self other -> stores_instance self1 other.
Proof.
  induction instances as [|instance rest IH]; intros self ignored n self1; cbn.
  - mred. intros [= <- <-]. split; [|done]. intros ? Hin. by apply elem_of_nil in Hin.
  - mred.
    destruct (database.add_class_instances_step ignored instance self)
      as [[m|e] self'] eqn:Hstep; [|discriminate].
    intros Hrest.
    apply add_class_instances_step_stores in Hstep as [Hnew Hkeep].
    apply IH in Hrest as [Hall Hkeep'].
    split; [|by eauto].
    intros x Hx. apply elem_of_cons in Hx as [->|Hx]; eauto.
Qed.

Lemma add_class_instances_all_stored instances : forall self ignored,
  (forall instance, instance ∈ instances -> stores_instance self instance) ->
  exists n,
    for_fold instances ignored database.add_class_instances_step self = (Return n, self).
Proof.
  induction instances as [|instance rest IH]; intros self ignored Hall; cbn.
  - eexists. reflexivity.
  - mred. rewrite add_class_instances_step_stored by (apply Hall, list_elem_of_here).
    apply IH. intros x Hx. apply Hall. by apply list_elem_of_further.
Qed.

(** [add_class_instances]: after a call that returned, the same batch is
    ignored whole. *)
Lemma add_class_instances_twice self instances self1 :
  database.add_class_instances instances self = (Return tt, self1) ->
  database.add_class_instances instances self1 = (Return tt, self1).
Proof.
  unfold database.add_class_instances. mred.
  destruct (for_fold instances 0 _ self) as [[n|e] self'] eqn:Hrun; [|discriminate].
  intros [= <-].
  apply add_class_instances_stores in Hrun as [Hall _].
  destruct (add_class_instances_all_stored instances self' 0 Hall) as [m ->].
  reflexivity.
Qed.

(** [add_room] without the cache: the room the first call returned is found
    by the second. *)
Lemma add_room_twice self candidate room self1 :
  database.__caching__ self = false ->
  database.add_room candidate self = (Return (Some room), self1) ->
  database.add_room candidate self1 = (Return (Some room), self1).
Proof.
  intros Hoff Hfirst. generalize Hfirst. unfold database.add_room at 1. mred.
  rewrite Hoff.
  destruct (database.first _ _) as [[pos found]|] eqn:Hfind.
  - cbn. rewrite Hoff. cbn. by intros [= <- <-].
  - unfold database.commit, database.rollback. mred.
    destruct (database.integrity _) eqn:Hok; cbn; rewrite Hoff; cbn; [|discriminate].
    intros [= <- <-]. clear Hfirst.
    unfold database.add_room. mred. cbn. rewrite Hoff.
    erewrite first_app_new; [|exact Hfind|done].
    cbn. rewrite Hoff. reflexivity.
Qed.

(** [add_room] with the cache on: the first call stores the room and
    reloads the cache, whose keys are building names; the second call probes
    it with the building itself, misses, adds the room again, meets the
    backend's error, rolls back and returns nothing. *)
Example add_room_cached_twice :
  let self1 := final (database.add_room room_127 (cached building_db)) in
  result (database.add_room room_127 (cached building_db))
    = Return (Some (database.new_room room_127))
  /\ database.__rooms__ self1
     = {[ inl "Ed. II" := {[ Some models.classroom := {[ "127" := 2 ]} ]} ]}
  /\ result (database.add_room room_127 self1) = Return None
  /\ database.rooms (database.db (final (database.add_room room_127 self1)))
     = [database.new_room room_127].
Proof. vm_compute. repeat split. Qed.

(** [add_admissions] on the empty store with one candidate, twice: both
    calls return and the table holds two rows with the same fields. *)
Example add_admissions_twice :
  let self1 := final (database.add_admissions [ana] (uncached database.empty_db)) in
  let self2 := final (database.add_admissions [ana] self1) in
  result (database.add_admissions [ana] (uncached database.empty_db)) = Return tt
  /\ result (database.add_admissions [ana] self1) = Return tt
  /\ database.admissions (database.committed (database.session self2))
     = [models.Admission.mk 1 None (Some "Ana Silva") (Some 200) 1 2018 1 (Some "Colocado");
        models.Admission.mk 2 None (Some "Ana Silva") (Some 200) 1 2018 1 (Some "Colocado")].
Proof. vm_compute. repeat split. Qed.

(** With the student and the name both set the constraint [un_admission]
    applies, and the second call ends in the backend's error. *)
Example add_admissions_twice_constraint :
  let self1 := final (database.add_admissions [rui] (uncached database.empty_db)) in
  result (database.add_admissions [rui] self1)
  = Raise (IntegrityError "UNIQUE constraint failed").
Proof. vm_compute. reflexivity. Qed.

(** ** A failure inside a batch *)

Lemma for_fold_app {S A B} (body : B -> A -> M S B) (xs ys : list A) : forall acc s,
  for_fold (xs ++ ys) acc body s
  = match for_fold xs acc body s with
    | (Return acc', s') => for_fold ys acc' body s'
    | (Raise e, s') => (Raise e, s')
    end.
Proof.
  induction xs as [|x xs IH]; intros acc s; cbn; [reflexivity|].
  mred. destruct (body acc x s) as [[acc'|e] s']; [apply IH | reflexivity].
Qed.

(** [commit] that raises has changed nothing. *)
Lemma commit_raise self e s :
  database.commit self = (Raise e, s) -> s = self.
Proof.
  unfold database.commit. mred. destruct (database.integrity _); [discriminate|].
  by intros [= _ <-].
Qed.

Lemma commit_return self s :
  database.commit self = (Return tt, s) ->
  database.session s = database.mkSession (database.db self) (database.db self).
Proof.
  unfold database.commit. mred. destruct (database.integrity _); [|discriminate].
  by intros [= <-].
Qed.

(** An iteration of [add_institutions] returns and commits nothing. *)
Lemma add_institutions_step_returns counts candidate self :
  exists counts' self',
    database.add_institutions_step counts candidate self = (Return counts', self')
    /\ database.committed (database.session self')
       = database.committed (database.session self).
Proof.
  destruct counts as [new_count updated_count].
  unfold database.add_institutions_step. mred.
  destruct (if database.__caching__ self then _ else _) as [[pos institution]|].
  - destruct (database.update_institution candidate institution) as [i updated].
    eexists _, _. split; reflexivity.
  - eexists _, _. split; reflexivity.
Qed.

Lemma add_departments_step_returns counts candidate self :
  exists counts' self',
    database.add_departments_step counts candidate self = (Return counts', self')
    /\ database.committed (database.session self')
       = database.committed (database.session self).
Proof.
  destruct counts as [new_count updated_count].
  unfold database.add_departments_step. mred.
  destruct (if database.__caching__ self then _ else _) as [[pos department]|].
  - destruct (database.update_department candidate department) as [d updated].
    eexists _, _. split; reflexivity.
  - eexists _, _. split; reflexivity.
Qed.

(** A loop whose iterations return and commit nothing does the same. *)
Lemma for_fold_returns {A B} (body : B -> A -> M database.Controller B)
    (Hbody : forall acc x self, exists acc' self',
        body acc x self = (Return acc', self')
        /\ database.committed (database.session self')
           = database.committed (database.session self))
    (xs : list A) : forall acc self,
  exists acc' self',
    for_fold xs acc body self = (Return acc', self')
    /\ database.committed (database.session self')
       = database.committed (database.session self).
Proof.
  induction xs as [|x xs IH]; intros acc self; cbn.
  - eexists _, _. split; reflexivity.
  - mred. destruct (Hbody acc x self) as (acc1 & self1 & -> & Hc1).
    destruct (IH acc1 self1) as (acc2 & self2 & -> & Hc2).
    eexists _, _. split; [reflexivity|congruence].
Qed.

(** [add_institutions] returns whatever happens in its [try]; when the
    [try] raises, the session is rolled back to what was committed before
    the call. *)
Lemma add_institutions_never_raises batch self :
  exists self',
    database.add_institutions batch self = (Return tt, self')
    /\ forall e s, database.add_institutions_try batch self = (Raise e, s) ->
                   database.session self' = rolled_back self.
Proof.
  unfold database.add_institutions, database.add_institutions_try. mred.
  destruct (for_fold_returns _ add_institutions_step_returns batch (0, 0) self)
    as (counts & self1 & -> & Hc1).
  destruct (database.commit self1) as [[[]|e1] self2] eqn:Hcommit.
  - destruct (database.__caching__ self2);
      eexists; (split; [reflexivity|]); intros; discriminate.
  - apply commit_raise in Hcommit as ->.
    eexists. split; [reflexivity|]. intros _ _ _.
    unfold database.rollback, rolled_back. cbn. by rewrite Hc1.
Qed.

Lemma add_departments_never_raises batch self :
  exists self',
    database.add_departments batch self = (Return tt, self')
    /\ forall e s, database.add_departments_try batch self = (Raise e, s) ->
                   database.session self' = rolled_back self.
Proof.
  unfold database.add_departments, database.add_departments_try. mred.
  destruct (for_fold_returns _ add_departments_step_returns batch (0, 0) self)
    as (counts & self1 & -> & Hc1).
  destruct (database.commit self1) as [[[]|e1] self2] eqn:Hcommit.
  - destruct (database.__caching__ self2);
      eexists; (split; [reflexivity|]); intros; discriminate.
  - apply commit_raise in Hcommit as ->.
    eexists. split; [reflexivity|]. intros _ _ _.
    unfold database.rollback, rolled_back. cbn. by rewrite Hc1.
Qed.

(** An iteration of [add_courses] that raises has committed nothing. *)
Lemma add_courses_step_raise updated course self e s :
  database.add_courses_step updated course self = (Raise e, s) ->
  database.committed (database.session s) = database.committed (database.session self).
Proof.
  unfold database.add_courses_step. mred.
  destruct (database.first _ _) as [[pos db_course]|].
  - destruct (_ && _); [by intros [= _ <-]|].
    destruct (database.update_course course db_course) as [c changed].
    destruct changed; [|discriminate].
    destruct (database.commit _) as [[[]|e1] s1] eqn:Hcommit; [discriminate|].
    apply commit_raise in Hcommit as ->. by intros [= _ <-].
  - destruct (database.commit _) as [[[]|e1] s1] eqn:Hcommit; [discriminate|].
    apply commit_raise in Hcommit as ->. by intros [= _ <-].
Qed.

(** When [update_course] reports no change, the course is as it was. *)
Lemma update_course_unchanged course db_course c :
  database.update_course course db_course = (c, false) -> c = db_course.
Proof.
  unfold database.update_course.
  destruct db_course as [i ii n a dg inst [fy ly]], course as [ci cn cinst cd ca [cf cl]].
  cbn.
  destruct (is_not_None ca), (is_not_None cd), fy as [fy|], ly as [ly|],
    cf as [cf|], cl as [cl|]; cbn;
    repeat match goal with
           | |- context [?a <? ?b] => destruct (a <? b); cbn
           end;
    intros [= <-]; reflexivity.
Qed.

(** An iteration of [add_courses] that returns leaves nothing pending, when
    nothing was pending before. *)
Lemma add_courses_step_clean updated course self n s :
  clean self ->
  database.add_courses_step updated course self = (Return n, s) ->
  clean s.
Proof.
  unfold clean. intros Hclean. unfold database.add_courses_step. mred.
  destruct (database.first _ _) as [[pos db_course]|] eqn:Hfind.
  - destruct (_ && _); [discriminate|].
    destruct (database.update_course course db_course) as [c changed] eqn:Hupd.
    destruct changed.
    + destruct (database.commit _) as [[[]|e1] s1] eqn:Hcommit; [|discriminate].
      apply commit_return in Hcommit. intros [= _ <-].
      unfold database.db. by rewrite Hcommit.
    + apply update_course_unchanged in Hupd as ->.
      apply list_find_Some in Hfind as (Hpos & _).
      intros [= _ <-]. cbn. rewrite list_insert_id by exact Hpos.
      rewrite <- Hclean. by destruct self as [[? []]].
  - destruct (database.commit _) as [[[]|e1] s1] eqn:Hcommit; [|discriminate].
    apply commit_return in Hcommit. intros [= _ <-].
    unfold database.db. by rewrite Hcommit.
Qed.

Lemma add_courses_clean courses : forall updated self n s,
  clean self ->
  for_fold courses updated database.add_courses_step self = (Return n, s) ->
  clean s.
Proof.
  induction courses as [|course rest IH]; intros updated self n s Hclean; cbn.
  - mred. by intros [= _ <-].
  - mred.
    destruct (database.add_courses_step updated course self) as [[m|e] s1] eqn:Hstep;
      [|discriminate].
    intros Hrest. eapply IH; [|exact Hrest].
    eapply add_courses_step_clean; eauto.
Qed.

(** [add_courses] when a candidate raises after the candidates before it
    were processed. *)
Lemma add_courses_failure self earlier failing later n s1 e s2 :
  for_fold earlier 0 database.add_courses_step self = (Return n, s1) ->
  database.add_courses_step n failing s1 = (Raise e, s2) ->
  exists self',
    database.add_courses (earlier ++ failing :: later) self
    = (Raise (Exception ("Failed to add courses." ++ nl ++ format_exc e)), self')
    /\ database.session self' = rolled_back s1.
Proof.
  intros Hearlier Hfailing.
  unfold database.add_courses, database.add_courses_try. mred.
  rewrite for_fold_app, Hearlier. cbn. mred. rewrite Hfailing.
  unfold database.rollback. cbn.
  apply add_courses_step_raise in Hfailing.
  destruct (database.__caching__ s2); cbn;
    (eexists; split; [reflexivity|]); cbn; unfold rolled_back; by rewrite Hfailing.
Qed.

(** C7, as stated, fails for [add_departments]: on a caching controller
    over an empty store, the batch of physics and twice mathematics fails in
    the [try] (the commit meets two rows with the key 1), and the method
    does not raise. *)
Lemma add_departments_swallows :
  ~ reraises (database.add_departments_try [physics; maths; maths])
      (database.add_departments [physics; maths; maths]) (cached database.empty_db).
Proof.
  intros Hreraises.
  destruct (Hreraises (IntegrityError "UNIQUE constraint failed")
              (final (database.add_departments_try [physics; maths; maths]
                        (cached database.empty_db))))
    as (e' & s' & Hcall).
  - vm_compute. reflexivity.
  - destruct (add_departments_never_raises [physics; maths; maths]
                (cached database.empty_db)) as (self' & Hret & _).
    rewrite Hret in Hcall. discriminate.
Qed.

(** After that call no department is stored, physics included. *)
Example add_departments_batch_lost :
  let self' := final (database.add_departments [physics; maths; maths]
                        (cached database.empty_db)) in
  result (database.add_departments [physics; maths; maths] (cached database.empty_db))
    = Return tt
  /\ database.departments (database.db self') = []
  /\ database.departments (database.committed (database.session self')) = [].
Proof. vm_compute. repeat split. Qed.

(** C7, amended.  [add_courses]: when a candidate raises after the
    candidates before it were processed, the method raises to its caller a
    new exception that carries the traceback of the first, and the session
    is rolled back to what was committed when the failing candidate was
    reached; starting with nothing pending, that is everything the earlier
    candidates wrote.  [add_institutions] and [add_departments] return in
    every case; when their [try] raises, the session is rolled back to what
    was committed before the call. *)
Theorem batch_failure (self : database.Controller) :
  (forall earlier failing later n s1 e s2,
      for_fold earlier 0 database.add_courses_step self = (Return n, s1) ->
      database.add_courses_step n failing s1 = (Raise e, s2) ->
      exists self',
        database.add_courses (earlier ++ failing :: later) self
        = (Raise (Exception ("Failed to add courses." ++ nl ++ format_exc e)), self')
        /\ database.session self' = rolled_back s1
        /\ (clean self -> database.db self' = database.db s1))
  /\ (forall batch, exists self',
        database.add_institutions batch self = (Return tt, self')
        /\ forall e s, database.add_institutions_try batch self = (Raise e, s) ->
                       database.session self' = rolled_back self)
  /\ (forall batch, exists self',
        database.add_departments batch self = (Return tt, self')
        /\ forall e s, database.add_departments_try batch self = (Raise e, s) ->
                       database.session self' = rolled_back self).
Proof.
  split; [|split].
  - intros earlier failing later n s1 e s2 Hearlier Hfailing.
    destruct (add_courses_failure self earlier failing later n s1 e s2 Hearlier Hfailing)
      as (self' & Hcall & Hsession).
    exists self'. split; [exact Hcall|]. split; [exact Hsession|].
    intros Hclean. eapply add_courses_clean in Hearlier; [|exact Hclean].
    unfold database.db at 1. rewrite Hsession. cbn. symmetry. exact Hearlier.
  - intros batch. apply add_institutions_never_raises.
  - intros batch. apply add_departments_never_raises.
Qed.

Lemma batch_failure_witness :
  let self := uncached (course_db [informatics]) in
  exists self',
    database.add_courses [biology_candidate; renamed_informatics] self
    = (Raise (Exception ("Failed to add courses." ++ nl
                         ++ format_exc (Exception "Attempted to change a course name"))),
       self')
    /\ models.Course.name <$> database.courses (database.committed (database.session self'))
       = [Some "Informatics"; Some "Biology"].
Proof.
  destruct (proj1 (batch_failure (uncached (course_db [informatics])))
              [biology_candidate] renamed_informatics [] 0
              (final (for_fold [biology_candidate] 0 database.add_courses_step
                        (uncached (course_db [informatics]))))
              (Exception "Attempted to change a course name")
              (final (for_fold [biology_candidate] 0 database.add_courses_step
                        (uncached (course_db [informatics])))))
    as (self' & Hcall & Hsession & _).
  - vm_compute. reflexivity.
  - vm_compute. reflexivity.
  - exists self'. split; [exact Hcall|]. rewrite Hsession. vm_compute. reflexivity.
Defined.

(** ** Associations of a turn *)

Lemma omap_insert_same {A K} (key : A -> option K) (rows : list A) pos x x' :
  rows !! pos = Some x -> key x' = key x ->
  omap key (<[pos := x']> rows) = omap key rows.
Proof.
  revert pos. induction rows as [|r rows IH]; intros [|pos] Hpos Hkey;
    try discriminate.
  - injection Hpos as ->. cbn. by rewrite Hkey.
  - cbn [insert list_insert]. cbn in Hpos.
    specialize (IH pos Hpos Hkey). simpl. destruct (key r); [f_equal|]; exact IH.
Qed.

(** [update_turn] leaves the identity of the turn alone. *)
Lemma update_turn_identity turn db_turn :
  let db_turn' := fst (database.update_turn turn db_turn) in
  models.Turn.id db_turn' = models.Turn.id db_turn
  /\ database.un_turn db_turn' = database.un_turn db_turn.
Proof.
  unfold database.update_turn.
  repeat match goal with
         | |- context [if ?b then _ else _] => destruct b
         end; cbn; split; reflexivity.
Qed.

(** Writing back a turn with the same identity keeps the constraints. *)
Lemma integrity_update_turn d pos db_turn db_turn' :
  database.turns d !! pos = Some db_turn ->
  database.un_turn db_turn' = database.un_turn db_turn ->
  database.integrity (database.set_turns (<[pos := db_turn']> (database.turns d)) d)
  = database.integrity d.
Proof.
  intros Hpos Hkey. unfold database.integrity, database.unique. cbn.
  by rewrite (omap_insert_same _ _ _ _ _ Hpos Hkey).
Qed.

(** Nothing was added when every appended element was loaded. *)
Lemma added_none (original xs : list Z) :
  (forall x, x ∈ xs -> x ∈ original) -> database.added original (original ++ xs) = [].
Proof.
  intros Hall. unfold database.added.
  assert (Hnone : forall l, (forall x, x ∈ l -> x ∈ original) ->
                            filter (fun c => c ∉ original) l = []).
  { induction l as [|x l IH]; intros Hl; [reflexivity|].
    rewrite filter_cons_False.
    - apply IH. intros y Hy. apply Hl. by apply list_elem_of_further.
    - intros Hx. apply Hx, Hl, list_elem_of_here. }
  rewrite filter_app, (Hnone original), (Hnone xs); auto.
Qed.

(** Appending partners that are all in the relationship: the list in memory
    grows, its members are the same, and no association row is written. *)
Lemma append_all_teachers_loaded self owner xs :
  (forall x, x ∈ xs -> x ∈ teachers_of self owner) ->
  database.append_all database.turn_teachers database.set_turn_teachers owner xs self
    = (Return (teachers_of self owner ++ xs)%list, self)
  /\ forall x, x ∈ (teachers_of self owner ++ xs)%list <-> x ∈ teachers_of self owner.
Proof.
  intros Hall. split.
  - unfold database.append_all. mred. fold (teachers_of self owner).
    rewrite added_none by exact Hall. cbn. rewrite app_nil_r.
    by destruct self as [[? []]].
  - intros x. rewrite elem_of_app. split; [intros [Hx|Hx]; auto|auto].
Qed.

Lemma append_all_students_loaded self owner xs :
  (forall x, x ∈ xs -> x ∈ students_of self owner) ->
  database.append_all database.turn_students database.set_turn_students owner xs self
    = (Return (students_of self owner ++ xs)%list, self)
  /\ forall x, x ∈ (students_of self owner ++ xs)%list <-> x ∈ students_of self owner.
Proof.
  intros Hall. split.
  - unfold database.append_all. mred. fold (students_of self owner).
    rewrite added_none by exact Hall. cbn. rewrite app_nil_r.
    by destruct self as [[? []]].
  - intros x. rewrite elem_of_app. split; [intros [Hx|Hx]; auto|auto].
Qed.

(** [add_turn] for a candidate that resolves to a stored turn and brings
    teachers that are all associated with it. *)
Lemma add_turn_teachers_again self turn db_turn :
  database.integrity (database.db self) = true ->
  resolves_to self turn db_turn ->
  (forall t, t ∈ candidates.Turn.teachers turn -> t ∈ teachers_of self (models.Turn.id db_turn)) ->
  exists self',
    database.add_turn turn self
    = (Return (fst (database.update_turn turn db_turn)), self')
    /\ database.turn_teachers (database.db self')
       = database.turn_teachers (database.db self).
Proof.
  intros Hok [pos Hfind] Hall.
  destruct (update_turn_identity turn db_turn) as [Hid Hkey].
  pose proof Hfind as Hpos. apply list_find_Some in Hpos as (Hpos & _).
  unfold database.add_turn. mred. rewrite Hfind.
  destruct (database.update_turn turn db_turn) as [db_turn' changed].
  cbn in Hid, Hkey. mred.
  destruct changed.
  - unfold database.commit. mred. db_red.
    rewrite (integrity_update_turn _ _ _ _ Hpos Hkey), Hok.
    match goal with
    | |- context [database.append_all _ _ _ _ ?s] =>
        destruct (append_all_teachers_loaded s (models.Turn.id db_turn')
                    (candidates.Turn.teachers turn)) as [-> _]
    end.
    { rewrite Hid. exact Hall. }
    eexists. split; reflexivity.
  - match goal with
    | |- context [database.append_all _ _ _ _ ?s] =>
        destruct (append_all_teachers_loaded s (models.Turn.id db_turn')
                    (candidates.Turn.teachers turn)) as [-> _]
    end.
    { rewrite Hid. exact Hall. }
    eexists. split; reflexivity.
Qed.

(** [add_turn_students] with students that are all associated with the
    turn. *)
Lemma add_turn_students_again self turn students :
  database.integrity (database.db self) = true ->
  (forall s, s ∈ students -> s ∈ students_of self (models.Turn.id turn)) ->
  exists self',
    database.add_turn_students turn students self = (Return tt, self')
    /\ database.db self' = database.db self.
Proof.
  intros Hok Hall.
  unfold database.add_turn_students. mred.
  destruct (append_all_students_loaded self (models.Turn.id turn) students Hall) as [-> _].
  destruct (0 <? _).
  - unfold database.commit. mred. rewrite Hok. eexists. split; reflexivity.
  - eexists. split; reflexivity.
Qed.

(** C6. Constraints holding in the session: [add_turn] for a candidate that
    resolves to a stored turn and whose teachers are all associated with
    that turn returns the turn and leaves the table of teacher associations
    row for row as it was; [add_turn_students] with students that are all
    associated with the turn returns and leaves every table as it was, the
    table of student associations among them. *)
Theorem readding_association (self : database.Controller)
    (Hok : database.integrity (database.db self) = true) :
  (forall turn db_turn,
      resolves_to self turn db_turn ->
      (forall t, t ∈ candidates.Turn.teachers turn ->
                 t ∈ teachers_of self (models.Turn.id db_turn)) ->
      exists db_turn' self',
        database.add_turn turn self = (Return db_turn', self')
        /\ models.Turn.id db_turn' = models.Turn.id db_turn
        /\ database.turn_teachers (database.db self')
           = database.turn_teachers (database.db self)
        /\ teachers_of self' (models.Turn.id db_turn)
           = teachers_of self (models.Turn.id db_turn))
  /\ (forall turn students,
        (forall s, s ∈ students -> s ∈ students_of self (models.Turn.id turn)) ->
        exists self',
          database.add_turn_students turn students self = (Return tt, self')
          /\ database.turn_students (database.db self')
             = database.turn_students (database.db self)
          /\ students_of self' (models.Turn.id turn) = students_of self (models.Turn.id turn)).
Proof.
  split.
  - intros turn db_turn Hres Hall.
    destruct (add_turn_teachers_again self turn db_turn Hok Hres Hall)
      as (self' & Hcall & Hrows).
    eexists _, self'. split; [exact Hcall|].
    split; [apply update_turn_identity|]. split; [exact Hrows|].
    unfold teachers_of. by rewrite Hrows.
  - intros turn students Hall.
    destruct (add_turn_students_again self turn students Hok Hall) as (self' & Hcall & Hdb).
    exists self'. split; [exact Hcall|].
    unfold students_of. by rewrite Hdb.
Qed.

Lemma readding_association_witness :
  let self := uncached turn_db in
  database.integrity (database.db self) = true
  /\ exists db_turn' self',
       database.add_turn (practical_1_candidate [77]) self = (Return db_turn', self')
       /\ database.turn_teachers (database.db self') = [(5, 77)].
Proof.
  assert (Hok : database.integrity (database.db (uncached turn_db)) = true)
    by (vm_compute; reflexivity).
  split; [exact Hok|].
  destruct (proj1 (readding_association (uncached turn_db) Hok)
              (practical_1_candidate [77]) practical_1)
    as (db_turn' & self' & Hcall & _ & Hrows & _).
  - exists 0%nat. vm_compute. reflexivity.
  - intros t Ht. apply list_elem_of_singleton in Ht as ->.
    vm_compute. apply list_elem_of_here.
  - exists db_turn', self'. split; [exact Hcall|]. rewrite Hrows. reflexivity.
Defined.

(** A teacher who is not yet associated gets a row. *)
Example add_turn_new_teacher :
  database.turn_teachers
    (database.db (final (database.add_turn (practical_1_candidate [77; 78])
                           (uncached turn_db))))
  = [(5, 77); (5, 78)].
Proof. vm_compute. reflexivity. Qed.
(** ** Incremental synchronisation of the instances of a turn *)

Example add_turn_instances_example :
  let self' := final (database.add_turn_instances schedule_candidates false
                        (uncached schedule_db)) in
  result (database.add_turn_instances schedule_candidates false (uncached schedule_db))
    = Return [candidates.TurnInstance.mk 5 840 960 friday room_a]
  /\ instances_of self' 5
     = [models.TurnInstance.mk 1 5 540 660 room_b monday;
        models.TurnInstance.mk 10 5 840 960 room_a friday]
  /\ instances_of self' 6 = instances_of (uncached schedule_db) 6.
Proof. vm_compute. repeat split. Qed.

Lemma with_turn_instances_id self :
  with_turn_instances (database.turn_instances (database.db self)) self = self.
Proof. by destruct self as [[? []]]. Qed.

(** The first loop finds the turn the candidates share. *)
Lemma common_turn_same instances turn self :
  (forall instance, instance ∈ instances -> candidates.TurnInstance.turn instance = turn) ->
  database.common_turn (Some turn) instances self = (Return (Some turn), self).
Proof.
  induction instances as [|instance rest IH]; intros Hall; cbn; [reflexivity|].
  unfold py_ne, py_eq.
  rewrite bool_decide_eq_true_2 by (symmetry; apply Hall, list_elem_of_here). cbn.
  apply IH. intros x Hx. apply Hall. by apply list_elem_of_further.
Qed.

(** One iteration of the loop, on the table. *)
Lemma sync_step_rows db_turn_instance instances rows self :
  database.sync_step instances db_turn_instance (with_turn_instances rows self)
  = (Return (sync_candidates db_turn_instance instances),
     with_turn_instances (sync_rows db_turn_instance instances rows) self).
Proof.
  unfold database.sync_step, sync_candidates, sync_rows.
  destruct (database.take_match _ _) as [[instance remaining]|]; mred.
  - destruct (py_ne _ _); reflexivity.
  - reflexivity.
Qed.

(** The whole loop, on the table. *)
Lemma sync_loop_rows existing : forall instances rows self,
  for_fold existing instances database.sync_step (with_turn_instances rows self)
  = (Return (snd (sync_all existing instances rows)),
     with_turn_instances (fst (sync_all existing instances rows)) self).
Proof.
  induction existing as [|e others IH]; intros instances rows self; cbn; [reflexivity|].
  mred. rewrite sync_step_rows. apply IH.
Qed.

(** The closing loop, on the table. *)
Lemma append_loop_rows turn instances : forall self,
  for_each instances (database.append_instance turn) self
  = (Return tt,
     database.set_session
       (database.mkSession (database.committed (database.session self))
          (database.set_sequence
             (database.sequence (database.db self) + Z.of_nat (length instances))
             (database.set_turn_instances
                (database.turn_instances (database.db self)
                 ++ new_rows (database.sequence (database.db self)) turn instances)%list
                (database.db self))))
       self).
Proof.
  induction instances as [|instance rest IH]; intros self.
  - cbn. mred. rewrite app_nil_r, Z.add_0_r. by destruct self as [[? []]].
  - cbn [for_each]. unfold database.append_instance at 1. mred. rewrite IH.
    destruct self as [[cm []]]. db_red. cbn [new_rows].
    change (length (instance :: rest)) with (S (length rest)).
    rewrite Nat2Z.inj_succ, <- app_assoc.
    replace (sequence + 1 + Z.of_nat (length rest))
      with (sequence + Z.succ (Z.of_nat (length rest))) by lia.
    reflexivity.
Qed.

(** *** Lists *)

Lemma omap_ext_in {A B} (f g : A -> option B) (l : list A) :
  (forall x, x ∈ l -> f x = g x) -> omap f l = omap g l.
Proof.
  induction l as [|x l IH]; intros Hfg; [reflexivity|].
  simpl. rewrite (Hfg x) by apply list_elem_of_here.
  specialize (IH (fun y Hy => Hfg y (list_elem_of_further _ _ _ Hy))).
  unfold omap in IH. destruct (g x); [f_equal|]; exact IH.
Qed.

Lemma omap_omap {A B C} (f : A -> option B) (g : B -> option C) (l : list A) :
  omap g (omap f l) = omap (fun x => match f x with Some y => g y | None => None end) l.
Proof.
  induction l as [|x l IH]; [reflexivity|].
  unfold omap in *. simpl. destruct (f x) as [y|]; simpl; [|exact IH].
  destruct (g y); [f_equal|]; exact IH.
Qed.

Lemma fmap_as_omap {A B} (f : A -> B) (l : list A) :
  f <$> l = omap (fun x => Some (f x)) l.
Proof.
  induction l as [|x l IH]; [reflexivity|].
  unfold omap in *. simpl. f_equal; try exact IH.
Qed.

Lemma filter_as_omap {A} (P : A -> Prop) `{forall x, Decision (P x)} (l : list A) :
  filter P l = omap (fun x => if decide (P x) then Some x else None) l.
Proof.
  induction l as [|x l IH]; [reflexivity|].
  rewrite filter_cons. unfold omap in *. simpl.
  destruct (decide (P x)); [f_equal|]; exact IH.
Qed.

Lemma filter_all {A} (P : A -> Prop) `{forall x, Decision (P x)} (l : list A) :
  Forall P l -> filter P l = l.
Proof.
  induction 1 as [|x l Hx Hl IH]; [reflexivity|].
  rewrite filter_cons_True by exact Hx. by f_equal.
Qed.

Lemma omap_id {A} (l : list A) : omap Some l = l.
Proof.
  induction l as [|x l IH]; [reflexivity|]. unfold omap in *. simpl. by f_equal.
Qed.

(** Rows with distinct keys are told apart by their keys. *)
Lemma same_key_same_row {A K} (key : A -> K) (rows : list A) x y :
  NoDup (key <$> rows) -> x ∈ rows -> y ∈ rows -> key x = key y -> x = y.
Proof.
  intros Hnd Hx Hy Hk.
  apply list_elem_of_lookup in Hx as [i Hi], Hy as [j Hj].
  assert (i = j) as ->; [|congruence].
  eapply NoDup_lookup; [exact Hnd| |]; rewrite list_lookup_fmap.
  - by rewrite Hi.
  - rewrite Hj. cbn. by rewrite Hk.
Qed.

Lemma NoDup_omap_key {A K} (key : A -> K) (f : A -> option A) (rows : list A) :
  (forall x y, f x = Some y -> key y = key x) ->
  NoDup (key <$> rows) -> NoDup (key <$> omap f rows).
Proof.
  intros Hf. induction rows as [|x rows IH]; [done|].
  rewrite fmap_cons. intros [Hx Hnd]%NoDup_cons.
  change (omap f (x :: rows))
    with (match f x with Some y => y :: omap f rows | None => omap f rows end).
  destruct (f x) as [y|] eqn:Hfx; [|by apply IH].
  rewrite fmap_cons. apply NoDup_cons. split; [|by apply IH].
  rewrite (Hf _ _ Hfx). intros Hin. apply Hx.
  apply list_elem_of_fmap in Hin as (z & Hz & Hzin).
  apply list_elem_of_omap in Hzin as (w & Hw & Hfw).
  apply list_elem_of_fmap. exists w. split; [|exact Hw].
  rewrite Hz. by apply Hf.
Qed.

(** *** Matching candidates by slot *)

Lemma same_slot_spec row instance :
  database.same_slot row instance = true <-> slot row = candidate_slot instance.
Proof.
  unfold database.same_slot, py_eq, slot, candidate_slot.
  rewrite !andb_true_iff, !bool_decide_eq_true. split.
  - intros [[-> ->] ->]. reflexivity.
  - intros [= -> -> ->]. done.
Qed.

Lemma same_slot_decide row instance :
  database.same_slot row instance = bool_decide (candidate_slot instance = slot row).
Proof.
  destruct (database.same_slot row instance) eqn:Hslot; symmetry.
  - apply bool_decide_eq_true. symmetry. by apply same_slot_spec.
  - apply bool_decide_eq_false. intros Heq.
    assert (database.same_slot row instance = true) by (by apply same_slot_spec).
    congruence.
Qed.

Lemma set_room_slot room row : slot (models.TurnInstance.set_room room row) = slot row.
Proof. reflexivity. Qed.

Lemma set_room_same row :
  models.TurnInstance.set_room (models.TurnInstance.room row) row = row.
Proof. by destruct row. Qed.

Lemma matching_Some instances row instance :
  matching instances row = Some instance ->
  instance ∈ instances /\ slot row = candidate_slot instance.
Proof.
  unfold matching. intros Hfind. apply find_some in Hfind as [Hin Hslot].
  split; [by apply list_elem_of_In | by apply bool_decide_eq_true in Hslot].
Qed.

Lemma matching_None instances row :
  matching instances row = None ->
  forall instance, instance ∈ instances -> slot row <> candidate_slot instance.
Proof.
  unfold matching. intros Hfind instance Hin Hslot.
  apply list_elem_of_In in Hin.
  pose proof (find_none _ _ Hfind _ Hin) as Hno. cbn in Hno.
  apply bool_decide_eq_false in Hno. by apply Hno.
Qed.

(** With one candidate per slot, the candidate in the slot of a row is the
    one [matching] finds. *)
Lemma matching_unique instances row instance :
  NoDup (candidate_slot <$> instances) ->
  instance ∈ instances -> slot row = candidate_slot instance ->
  matching instances row = Some instance.
Proof.
  intros Hnd Hin Hslot.
  destruct (matching instances row) as [found|] eqn:Hfind.
  - apply matching_Some in Hfind as [Hfin Hfslot]. f_equal.
    eapply same_key_same_row; eauto. congruence.
  - exfalso. eapply matching_None; eauto.
Qed.

(** The inner loop takes the first candidate in the slot of the stored
    instance out of the list. *)
Lemma take_match_spec row instances :
  database.take_match row instances
  = match matching instances row with
    | Some instance => Some (instance, remove_first (slot row) instances)
    | None => None
    end.
Proof.
  unfold matching. induction instances as [|c cs IH]; [reflexivity|].
  cbn [database.take_match List.find remove_first].
  rewrite same_slot_decide.
  destruct (decide (candidate_slot c = slot row)) as [Heq|Hne].
  - rewrite bool_decide_eq_true_2 by exact Heq. reflexivity.
  - rewrite bool_decide_eq_false_2 by exact Hne. rewrite IH.
    by destruct (List.find _ cs).
Qed.

Lemma remove_first_none instances row :
  matching instances row = None -> remove_first (slot row) instances = instances.
Proof.
  unfold matching. induction instances as [|c cs IH]; [reflexivity|].
  cbn [List.find remove_first].
  destruct (decide (candidate_slot c = slot row)) as [Heq|Hne].
  - by rewrite bool_decide_eq_true_2 by exact Heq.
  - rewrite bool_decide_eq_false_2 by exact Hne. intros Hnone. f_equal. by apply IH.
Qed.

Lemma remove_first_keeps s instances c :
  c ∈ instances -> candidate_slot c <> s -> c ∈ remove_first s instances.
Proof.
  induction instances as [|x xs IH]; intros Hin Hne; [by apply elem_of_nil in Hin|].
  cbn [remove_first]. apply elem_of_cons in Hin as [->|Hin].
  - rewrite decide_False by exact Hne. apply list_elem_of_here.
  - destruct (decide (candidate_slot x = s)); [exact Hin|].
    apply list_elem_of_further. by apply IH.
Qed.

Lemma remove_first_subset s instances c :
  c ∈ remove_first s instances -> c ∈ instances.
Proof.
  induction instances as [|x xs IH]; [done|]. cbn [remove_first].
  destruct (decide (candidate_slot x = s)).
  - intros Hin. by apply list_elem_of_further.
  - intros [->|Hin]%elem_of_cons; [apply list_elem_of_here|].
    apply list_elem_of_further. by apply IH.
Qed.

(** With one candidate per slot, taking the first candidate of a slot out
    takes the slot out. *)
Lemma remove_first_filter s instances :
  NoDup (candidate_slot <$> instances) ->
  remove_first s instances = filter (fun c => s ≠ candidate_slot c) instances.
Proof.
  induction instances as [|c cs IH]; [reflexivity|].
  rewrite fmap_cons. intros [Hc Hnd]%NoDup_cons. cbn [remove_first].
  destruct (decide (candidate_slot c = s)) as [Heq|Hne].
  - rewrite filter_cons_False by (intros Hs; by apply Hs).
    symmetry. apply filter_all, Forall_forall. intros x Hx Hsx.
    apply Hc. apply list_elem_of_fmap. exists x. split; [congruence|exact Hx].
  - rewrite filter_cons_True by (intros Hs; by apply Hne). f_equal. by apply IH.
Qed.

(** *** The loop over the stored instances *)

Lemma sync_candidates_spec row instances :
  sync_candidates row instances = remove_first (slot row) instances.
Proof.
  unfold sync_candidates. rewrite take_match_spec.
  destruct (matching instances row) eqn:Hm; [reflexivity|].
  symmetry. by apply remove_first_none.
Qed.

Lemma sync_rows_spec e instances rows :
  NoDup (models.TurnInstance.id <$> rows) -> e ∈ rows ->
  sync_rows e instances rows = omap (synced [e] instances) rows.
Proof.
  intros Hids He. unfold sync_rows. rewrite take_match_spec.
  assert (Hrow : forall row, row ∈ rows ->
            models.TurnInstance.id row = models.TurnInstance.id e <-> row ∈ [e]).
  { intros row Hrow. rewrite list_elem_of_singleton. split; [|by intros ->].
    by apply (same_key_same_row _ rows). }
  destruct (matching instances e) as [found|] eqn:Hm.
  - destruct (py_ne _ _) eqn:Hroom.
    + rewrite fmap_as_omap. apply omap_ext_in. intros row Hin.
      unfold synced, kept, py_eq. specialize (Hrow row Hin).
      destruct (decide (row ∈ [e])) as [Hmem|Hmem].
      * rewrite bool_decide_eq_true_2 by (by apply Hrow).
        apply list_elem_of_singleton in Hmem as ->. by rewrite Hm.
      * rewrite bool_decide_eq_false_2 by (by rewrite Hrow). reflexivity.
    + rewrite <- (omap_id rows) at 1. apply omap_ext_in. intros row Hin.
      unfold synced, kept. destruct (decide (row ∈ [e])) as [Hmem|Hmem]; [|reflexivity].
      apply list_elem_of_singleton in Hmem as ->. rewrite Hm.
      unfold py_ne, py_eq in Hroom. apply negb_false_iff, bool_decide_eq_true in Hroom.
      by rewrite <- Hroom, set_room_same.
  - rewrite filter_as_omap. apply omap_ext_in. intros row Hin.
    unfold synced, kept. specialize (Hrow row Hin).
    destruct (decide (row ∈ [e])) as [Hmem|Hmem].
    + rewrite decide_False by (intros Hne; by apply Hne, Hrow).
      apply list_elem_of_singleton in Hmem as ->. by rewrite Hm.
    + rewrite decide_True by (by rewrite Hrow). reflexivity.
Qed.

(** Taking out a candidate of another slot does not change what a row
    matches. *)
Lemma matching_remove_first instances row s :
  slot row <> s -> matching (remove_first s instances) row = matching instances row.
Proof.
  intros Hne. unfold matching.
  induction instances as [|c cs IH]; [reflexivity|].
  cbn [remove_first List.find].
  destruct (decide (candidate_slot c = s)) as [Hc|Hc].
  - rewrite bool_decide_eq_false_2 by congruence. reflexivity.
  - cbn [List.find]. destruct (bool_decide _); [reflexivity|exact IH].
Qed.

(** The loop as a whole: every stored instance of [existing] has taken the
    room of the first candidate in its slot or is gone, the other rows are
    as they were, and each has taken its candidate out of the list. *)
Lemma sync_all_spec existing : forall instances rows,
  NoDup (models.TurnInstance.id <$> rows) ->
  (forall e, e ∈ existing -> e ∈ rows) ->
  NoDup (slot <$> existing) ->
  sync_all existing instances rows
  = (omap (synced existing instances) rows, leftover existing instances).
Proof.
  induction existing as [|e others IH]; intros instances rows Hids Hsub Hslots.
  - cbn [sync_all]. f_equal.
    rewrite <- (omap_id rows) at 1. apply omap_ext_in. intros row _.
    unfold synced. rewrite decide_False; [reflexivity|apply not_elem_of_nil].
  - cbn [sync_all].
    rewrite fmap_cons in Hslots. apply NoDup_cons in Hslots as [He Hslots].
    assert (Hother : forall row, row ∈ others -> slot row <> slot e).
    { intros row Hrow Heq. apply He. rewrite <- Heq. by apply list_elem_of_fmap_2. }
    rewrite sync_candidates_spec.
    rewrite sync_rows_spec; [|exact Hids|apply Hsub, list_elem_of_here].
    rewrite IH; cycle 1.
    + apply NoDup_omap_key; [|exact Hids]. intros x y. unfold synced, kept.
      destruct (decide _); [destruct (matching _ _)|]; by intros [= <-].
    + intros e' He'. apply list_elem_of_omap. exists e'.
      split; [apply Hsub; by apply list_elem_of_further|].
      unfold synced. rewrite decide_False; [reflexivity|].
      rewrite list_elem_of_singleton. intros ->. by apply (Hother e).
    + exact Hslots.
    + f_equal. rewrite omap_omap. apply omap_ext_in. intros row Hrow.
      destruct (decide (row = e)) as [->|Hne].
      * assert (Hhere : forall l, synced (e :: l) instances e = kept instances e).
        { intros l. unfold synced. by rewrite decide_True by apply list_elem_of_here. }
        rewrite !Hhere. unfold kept.
        destruct (matching instances e) as [c|]; [|reflexivity].
        unfold synced. rewrite decide_False; [reflexivity|].
        intros Hin. by apply (Hother _ Hin).
      * assert (Hskip : synced [e] instances row = Some row).
        { unfold synced. rewrite decide_False; [reflexivity|].
          by rewrite list_elem_of_singleton. }
        rewrite Hskip. unfold synced.
        destruct (decide (row ∈ others)) as [Hin|Hin].
        -- rewrite decide_True by (by apply list_elem_of_further).
           unfold kept. rewrite matching_remove_first by (by apply Hother). reflexivity.
        -- rewrite decide_False; [reflexivity|].
           rewrite elem_of_cons. tauto.
Qed.

(** *** What is left of the candidates *)

Lemma leftover_keeps existing : forall instances c,
  c ∈ instances ->
  (forall e, e ∈ existing -> slot e <> candidate_slot c) ->
  c ∈ leftover existing instances.
Proof.
  induction existing as [|e others IH]; intros instances c Hin Hnone; [exact Hin|].
  cbn [leftover foldl]. apply IH.
  - apply remove_first_keeps; [exact Hin|].
    intros Heq. apply (Hnone e); [apply list_elem_of_here|done].
  - intros e' He'. apply Hnone. by apply list_elem_of_further.
Qed.

Lemma leftover_subset existing : forall instances c,
  c ∈ leftover existing instances -> c ∈ instances.
Proof.
  induction existing as [|e others IH]; intros instances c Hin; [exact Hin|].
  cbn [leftover foldl] in Hin. apply IH in Hin. by eapply remove_first_subset.
Qed.

(** With one candidate per slot, what is left is the candidates in the slot
    of no stored instance. *)
Lemma leftover_unmatched existing : forall instances,
  NoDup (candidate_slot <$> instances) ->
  leftover existing instances = unmatched existing instances.
Proof.
  induction existing as [|e others IH]; intros instances Hnd.
  - unfold unmatched. symmetry. apply filter_all, Forall_forall. intros; constructor.
  - cbn [leftover foldl]. rewrite remove_first_filter by exact Hnd.
    change (foldl _ ?l others) with (leftover others l). rewrite IH.
    + unfold unmatched. rewrite list_filter_filter. apply list_filter_iff.
      intros c. rewrite Forall_cons. tauto.
    + apply NoDup_fmap_2_strong; [|apply NoDup_filter; eapply NoDup_fmap_1; exact Hnd].
      intros x y [_ Hx]%list_elem_of_filter [_ Hy]%list_elem_of_filter Hxy.
      eapply same_key_same_row; eauto.
Qed.

(** *** The method *)

Lemma new_rows_intro turn instances instance : forall pk,
  instance ∈ instances ->
  exists pk', pk <= pk'
    /\ models.TurnInstance.mk pk' turn (candidates.TurnInstance.start instance)
         (candidates.TurnInstance.end_ instance) (candidates.TurnInstance.room instance)
         (candidates.TurnInstance.weekday instance)
       ∈ new_rows pk turn instances.
Proof.
  induction instances as [|c cs IH]; intros pk Hin; [by apply elem_of_nil in Hin|].
  apply elem_of_cons in Hin as [->|Hin].
  - exists pk. split; [lia|apply list_elem_of_here].
  - destruct (IH (pk + 1) Hin) as (pk' & Hle & Hrow).
    exists pk'. split; [lia|]. cbn [new_rows]. by apply list_elem_of_further.
Qed.

Lemma new_rows_elim turn instances row : forall pk,
  row ∈ new_rows pk turn instances ->
  models.TurnInstance.turn row = turn
  /\ exists instance, instance ∈ instances /\ slot row = candidate_slot instance.
Proof.
  induction instances as [|c cs IH]; intros pk Hin; [by apply elem_of_nil in Hin|].
  cbn [new_rows] in Hin. apply elem_of_cons in Hin as [->|Hin].
  - split; [reflexivity|]. exists c. split; [apply list_elem_of_here|reflexivity].
  - destruct (IH _ Hin) as (Hturn & c' & Hc' & Hslot).
    split; [exact Hturn|]. exists c'. split; [by apply list_elem_of_further|exact Hslot].
Qed.

(** A filter passes through a partial map that keeps what it tests. *)
Lemma filter_omap {A} (P : A -> Prop) `{forall x, Decision (P x)}
    (f : A -> option A) (l : list A) :
  (forall x y, f x = Some y -> P y <-> P x) ->
  filter P (omap f l) = omap f (filter P l).
Proof.
  intros Hf. induction l as [|x l IH]; [reflexivity|].
  change (omap f (x :: l)) with (match f x with Some y => y :: omap f l | None => omap f l end).
  destruct (f x) as [y|] eqn:Hfx.
  - destruct (decide (P x)) as [HP|HP].
    + rewrite filter_cons_True by (by apply (Hf x y)).
      rewrite (filter_cons_True P x) by exact HP.
      change (omap f (x :: filter P l))
        with (match f x with Some y => y :: omap f (filter P l) | None => omap f (filter P l) end).
      rewrite Hfx. by f_equal.
    + rewrite filter_cons_False by (by rewrite (Hf x y)).
      rewrite (filter_cons_False P x) by exact HP. exact IH.
  - destruct (decide (P x)) as [HP|HP].
    + rewrite (filter_cons_True P x) by exact HP.
      change (omap f (x :: filter P l))
        with (match f x with Some y => y :: omap f (filter P l) | None => omap f (filter P l) end).
      rewrite Hfx. exact IH.
    + rewrite (filter_cons_False P x) by exact HP. exact IH.
Qed.

Lemma synced_turn existing instances x y :
  synced existing instances x = Some y ->
  models.TurnInstance.turn y = models.TurnInstance.turn x
  /\ models.TurnInstance.id y = models.TurnInstance.id x
  /\ slot y = slot x.
Proof.
  unfold synced, kept.
  destruct (decide _); [destruct (matching _ _)|]; intros [= <-]; done.
Qed.

Lemma new_rows_of_turn turn instances : forall pk,
  Forall (fun row => models.TurnInstance.turn row = turn) (new_rows pk turn instances).
Proof.
  induction instances as [|c cs IH]; intros pk; cbn [new_rows]; constructor; auto.
Qed.

Lemma filter_nothing {A} (P : A -> Prop) `{forall x, Decision (P x)} (l : list A) :
  Forall (fun x => ~ P x) l -> filter P l = [].
Proof.
  induction 1 as [|x l Hx Hl IH]; [reflexivity|].
  by rewrite filter_cons_False.
Qed.

(** The controller and the list the incremental call leaves. *)
Lemma add_turn_instances_state self turn instances :
  instances <> [] ->
  (forall instance, instance ∈ instances -> candidates.TurnInstance.turn instance = turn) ->
  NoDup (models.TurnInstance.id <$> database.turn_instances (database.db self)) ->
  NoDup (slot <$> instances_of self turn) ->
  database.add_turn_instances instances false self
  = (Return (leftover (instances_of self turn) instances),
     database.set_session
       (database.mkSession (database.committed (database.session self))
          (database.set_sequence
             (database.sequence (database.db self)
              + Z.of_nat (length (leftover (instances_of self turn) instances)))
             (database.set_turn_instances
                (omap (synced (instances_of self turn) instances)
                      (database.turn_instances (database.db self))
                 ++ new_rows (database.sequence (database.db self)) turn
                      (leftover (instances_of self turn) instances))%list
                (database.db self))))
       self).
Proof.
  intros Hsome Hturn Hids Hslots.
  unfold database.add_turn_instances. mred.
  destruct instances as [|c0 rest]; [done|].
  cbn [database.common_turn].
  rewrite <- (Hturn c0) by apply list_elem_of_here.
  rewrite common_turn_same; cycle 1.
  { intros x Hx. rewrite (Hturn c0) by apply list_elem_of_here.
    apply Hturn. by apply list_elem_of_further. }
  rewrite (Hturn c0) by apply list_elem_of_here.
  fold (instances_of self turn).
  pose proof (sync_loop_rows (instances_of self turn) (c0 :: rest)
                (database.turn_instances (database.db self)) self) as Hloop.
  rewrite with_turn_instances_id in Hloop. unfold instances_of in Hloop at 1.
  unfold instances_of at 1.
  rewrite Hloop, sync_all_spec; [|exact Hids| |exact Hslots].
  2:{ intros e He. unfold instances_of, database.all in He.
      by apply list_elem_of_filter in He as [_ He]. }
  cbn [fst snd]. rewrite append_loop_rows.
  by destruct self as [[? []]].
Qed.

Lemma instances_of_rebuilt committed pk rows d self turn :
  instances_of
    (database.set_session
       (database.mkSession committed
          (database.set_sequence pk (database.set_turn_instances rows d))) self) turn
  = filter (fun row => models.TurnInstance.turn row = turn) rows.
Proof. reflexivity. Qed.

(** C9. A turn whose stored instances have distinct slots (start, end,
    weekday), rows having distinct primary keys, and a non-empty list of
    candidates for that turn.  The incremental [add_turn_instances]
    returns, and afterwards the instances of the turn are exactly these, in
    this order: every instance that was stored and has a candidate in its
    slot, with the room of the first such candidate (its own room when the
    two agree), an instance in the slot of no candidate being gone; then
    one new instance, under a new key, for every candidate left in the
    caller's list.  The candidates left are those that no stored instance
    has taken: each stored instance takes the first candidate in its slot
    out of the list, so a candidate in the slot of no stored instance is
    left, and with one candidate per slot no other is.  The instances of
    the other turns are as they were. *)
Theorem add_turn_instances_incremental (self : database.Controller) (turn : Z)
    (instances : list candidates.TurnInstance.t)
    (Hsome : instances <> [])
    (Hturn : forall instance, instance ∈ instances ->
                              candidates.TurnInstance.turn instance = turn)
    (Hids : NoDup (models.TurnInstance.id <$> database.turn_instances (database.db self)))
    (Hslots : NoDup (slot <$> instances_of self turn)) :
  let existing := instances_of self turn in
  let left := leftover existing instances in
  exists self',
    database.add_turn_instances instances false self = (Return left, self')
    /\ instances_of self' turn
       = (omap (kept instances) existing
          ++ new_rows (database.sequence (database.db self)) turn left)%list
    /\ (forall other, other <> turn -> instances_of self' other = instances_of self other)
    /\ (forall c, c ∈ instances ->
                  (forall e, e ∈ existing -> slot e <> candidate_slot c) -> c ∈ left)
    /\ (forall c, c ∈ left -> c ∈ instances)
    /\ (NoDup (candidate_slot <$> instances) -> left = unmatched existing instances).
Proof.
  cbv zeta. eexists. split; [by apply add_turn_instances_state|].
  assert (Hexisting : forall e, e ∈ instances_of self turn <->
            models.TurnInstance.turn e = turn
            /\ e ∈ database.turn_instances (database.db self)).
  { intros e. unfold instances_of, database.all.
    exact (list_elem_of_filter (fun row => models.TurnInstance.turn row = turn) _ e). }
  assert (Hkeeps : forall t x y,
            synced (instances_of self turn) instances x = Some y ->
            models.TurnInstance.turn y = t <-> models.TurnInstance.turn x = t).
  { intros t x y Hxy. apply synced_turn in Hxy as (Ht & _). by rewrite Ht. }
  rewrite !instances_of_rebuilt.
  split; [|split; [|split; [|split]]].
  - rewrite filter_app, (filter_omap _ _ _ (Hkeeps turn)).
    rewrite (filter_all _ (new_rows _ _ _)) by apply new_rows_of_turn.
    f_equal. apply omap_ext_in. intros e He.
    unfold synced. by rewrite decide_True.
  - intros other Hother. rewrite instances_of_rebuilt.
    rewrite filter_app, (filter_omap _ _ _ (Hkeeps other)).
    rewrite (filter_nothing _ (new_rows _ _ _)); cycle 1.
    { eapply Forall_impl; [apply new_rows_of_turn|]. cbn. congruence. }
    rewrite app_nil_r. unfold instances_of, database.all.
    transitivity (omap Some (filter (fun row => models.TurnInstance.turn row = other)
                               (database.turn_instances (database.db self))));
      [|apply omap_id].
    apply omap_ext_in. intros row Hrow.
    apply list_elem_of_filter in Hrow as [Hrt _].
    unfold synced. rewrite decide_False; [reflexivity|].
    intros Hin. apply Hexisting in Hin as [Hrt' _]. congruence.
  - intros c Hc Hnone. by apply leftover_keeps.
  - intros c. apply leftover_subset.
  - apply leftover_unmatched.
Qed.

Lemma add_turn_instances_incremental_witness :
  exists self',
    database.add_turn_instances schedule_candidates false (uncached schedule_db)
    = (Return [candidates.TurnInstance.mk 5 840 960 friday room_a], self')
    /\ instances_of self' 5
       = [models.TurnInstance.mk 1 5 540 660 room_b monday;
          models.TurnInstance.mk 10 5 840 960 room_a friday]
    /\ instances_of self' 6 = [models.TurnInstance.mk 3 6 540 660 room_a wednesday].
Proof.
  destruct (add_turn_instances_incremental (uncached schedule_db) 5 schedule_candidates)
    as (self' & Hcall & Hrows & Hothers & _).
  - discriminate.
  - intros c Hc. repeat (apply elem_of_cons in Hc as [->|Hc]); [reflexivity..|].
    by apply elem_of_nil in Hc.
  - apply (bool_decide_unpack _). vm_compute. exact I.
  - apply (bool_decide_unpack _). vm_compute. exact I.
  - exists self'. split; [exact Hcall|]. split; [exact Hrows|].
    rewrite (Hothers 6) by discriminate. reflexivity.
Defined.

(** ** The worker loop *)

Section Worker.

Context {W St : Type}.
Variable crawl_function : W -> M St unit.
Variable db_session_rollback : M St unit.

Local Abbreviation attempt := (crawler.attempt crawl_function db_session_rollback).
Local Abbreviation drain := (crawler.drain crawl_function db_session_rollback).

(** The inner loop, one turn unfolded. *)
Lemma attempt_unfold work_unit exception_count th :
  attempt work_unit exception_count th
  = match crawler.call crawl_function work_unit th with
    | (Return _, th1) => (Return 0%nat, th1)
    | (Raise _, th1) =>
        match crawler.lift db_session_rollback th1 with
        | (Raise e, th2) => (Raise e, th2)
        | (Return _, th2) =>
            if decide (S exception_count <= 10)%nat
            then attempt work_unit (S exception_count)
                   (snd (crawler.sleep (5 + Z.min (Z.of_nat (S exception_count)) 55) th2))
            else (Raise (Exception "Thread {} failed for more than 10 times."), th2)
        end
    end.
Proof.
  simp attempt.
  destruct (crawler.call crawl_function work_unit th) as [[[]|e] th1]; simp attempt;
    [reflexivity|].
  destruct (crawler.lift db_session_rollback th1) as [[[]|e2] th2]; simp attempt;
    [|reflexivity].
  destruct (le_lt_dec (S exception_count) 10); simp attempt.
  - rewrite decide_True by lia. reflexivity.
  - rewrite decide_False by lia. reflexivity.
Qed.

Lemma call_raise work_unit th e st1 :
  crawl_function work_unit (crawler.env th) = (Raise e, st1) ->
  crawler.call crawl_function work_unit th
  = (Raise e, crawler.mkThread st1 (crawler.work_queue th)
                (crawler.calls th ++ [work_unit])%list (crawler.sleeps th)).
Proof. intros Hcall. unfold crawler.call, crawler.lift. mred. cbn. by rewrite Hcall. Qed.

Lemma call_return work_unit th st1 :
  crawl_function work_unit (crawler.env th) = (Return tt, st1) ->
  crawler.call crawl_function work_unit th
  = (Return tt, crawler.mkThread st1 (crawler.work_queue th)
                  (crawler.calls th ++ [work_unit])%list (crawler.sleeps th)).
Proof. intros Hcall. unfold crawler.call, crawler.lift. mred. cbn. by rewrite Hcall. Qed.

Lemma delays_S from n :
  delays from (S n) = (5 + Z.min (Z.of_nat (S from)) 55) :: delays (S from) n.
Proof. reflexivity. Qed.

(** A task that always fails: entered with [exception_count] failures behind
    it, the inner loop calls the task until the counter passes 10 and
    raises. *)
Lemma attempt_always_fails work_unit :
  always_fails crawl_function work_unit ->
  always_returns db_session_rollback ->
  forall n exception_count th,
    (exception_count + n = 10)%nat ->
    exists st',
      attempt work_unit exception_count th
      = (Raise (Exception "Thread {} failed for more than 10 times."),
         crawler.mkThread st' (crawler.work_queue th)
           (crawler.calls th ++ replicate (S n) work_unit)%list
           (crawler.sleeps th ++ delays exception_count n)%list).
Proof.
  intros Hfails Hrollback.
  induction n as [|n IH]; intros exception_count th Hcount;
    rewrite attempt_unfold;
    destruct (Hfails (crawler.env th)) as (e & st1 & Hcall);
    rewrite (call_raise _ _ _ _ Hcall);
    destruct (Hrollback st1) as (st2 & Hrb);
    unfold crawler.lift at 1; cbn [crawler.env]; rewrite Hrb;
    cbn [crawler.work_queue crawler.calls crawler.sleeps].
  - rewrite decide_False by lia. exists st2. unfold delays. cbn [seq fmap list_fmap].
    by rewrite app_nil_r.
  - rewrite decide_True by lia.
    unfold crawler.sleep at 1. mred.
    cbn [crawler.env crawler.work_queue crawler.calls crawler.sleeps].
    destruct (IH (S exception_count)
                (crawler.mkThread st2 (crawler.work_queue th)
                   (crawler.calls th ++ [work_unit])%list
                   (crawler.sleeps th
                    ++ [5 + Z.min (Z.of_nat (S exception_count)) 55])%list))
      as (st' & ->); [lia|].
    exists st'. cbn [crawler.env crawler.work_queue crawler.calls crawler.sleeps].
    rewrite delays_S, <- !app_assoc. reflexivity.
Qed.

(** A task that fails [k] times and then returns, the counter staying
    within the ceiling: the inner loop is left with the counter at 0. *)
Lemma attempt_succeeds work_unit k st st' :
  fails_before_success crawl_function db_session_rollback work_unit k st st' ->
  forall exception_count th,
    crawler.env th = st ->
    (exception_count + k <= 10)%nat ->
    attempt work_unit exception_count th
    = (Return 0%nat,
       crawler.mkThread st' (crawler.work_queue th)
         (crawler.calls th ++ replicate (S k) work_unit)%list
         (crawler.sleeps th ++ delays exception_count k)%list).
Proof.
  induction 1 as [st st' Hcall|k st e st1 st2 st' Hcall Hrb _ IH];
    intros exception_count th Henv Hcount; rewrite attempt_unfold; subst st.
  - rewrite (call_return _ _ _ Hcall). unfold delays. cbn [seq fmap list_fmap].
    by rewrite app_nil_r.
  - rewrite (call_raise _ _ _ _ Hcall).
    unfold crawler.lift at 1. cbn [crawler.env]. rewrite Hrb.
    cbn [crawler.work_queue crawler.calls crawler.sleeps].
    rewrite decide_True by lia.
    unfold crawler.sleep at 1. mred.
    cbn [crawler.env crawler.work_queue crawler.calls crawler.sleeps].
    rewrite IH; [|reflexivity|lia].
    cbn [crawler.env crawler.work_queue crawler.calls crawler.sleeps].
    rewrite delays_S, <- !app_assoc. reflexivity.
Qed.

End Worker.

Example delays_to_the_ceiling : delays 0 10 = [6; 7; 8; 9; 10; 11; 12; 13; 14; 15].
Proof. reflexivity. Qed.

(** C5. A worker whose queue holds [work_unit] first, and whose rollback
    returns.  If the task fails on every call for [work_unit], [run] raises
    after the 11th call, having slept after each of the first ten failures,
    and the queue holds the units that followed [work_unit]: the unit is not
    put back.  If the task fails [k <= 10] times and then returns, the
    inner loop is left with the counter at 0 and [run] goes on with the rest
    of the queue. *)
Theorem fatal_ceiling {W St : Type} (crawl_function : W -> M St unit)
    (db_session_rollback : M St unit) (work_unit : W) (rest : list W)
    (th : crawler.Thread)
    (Hqueue : crawler.work_queue th = work_unit :: rest)
    (Hrollback : always_returns db_session_rollback) :
  (always_fails crawl_function work_unit ->
   exists st',
     crawler.run crawl_function db_session_rollback th
     = (Raise (Exception "Thread {} failed for more than 10 times."),
        crawler.mkThread st' rest
          (crawler.calls th ++ replicate 11 work_unit)%list
          (crawler.sleeps th ++ delays 0 10)%list))
  /\ (forall k st',
        (k <= 10)%nat ->
        fails_before_success crawl_function db_session_rollback work_unit k
          (crawler.env th) st' ->
        let th' := crawler.mkThread st' rest
                     (crawler.calls th ++ replicate (S k) work_unit)%list
                     (crawler.sleeps th ++ delays 0 k)%list in
        crawler.attempt crawl_function db_session_rollback work_unit 0
          (snd (crawler.work_queue_get rest th))
        = (Return 0%nat, th')
        /\ crawler.run crawl_function db_session_rollback th
           = crawler.drain crawl_function db_session_rollback rest th').
Proof.
  split.
  - intros Hfails. unfold crawler.run. mred. rewrite Hqueue. cbn [crawler.drain].
    unfold crawler.work_queue_get at 1. mred.
    destruct (attempt_always_fails crawl_function db_session_rollback work_unit
                Hfails Hrollback 10 0%nat
                (crawler.mkThread (crawler.env th) rest (crawler.calls th)
                   (crawler.sleeps th)) eq_refl) as (st' & ->).
    exists st'. reflexivity.
  - intros k st' Hk Hruns th'.
    assert (Hattempt :
              crawler.attempt crawl_function db_session_rollback work_unit 0
                (crawler.mkThread (crawler.env th) rest (crawler.calls th)
                   (crawler.sleeps th))
              = (Return 0%nat, th')).
    { rewrite (attempt_succeeds crawl_function db_session_rollback work_unit k
                 _ st' Hruns); [reflexivity|reflexivity|lia]. }
    split; [exact Hattempt|].
    unfold crawler.run. mred. rewrite Hqueue. cbn [crawler.drain].
    unfold crawler.work_queue_get at 1. mred. rewrite Hattempt. reflexivity.
Qed.

Lemma fatal_ceiling_witness :
  always_returns (ret tt : M nat unit)
  /\ always_fails flaky 7
  /\ exists st',
       crawler.run flaky (ret tt) (crawler.mkThread 0%nat [7; 8] [] [])
       = (Raise (Exception "Thread {} failed for more than 10 times."),
          crawler.mkThread st' [8] (replicate 11 7) (delays 0 10)).
Proof.
  assert (Hrollback : always_returns (ret tt : M nat unit))
    by (intros st; exists st; reflexivity).
  assert (Hfails : always_fails flaky 7)
    by (intros st; eexists _, _; reflexivity).
  split; [exact Hrollback|]. split; [exact Hfails|].
  exact (proj1 (fatal_ceiling flaky (ret tt) 7 [8]
                  (crawler.mkThread 0%nat [7; 8] [] []) eq_refl Hrollback) Hfails).
Defined.

(** A worker on a queue of three units with a task that fails on the
    second: the first unit is processed, eleven calls are made for the
    second, and the third is still queued when the worker dies. *)
Example run_flaky :
  crawler.run flaky (ret tt) (crawler.mkThread 0%nat [3; 7; 8] [] [])
  = (Raise (Exception "Thread {} failed for more than 10 times."),
     crawler.mkThread 1%nat [8] (3 :: replicate 11 7) (delays 0 10)).
Proof. vm_compute. reflexivity. Qed.

(** * Further properties *)

(** ** The temporal range *)

(** On a set and ordered range, [add_year] gives the smallest range that
    holds the old one and the year. *)
Lemma add_year_set (f l y : Z) :
  f <= l ->
  models.add_year (Some y) (range f l) = (Return tt, range (Z.min f y) (Z.max l y)).
Proof.
  intros Hfl. run_M. cbn.
  destruct (Z.ltb_spec y f).
  - rewrite Z.min_r, Z.max_l by lia. reflexivity.
  - destruct (Z.ltb_spec l y).
    + rewrite Z.min_l, Z.max_r by lia. reflexivity.
    + rewrite Z.min_l, Z.max_l by lia. reflexivity.
Qed.

(** On an unset range it gives the year alone. *)
Lemma add_year_unset_range (y : Z) :
  models.add_year (Some y) {| models.first_year := None; models.last_year := None |}
  = (Return tt, range y y).
Proof. run_M. cbn. rewrite Z.ltb_irrefl. reflexivity. Qed.

(** [contains] on a set range is the inclusive test of the bounds. *)
Lemma contains_set (f l y : Z) :
  models.contains (Some y) (range f l)
  = (Return (bool_decide (f <= y <= l)), range f l).
Proof.
  cbv [models.contains bind get py_le ret range models.first_year models.last_year].
  destruct (Z.leb_spec f y), (Z.leb_spec y l);
    (rewrite bool_decide_eq_true_2 by lia) || (rewrite bool_decide_eq_false_2 by lia);
    reflexivity.
Qed.

(** [add_year] then [contains]: on a consistent range, a year that was just
    added is contained, and the range is set. *)
Theorem add_year_then_contains (e : models.TemporalEntity) (y : Z)
    (Hok : range_ok e) :
  exists e',
    (models.add_year (Some y);; models.contains (Some y)) e = (Return true, e')
    /\ models.has_time_range e' = true.
Proof.
  destruct e as [[f|] [l|]]; cbv [range_ok models.first_year models.last_year] in Hok;
    try contradiction.
  - exists (range (Z.min f y) (Z.max l y)). split; [|reflexivity].
    unfold bind. change {| models.first_year := Some f; models.last_year := Some l |}
      with (range f l).
    rewrite add_year_set by exact Hok. rewrite contains_set.
    rewrite bool_decide_eq_true_2 by lia. reflexivity.
  - exists (range y y). split; [|reflexivity].
    unfold bind. rewrite add_year_unset_range, contains_set.
    rewrite bool_decide_eq_true_2 by lia. reflexivity.
Qed.

Lemma add_year_then_contains_witness :
  range_ok (range 2010 2012)
  /\ exists e',
       (models.add_year (Some 2015);; models.contains (Some 2015)) (range 2010 2012)
       = (Return true, e')
       /\ models.has_time_range e' = true.
Proof.
  assert (Hok : range_ok (range 2010 2012)) by (cbv [range_ok range]; cbn; lia).
  split; [exact Hok|]. exact (add_year_then_contains (range 2010 2012) 2015 Hok).
Defined.

(** The years added to a consistent range may come in any order, and a year
    added twice counts once. *)
Theorem add_year_order_independent (e : models.TemporalEntity) (a b : Z)
    (Hok : range_ok e) :
  (models.add_year (Some a);; models.add_year (Some b)) e
  = (models.add_year (Some b);; models.add_year (Some a)) e
  /\ (models.add_year (Some a);; models.add_year (Some a)) e = models.add_year (Some a) e.
Proof.
  destruct e as [[f|] [l|]]; cbv [range_ok models.first_year models.last_year] in Hok;
    try contradiction; unfold bind.
  - change {| models.first_year := Some f; models.last_year := Some l |}
      with (range f l).
    rewrite !(add_year_set f l) by exact Hok.
    rewrite !add_year_set by lia. split; f_equal; f_equal; lia.
  - rewrite !add_year_unset_range, !add_year_set by lia.
    split; f_equal; f_equal; lia.
Qed.

Lemma add_year_order_independent_witness :
  range_ok (range 2010 2012)
  /\ (models.add_year (Some 2008);; models.add_year (Some 2015)) (range 2010 2012)
     = (models.add_year (Some 2015);; models.add_year (Some 2008)) (range 2010 2012).
Proof.
  assert (Hok : range_ok (range 2010 2012)) by (cbv [range_ok range]; cbn; lia).
  split; [exact Hok|].
  exact (proj1 (add_year_order_independent (range 2010 2012) 2008 2015 Hok)).
Defined.

(** [contains] needs a set range: with the lower bound unset it ends in a
    [TypeError], whatever the year, and leaves the entity alone; this is the
    case [has_time_range] answers with [False]. *)
Theorem contains_unset_raises (e : models.TemporalEntity) (year : option Z)
    (Hunset : models.first_year e = None) :
  models.has_time_range e = false
  /\ exists msg, models.contains year e = (Raise (TypeError msg), e).
Proof.
  destruct e as [f l]. cbn in Hunset. subst f. split; [reflexivity|].
  eexists. reflexivity.
Qed.

Lemma contains_unset_raises_witness :
  exists msg,
    models.contains (Some 2015) {| models.first_year := None; models.last_year := None |}
    = (Raise (TypeError msg),
       {| models.first_year := None; models.last_year := None |}).
Proof.
  exact (proj2 (contains_unset_raises
                  {| models.first_year := None; models.last_year := None |}
                  (Some 2015) eq_refl)).
Defined.

(** The candidates' [add_year] has no guard: [add_year(None)] ends in a
    [TypeError] for every candidate, with the bounds as they were. *)
Theorem candidate_add_year_none_raises (e : candidates.TemporalEntity) :
  exists msg, candidates.add_year None e = (Raise (TypeError msg), e).
Proof.
  destruct e as [[f|] [l|]]; eexists; reflexivity.
Qed.

(** ** The worker loop, for any task *)

Section AnyTask.

Context {W St : Type}.
Variable crawl_function : W -> M St unit.
Variable db_session_rollback : M St unit.

Local Abbreviation attempt' := (crawler.attempt crawl_function db_session_rollback).

(** A call of the task is logged and touches neither queue nor sleeps. *)
Lemma call_frame work_unit th :
  let th1 := snd (crawler.call crawl_function work_unit th) in
  crawler.work_queue th1 = crawler.work_queue th
  /\ crawler.calls th1 = (crawler.calls th ++ [work_unit])%list
  /\ crawler.sleeps th1 = crawler.sleeps th.
Proof.
  unfold crawler.call, crawler.lift. mred. cbn.
  destruct (crawl_function work_unit (crawler.env th)) as [r st]. cbn. done.
Qed.

Lemma lift_frame {A} (m : M St A) (th : @crawler.Thread W St) :
  let th1 := snd (crawler.lift m th) in
  crawler.work_queue th1 = crawler.work_queue th
  /\ crawler.calls th1 = crawler.calls th
  /\ crawler.sleeps th1 = crawler.sleeps th.
Proof. unfold crawler.lift. destruct (m (crawler.env th)) as [r st]. cbn. done. Qed.

Lemma delays_bounds from n :
  (from + n <= 10)%nat -> Forall (fun seconds => 6 <= seconds <= 15) (delays from n).
Proof.
  revert from. induction n as [|n IH]; intros from Hle; [constructor|].
  rewrite delays_S. constructor; [lia|]. apply IH. lia.
Qed.

(** Whatever the task and the rollback do, the inner loop entered with
    [exception_count] failures makes at most [11 - exception_count] calls
    and sleeps once less than it calls at most, by the schedule. *)
Lemma attempt_bounded work_unit : forall n exception_count th,
  (exception_count + n = 10)%nat ->
  exists calls_made slept,
    let th' := snd (attempt' work_unit exception_count th) in
    (1 <= calls_made <= S n)%nat /\ (slept < calls_made)%nat
    /\ crawler.calls th' = (crawler.calls th ++ replicate calls_made work_unit)%list
    /\ crawler.sleeps th' = (crawler.sleeps th ++ delays exception_count slept)%list
    /\ crawler.work_queue th' = crawler.work_queue th.
Proof.
  induction n as [|n IH]; intros exception_count th Hcount; rewrite attempt_unfold;
    pose proof (call_frame work_unit th) as (Hq1 & Hc1 & Hs1);
    destruct (crawler.call crawl_function work_unit th) as [[[]|e] th1]; cbn [snd] in *;
    try (exists 1%nat, 0%nat; cbn [snd]; rewrite Hc1, Hs1, Hq1; unfold delays;
         cbn [seq fmap list_fmap]; rewrite app_nil_r; repeat split; lia);
    pose proof (lift_frame db_session_rollback th1) as (Hq2 & Hc2 & Hs2);
    destruct (crawler.lift db_session_rollback th1) as [[[]|e2] th2]; cbn [snd] in *;
    try (exists 1%nat, 0%nat; cbn [snd]; rewrite Hc2, Hs2, Hq2, Hc1, Hs1, Hq1;
         unfold delays; cbn [seq fmap list_fmap]; rewrite app_nil_r; repeat split; lia).
  - rewrite decide_False by lia.
    exists 1%nat, 0%nat. cbn [snd]. rewrite Hc2, Hs2, Hq2, Hc1, Hs1, Hq1.
    unfold delays. cbn [seq fmap list_fmap]. rewrite app_nil_r. repeat split; lia.
  - rewrite decide_True by lia.
    destruct (IH (S exception_count)
                (snd (crawler.sleep (5 + Z.min (Z.of_nat (S exception_count)) 55) th2)))
      as (calls_made & slept & Hbound & Hslept & Hcalls & Hsleeps & Hqueue); [lia|].
    exists (S calls_made), (S slept). cbn zeta in *.
    rewrite Hcalls, Hsleeps, Hqueue. unfold crawler.sleep. mred. cbn.
    rewrite Hc2, Hs2, Hq2, Hc1, Hs1, Hq1, <- !app_assoc.
    repeat split; try lia; reflexivity.
Qed.

(** The retries of one work unit are bounded for every task: at most 11
    calls, each sleep between 6 and 15 seconds, and the queue is never
    written to. *)
Theorem retries_bounded (work_unit : W) (th : crawler.Thread) :
  let th' := snd (attempt' work_unit 0 th) in
  exists calls_made slept,
    (1 <= calls_made <= 11)%nat /\ (slept <= 10)%nat
    /\ crawler.calls th' = (crawler.calls th ++ replicate calls_made work_unit)%list
    /\ crawler.sleeps th' = (crawler.sleeps th ++ delays 0 slept)%list
    /\ Forall (fun seconds => 6 <= seconds <= 15) (delays 0 slept)
    /\ crawler.work_queue th' = crawler.work_queue th.
Proof.
  destruct (attempt_bounded work_unit 10 0%nat th eq_refl)
    as (calls_made & slept & Hbound & Hslept & Hcalls & Hsleeps & Hqueue).
  exists calls_made, slept. cbn zeta in *.
  repeat split; try tauto; try lia. apply delays_bounds. lia.
Qed.

End AnyTask.

(** ** Batches without the cache *)

(** Merging a candidate never narrows the range a stored institution or
    department has. *)
Theorem merge_never_narrows (f l : Z) :
  (forall candidate institution,
      models.Institution.temporal institution = range f l ->
      exists f' l',
        models.Institution.temporal (fst (database.update_institution candidate institution))
        = range f' l' /\ f' <= f /\ l <= l')
  /\ (forall candidate department,
        models.Department.temporal department = range f l ->
        exists f' l',
          models.Department.temporal (fst (database.update_department candidate department))
          = range f' l' /\ f' <= f /\ l <= l').
Proof.
  split.
  - intros candidate institution Ht.
    destruct (update_institution_widens candidate institution f l)
      as (f' & l' & Hf & Hl & Hle); [unfold models.Institution.first_year; by rewrite Ht
                                    |unfold models.Institution.last_year; by rewrite Ht|].
    exists f', l'. split; [|exact Hle].
    unfold models.Institution.first_year, models.Institution.last_year in Hf, Hl.
    destruct (models.Institution.temporal (fst _)) as [a b]. cbn in Hf, Hl. subst. reflexivity.
  - intros candidate department Ht.
    destruct (update_department_widens candidate department f l)
      as (f' & l' & Hf & Hl & Hle); [unfold models.Department.first_year; by rewrite Ht
                                    |unfold models.Department.last_year; by rewrite Ht|].
    exists f', l'. split; [|exact Hle].
    unfold models.Department.first_year, models.Department.last_year in Hf, Hl.
    destruct (models.Department.temporal (fst _)) as [a b]. cbn in Hf, Hl. subst. reflexivity.
Qed.

Lemma merge_never_narrows_witness :
  exists f' l',
    models.Institution.temporal
      (fst (database.update_institution
              (candidates.Institution.mk 97747 None (Some "FCT") (crange 2008 2011))
              (models.Institution.mk 97747 (Some "Faculdade de Ciências e Tecnologia")
                 None (range 2010 2012)))) = range f' l'
    /\ f' <= 2010 /\ 2012 <= l'.
Proof.
  exact (proj1 (merge_never_narrows 2010 2012) _
           (models.Institution.mk 97747 (Some "Faculdade de Ciências e Tecnologia")
              None (range 2010 2012)) eq_refl).
Defined.

(** [update_institution] and [update_department] keep the primary key. *)
Lemma update_keeps_id :
  (forall candidate institution,
      models.Institution.id (fst (database.update_institution candidate institution))
      = models.Institution.id institution)
  /\ (forall candidate department,
        models.Department.id (fst (database.update_department candidate department))
        = models.Department.id department).
Proof.
  split; intros candidate stored;
    [unfold database.update_institution | unfold database.update_department];
    repeat match goal with
           | |- context [if ?b then _ else _] => destruct b
           | |- context [match ?x with Some _ => _ | None => _ end] => destruct x
           end; reflexivity.
Qed.

(** The constraints look at the institutions only through their keys. *)
Lemma integrity_set_institutions rows d :
  NoDup (models.Institution.id <$> rows) ->
  database.integrity d = true ->
  database.integrity (database.set_institutions rows d) = true.
Proof.
  intros Hkeys Hok. unfold database.integrity in *. db_red.
  repeat (apply andb_prop in Hok as [Hok ?]).
  repeat (apply andb_true_intro; split); try assumption.
  unfold database.unique. apply bool_decide_eq_true.
  exact (eq_ind _ NoDup Hkeys _ (fmap_as_omap models.Institution.id rows)).
Qed.

Lemma integrity_institutions d :
  database.integrity d = true -> NoDup (models.Institution.id <$> database.institutions d).
Proof.
  intros Hok. unfold database.integrity in Hok.
  repeat (apply andb_prop in Hok as [Hok ?]).
  unfold database.unique in Hok. apply bool_decide_eq_true in Hok.
  exact (eq_ind_r NoDup Hok (fmap_as_omap models.Institution.id _)).
Qed.

(** An iteration of [add_institutions] that queries the session keeps the
    constraints, stores the candidate's key and drops no key. *)
Lemma add_institutions_step_uncached counts candidate self :
  database.__caching__ self = false ->
  database.integrity (database.db self) = true ->
  exists counts' self',
    database.add_institutions_step counts candidate self = (Return counts', self')
    /\ database.__caching__ self' = false
    /\ database.integrity (database.db self') = true
    /\ candidates.Institution.id candidate ∈ institution_ids self'
    /\ forall i, i ∈ institution_ids self -> i ∈ institution_ids self'.
Proof.
  intros Hcaching Hok. destruct counts as [new_count updated_count].
  pose proof (integrity_institutions _ Hok) as Hkeys.
  unfold database.add_institutions_step. mred. rewrite Hcaching.
  unfold database.first.
  destruct (list_find _ _) as [[pos institution]|] eqn:Hfind.
  - apply list_find_Some in Hfind as (Hpos & Hid & _).
    pose proof (proj1 update_keeps_id candidate institution) as Hsame.
    destruct (database.update_institution candidate institution) as [i updated].
    cbn [fst] in Hsame.
    assert ((models.Institution.id <$> <[pos := i]> (database.institutions (database.db self)))
            = models.Institution.id <$> database.institutions (database.db self)) as Hids.
    { rewrite list_fmap_insert. apply list_insert_id.
      by rewrite list_lookup_fmap, Hpos, Hsame. }
    eexists _, _. split; [reflexivity|]. unfold institution_ids. db_red.
    rewrite Hids. repeat split; try done.
    + apply integrity_set_institutions; [by rewrite Hids | exact Hok].
    + rewrite <- Hid. apply list_elem_of_fmap_2. by eapply list_elem_of_lookup_2.
  - apply list_find_None in Hfind.
    eexists _, _. split; [reflexivity|]. unfold institution_ids. db_red.
    rewrite fmap_app. cbn [fmap list_fmap models.Institution.id].
    repeat split; try done.
    + apply integrity_set_institutions; [|exact Hok].
      rewrite fmap_app. apply NoDup_app. split; [exact Hkeys|]. split.
      * intros i Hi Hnew. apply list_elem_of_singleton in Hnew. cbn in Hnew. subst i.
        apply list_elem_of_fmap in Hi as (row & Hrow & Hin).
        exact (proj1 (Forall_forall _ _) Hfind row Hin (eq_sym Hrow)).
      * apply NoDup_singleton.
    + apply elem_of_app. right. apply list_elem_of_singleton. reflexivity.
    + intros i Hi. apply elem_of_app. by left.
Qed.

Lemma add_institutions_loop_uncached batch : forall counts self,
  database.__caching__ self = false ->
  database.integrity (database.db self) = true ->
  exists counts' self',
    for_fold batch counts database.add_institutions_step self = (Return counts', self')
    /\ database.__caching__ self' = false
    /\ database.integrity (database.db self') = true
    /\ (forall candidate, candidate ∈ batch ->
                          candidates.Institution.id candidate ∈ institution_ids self')
    /\ forall i, i ∈ institution_ids self -> i ∈ institution_ids self'.
Proof.
  induction batch as [|candidate batch IH]; intros counts self Hcaching Hok; cbn.
  - eexists _, _. split; [reflexivity|]. repeat split; try done.
    intros candidate Hin. by apply elem_of_nil in Hin.
  - mred.
    destruct (add_institutions_step_uncached counts candidate self Hcaching Hok)
      as (counts1 & self1 & -> & Hcaching1 & Hok1 & Hnew1 & Hkept1).
    destruct (IH counts1 self1 Hcaching1 Hok1)
      as (counts2 & self2 & -> & Hcaching2 & Hok2 & Hnew2 & Hkept2).
    eexists _, _. split; [reflexivity|]. repeat split; try done.
    + intros c [->|Hin]%elem_of_cons; [by apply Hkept2 | by apply Hnew2].
    + intros i Hi. by apply Hkept2, Hkept1.
Qed.

(** Without the cache, on a session whose rows satisfy the constraints,
    [add_institutions] commits: it returns with nothing pending, the
    constraints hold, every candidate's key is stored exactly once and
    no key that was stored is lost. *)
Theorem add_institutions_uncached_commits batch self :
  database.__caching__ self = false ->
  database.integrity (database.db self) = true ->
  exists self',
    database.add_institutions batch self = (Return tt, self')
    /\ clean self'
    /\ database.integrity (database.db self') = true
    /\ NoDup (institution_ids self')
    /\ (forall candidate, candidate ∈ batch ->
                          candidates.Institution.id candidate ∈ institution_ids self')
    /\ forall i, i ∈ institution_ids self -> i ∈ institution_ids self'.
Proof.
  intros Hcaching Hok.
  destruct (add_institutions_loop_uncached batch (0, 0) self Hcaching Hok)
    as (counts & self1 & Hloop & Hcaching1 & Hok1 & Hnew & Hkept).
  unfold database.add_institutions, database.add_institutions_try. mred.
  rewrite Hloop. unfold database.commit. mred. rewrite Hok1. db_red. rewrite Hcaching1.
  eexists. split; [reflexivity|]. unfold clean, institution_ids in *. db_red.
  repeat split; try done. by apply integrity_institutions.
Qed.

Lemma add_institutions_uncached_commits_witness :
  exists self',
    database.add_institutions
      [candidates.Institution.mk 97747 None (Some "FCT") (crange 2008 2011);
       candidates.Institution.mk 97748 (Some "Reitoria") None (crange 2000 2011);
       candidates.Institution.mk 97747 (Some "Faculdade de Ciências e Tecnologia")
         None (crange 1990 2018)]
      (uncached database.empty_db) = (Return tt, self')
    /\ clean self'
    /\ institution_ids self' = [97747; 97748].
Proof.
  destruct (add_institutions_uncached_commits
              [candidates.Institution.mk 97747 None (Some "FCT") (crange 2008 2011);
               candidates.Institution.mk 97748 (Some "Reitoria") None (crange 2000 2011);
               candidates.Institution.mk 97747 (Some "Faculdade de Ciências e Tecnologia")
                 None (crange 1990 2018)]
              (uncached database.empty_db) eq_refl eq_refl)
    as (self' & Hrun & Hclean & _).
  exists self'. split; [exact Hrun|]. split; [exact Hclean|].
  vm_compute in Hrun. injection Hrun as <-. reflexivity.
Defined.

Lemma integrity_set_departments rows d :
  NoDup (models.Department.id <$> rows) ->
  database.integrity d = true ->
  database.integrity (database.set_departments rows d) = true.
Proof.
  intros Hkeys Hok. unfold database.integrity in *. db_red.
  repeat (apply andb_prop in Hok as [Hok ?]).
  repeat (apply andb_true_intro; split); try assumption.
  unfold database.unique. apply bool_decide_eq_true.
  exact (eq_ind _ NoDup Hkeys _ (fmap_as_omap models.Department.id rows)).
Qed.

Lemma integrity_departments d :
  database.integrity d = true -> NoDup (models.Department.id <$> database.departments d).
Proof.
  intros Hok. unfold database.integrity in Hok.
  repeat (apply andb_prop in Hok as [Hok ?]).
  match goal with
  | H : database.unique _ (database.departments d) = true |- _ =>
      unfold database.unique in H; apply bool_decide_eq_true in H;
      exact (eq_ind_r NoDup H (fmap_as_omap models.Department.id _))
  end.
Qed.

Lemma add_departments_step_uncached counts candidate self :
  database.__caching__ self = false ->
  database.integrity (database.db self) = true ->
  exists counts' self',
    database.add_departments_step counts candidate self = (Return counts', self')
    /\ database.__caching__ self' = false
    /\ database.integrity (database.db self') = true
    /\ candidates.Department.id candidate ∈ department_ids self'
    /\ (forall i, i ∈ department_ids self -> i ∈ department_ids self')
    /\ institution_ids self' = institution_ids self.
Proof.
  intros Hcaching Hok. destruct counts as [new_count updated_count].
  pose proof (integrity_departments _ Hok) as Hkeys.
  unfold database.add_departments_step. mred. rewrite Hcaching.
  unfold database.first.
  destruct (list_find _ _) as [[pos department]|] eqn:Hfind.
  - apply list_find_Some in Hfind as (Hpos & Hid & _).
    pose proof (proj2 update_keeps_id candidate department) as Hsame.
    destruct (database.update_department candidate department) as [x updated].
    cbn [fst] in Hsame.
    assert ((models.Department.id <$> <[pos := x]> (database.departments (database.db self)))
            = models.Department.id <$> database.departments (database.db self)) as Hids.
    { rewrite list_fmap_insert. apply list_insert_id.
      by rewrite list_lookup_fmap, Hpos, Hsame. }
    eexists _, _. split; [reflexivity|]. unfold department_ids, institution_ids. db_red.
    rewrite Hids. repeat split; try done.
    + apply integrity_set_departments; [by rewrite Hids | exact Hok].
    + rewrite <- Hid. apply list_elem_of_fmap_2. by eapply list_elem_of_lookup_2.
  - apply list_find_None in Hfind.
    eexists _, _. split; [reflexivity|]. unfold department_ids, institution_ids. db_red.
    rewrite fmap_app. cbn [fmap list_fmap models.Department.id].
    repeat split; try done.
    + apply integrity_set_departments; [|exact Hok].
      rewrite fmap_app. apply NoDup_app. split; [exact Hkeys|]. split.
      * intros i Hi Hnew. apply list_elem_of_singleton in Hnew. cbn in Hnew. subst i.
        apply list_elem_of_fmap in Hi as (row & Hrow & Hin).
        exact (proj1 (Forall_forall _ _) Hfind row Hin (eq_sym Hrow)).
      * apply NoDup_singleton.
    + apply elem_of_app. right. apply list_elem_of_singleton. reflexivity.
    + intros i Hi. apply elem_of_app. by left.
Qed.

Lemma add_departments_loop_uncached batch : forall counts self,
  database.__caching__ self = false ->
  database.integrity (database.db self) = true ->
  exists counts' self',
    for_fold batch counts database.add_departments_step self = (Return counts', self')
    /\ database.__caching__ self' = false
    /\ database.integrity (database.db self') = true
    /\ (forall candidate, candidate ∈ batch ->
                          candidates.Department.id candidate ∈ department_ids self')
    /\ (forall i, i ∈ department_ids self -> i ∈ department_ids self')
    /\ institution_ids self' = institution_ids self.
Proof.
  induction batch as [|candidate batch IH]; intros counts self Hcaching Hok; cbn.
  - eexists _, _. split; [reflexivity|]. repeat split; try done.
    intros candidate Hin. by apply elem_of_nil in Hin.
  - mred.
    destruct (add_departments_step_uncached counts candidate self Hcaching Hok)
      as (counts1 & self1 & -> & Hcaching1 & Hok1 & Hnew1 & Hkept1 & Hinst1).
    destruct (IH counts1 self1 Hcaching1 Hok1)
      as (counts2 & self2 & -> & Hcaching2 & Hok2 & Hnew2 & Hkept2 & Hinst2).
    eexists _, _. split; [reflexivity|]. repeat split; try done.
    + intros c [->|Hin]%elem_of_cons; [by apply Hkept2 | by apply Hnew2].
    + intros i Hi. by apply Hkept2, Hkept1.
    + congruence.
Qed.

(** The same for [add_departments], which leaves the keys of the
    institutions as they are. *)
Theorem add_departments_uncached_commits batch self :
  database.__caching__ self = false ->
  database.integrity (database.db self) = true ->
  exists self',
    database.add_departments batch self = (Return tt, self')
    /\ clean self'
    /\ database.integrity (database.db self') = true
    /\ NoDup (department_ids self')
    /\ (forall candidate, candidate ∈ batch ->
                          candidates.Department.id candidate ∈ department_ids self')
    /\ (forall i, i ∈ department_ids self -> i ∈ department_ids self')
    /\ institution_ids self' = institution_ids self.
Proof.
  intros Hcaching Hok.
  destruct (add_departments_loop_uncached batch (0, 0) self Hcaching Hok)
    as (counts & self1 & Hloop & Hcaching1 & Hok1 & Hnew & Hkept & Hinst).
  unfold database.add_departments, database.add_departments_try. mred.
  rewrite Hloop. unfold database.commit. mred. rewrite Hok1. db_red. rewrite Hcaching1.
  eexists. split; [reflexivity|]. unfold clean, department_ids, institution_ids in *. db_red.
  repeat split; try done. by apply integrity_departments.
Qed.

Lemma add_departments_uncached_commits_witness :
  exists self',
    database.add_departments [physics; maths; physics] (uncached database.empty_db)
    = (Return tt, self')
    /\ clean self'
    /\ department_ids self' = [2; 1].
Proof.
  destruct (add_departments_uncached_commits [physics; maths; physics]
              (uncached database.empty_db) eq_refl eq_refl)
    as (self' & Hrun & Hclean & _).
  exists self'. split; [exact Hrun|]. split; [exact Hclean|].
  vm_compute in Hrun. injection Hrun as <-. reflexivity.
Defined.

(** ** Turn instances *)

(** The first loop stops at a candidate of another turn. *)
Lemma common_turn_mixed instances : forall turn self,
  (exists instance, instance ∈ instances /\ candidates.TurnInstance.turn instance <> turn) ->
  database.common_turn (Some turn) instances self
  = (Raise (Exception "Instances belong to multiple turns"), self).
Proof.
  induction instances as [|c rest IH]; intros turn self (x & Hx & Hne).
  - by apply elem_of_nil in Hx.
  - cbn [database.common_turn]. unfold py_ne, py_eq.
    destruct (decide (turn = candidates.TurnInstance.turn c)) as [Heq|Hdiff].
    + rewrite bool_decide_eq_true_2 by exact Heq. cbn [negb].
      apply IH. exists x. split; [|exact Hne].
      apply elem_of_cons in Hx as [->|Hx]; [by subst turn|exact Hx].
    + rewrite bool_decide_eq_false_2 by exact Hdiff. reflexivity.
Qed.

(** Candidates of two turns in one call: [add_turn_instances] raises
    before it reads or writes anything, in both modes. *)
Theorem add_turn_instances_mixed_turns instances destructive self first second :
  first ∈ instances -> second ∈ instances ->
  candidates.TurnInstance.turn first <> candidates.TurnInstance.turn second ->
  database.add_turn_instances instances destructive self
  = (Raise (Exception "Instances belong to multiple turns"), self).
Proof.
  intros Hfirst Hsecond Hne. unfold database.add_turn_instances. mred.
  destruct instances as [|c rest]; [by apply elem_of_nil in Hfirst|].
  cbn [database.common_turn]. rewrite common_turn_mixed; [reflexivity|].
  destruct (decide (candidates.TurnInstance.turn first = candidates.TurnInstance.turn c))
    as [Heq|Hdiff].
  - exists second. split; [|congruence].
    apply elem_of_cons in Hsecond as [->|Hsecond]; [congruence|exact Hsecond].
  - exists first. split; [|exact Hdiff].
    apply elem_of_cons in Hfirst as [->|Hfirst]; [congruence|exact Hfirst].
Qed.

Lemma add_turn_instances_mixed_turns_witness :
  database.add_turn_instances
    [candidates.TurnInstance.mk 5 540 660 monday room_b;
     candidates.TurnInstance.mk 5 840 960 friday room_a;
     candidates.TurnInstance.mk 6 840 960 friday room_a] true (uncached schedule_db)
  = (Raise (Exception "Instances belong to multiple turns"), uncached schedule_db).
Proof.
  apply (add_turn_instances_mixed_turns _ true _
           (candidates.TurnInstance.mk 5 540 660 monday room_b)
           (candidates.TurnInstance.mk 6 840 960 friday room_a)).
  - apply list_elem_of_here.
  - apply list_elem_of_further, list_elem_of_further, list_elem_of_here.
  - discriminate.
Defined.

(** The rows of the closing loop: keys from the generator on, one row a
    candidate. *)
Lemma new_rows_ids turn instances : forall pk,
  models.TurnInstance.id <$> new_rows pk turn instances
  = (fun k => pk + Z.of_nat k) <$> seq 0 (length instances).
Proof.
  induction instances as [|c rest IH]; intros pk; [reflexivity|].
  cbn [new_rows length seq]. rewrite !fmap_cons, IH. f_equal; [cbn; lia|].
  rewrite <- seq_shift, <- list_fmap_compose. apply list_fmap_ext.
  intros _ k _. cbn. lia.
Qed.

Lemma new_rows_keys turn instances : forall pk,
  (fun row => (models.TurnInstance.turn row, models.TurnInstance.start row,
               models.TurnInstance.weekday row)) <$> new_rows pk turn instances
  = (fun c => (turn, fst (candidate_start c), snd (candidate_start c))) <$> instances.
Proof.
  induction instances as [|c rest IH]; intros pk; [reflexivity|].
  cbn [new_rows]. rewrite !fmap_cons, IH. reflexivity.
Qed.

Lemma new_rows_turn turn instances row : forall pk,
  row ∈ new_rows pk turn instances -> models.TurnInstance.turn row = turn.
Proof.
  intros pk Hrow. by apply new_rows_elim in Hrow as [Hturn _].
Qed.

(** The constraints look at the instances through (turn, start,
    weekday). *)
Lemma integrity_set_turn_instances rows pk d :
  NoDup ((fun row => (models.TurnInstance.turn row, models.TurnInstance.start row,
                      models.TurnInstance.weekday row)) <$> rows) ->
  database.integrity d = true ->
  database.integrity (database.set_sequence pk (database.set_turn_instances rows d)) = true.
Proof.
  intros Hkeys Hok. unfold database.integrity in *. db_red.
  repeat (apply andb_prop in Hok as [Hok ?]).
  repeat (apply andb_true_intro; split); try assumption.
  unfold database.unique. apply bool_decide_eq_true.
  exact (eq_ind _ NoDup Hkeys _ (fmap_as_omap _ rows)).
Qed.

Lemma integrity_turn_instances d :
  database.integrity d = true ->
  NoDup ((fun row => (models.TurnInstance.turn row, models.TurnInstance.start row,
                      models.TurnInstance.weekday row)) <$> database.turn_instances d).
Proof.
  intros Hok. unfold database.integrity in Hok.
  repeat (apply andb_prop in Hok as [Hok ?]).
  match goal with
  | H : database.unique database.un_turn_instance _ = true |- _ =>
      unfold database.unique in H; apply bool_decide_eq_true in H;
      exact (eq_ind_r NoDup H (fmap_as_omap _ _))
  end.
Qed.

Lemma filter_filter_weaker {A} (P Q : A -> Prop) `{forall x, Decision (P x)}
    `{forall x, Decision (Q x)} (l : list A) :
  (forall x, P x -> Q x) -> filter P (filter Q l) = filter P l.
Proof.
  intros HPQ. rewrite list_filter_filter. apply list_filter_iff. intros x. split.
  - by intros [HP _].
  - intros HP. split; [exact HP | by apply HPQ].
Qed.

Lemma filter_none {A} (P : A -> Prop) `{forall x, Decision (P x)} (l : list A) :
  (forall x, x ∈ l -> ~ P x) -> filter P l = [].
Proof.
  induction l as [|x l IH]; intros Hnone; [reflexivity|].
  rewrite filter_cons_False by apply Hnone, list_elem_of_here.
  apply IH. intros y Hy. by apply Hnone, list_elem_of_further.
Qed.

Lemma set_turn_instances_twice rows rows' d :
  database.set_turn_instances rows (database.set_turn_instances rows' d)
  = database.set_turn_instances rows d.
Proof. by destruct d. Qed.

(** The destructive [add_turn_instances], on a session whose rows satisfy
    the constraints and for candidates of one turn that differ in start or
    weekday: it commits and leaves the caller's list as it is; the
    instances of the turn are then the candidates, in their order, under
    new keys, and the instances of the other turns are as they were. *)
Theorem add_turn_instances_destructive (self : database.Controller) (turn : Z)
    (instances : list candidates.TurnInstance.t)
    (Hsome : instances <> [])
    (Hturn : forall instance, instance ∈ instances ->
                              candidates.TurnInstance.turn instance = turn)
    (Hok : database.integrity (database.db self) = true)
    (Hcandidates : NoDup (candidate_start <$> instances)) :
  exists self',
    database.add_turn_instances instances true self = (Return instances, self')
    /\ clean self'
    /\ database.integrity (database.db self') = true
    /\ instances_of self' turn
       = new_rows (database.sequence (database.db self)) turn instances
    /\ (forall other, other <> turn -> instances_of self' other = instances_of self other)
    /\ (keys_generated self -> keys_generated self').
Proof.
  unfold database.add_turn_instances. mred.
  destruct instances as [|c0 rest] eqn:Hlist; [done|]. rewrite <- Hlist in *.
  assert (database.common_turn None instances self = (Return (Some turn), self)) as ->.
  { rewrite Hlist. cbn [database.common_turn].
    rewrite (Hturn c0) by (rewrite Hlist; apply list_elem_of_here).
    apply common_turn_same. intros x Hx. apply Hturn. rewrite Hlist.
    by apply list_elem_of_further. }
  rewrite append_loop_rows. db_red.
  assert ((0 <? Z.of_nat (length instances)) = true) as ->.
  { rewrite Hlist. cbn [length]. apply Z.ltb_lt. lia. }
  unfold database.commit. mred. db_red.
  set (rows := (filter (fun row => models.TurnInstance.turn row <> turn)
                       (database.turn_instances (database.db self))
                ++ new_rows (database.sequence (database.db self)) turn instances)%list).
  assert (database.integrity
            (database.set_sequence
               (database.sequence (database.db self) + Z.of_nat (length instances))
               (database.set_turn_instances rows (database.db self))) = true) as Hok'.
  { apply integrity_set_turn_instances; [|exact Hok].
    unfold rows. rewrite fmap_app. apply NoDup_app. split; [|split].
    - rewrite filter_as_omap. apply NoDup_omap_key.
      + intros x y. destruct (decide _); by intros [= <-].
      + exact (integrity_turn_instances _ Hok).
    - intros key Hold Hnew.
      apply list_elem_of_fmap in Hold as (x & -> & Hx).
      apply list_elem_of_fmap in Hnew as (y & Hkey & Hy).
      apply list_elem_of_filter in Hx as [Hx _].
      apply new_rows_turn in Hy. congruence.
    - rewrite new_rows_keys.
      rewrite (list_fmap_compose candidate_start (fun p => (turn, fst p, snd p))).
      apply NoDup_fmap_2_strong; [|exact Hcandidates].
      intros [a b] [a' b'] _ _. cbn. congruence. }
  rewrite !set_turn_instances_twice, Hok'. eexists. split; [reflexivity|].
  unfold clean, instances_of, database.all, keys_generated. db_red. fold rows.
  split; [reflexivity|]. split; [exact Hok'|]. split; [|split].
  - unfold rows. rewrite filter_app, filter_none, filter_all; [reflexivity| |].
    + apply Forall_forall. intros row Hrow. by eapply new_rows_turn.
    + intros row Hrow%list_elem_of_filter Hrt. by destruct Hrow.
  - intros other Hother. unfold rows.
    rewrite filter_app, filter_filter_weaker, (filter_none _ (new_rows _ _ _)).
    + apply app_nil_r.
    + intros row Hrow%new_rows_turn. congruence.
    + intros row. congruence.
  - intros Hgen row Hrow. unfold rows in Hrow. apply elem_of_app in Hrow as [Hrow|Hrow].
    + apply list_elem_of_filter in Hrow as [_ Hrow]. specialize (Hgen row Hrow). lia.
    + assert (models.TurnInstance.id row
              ∈ models.TurnInstance.id <$> new_rows (database.sequence (database.db self))
                                            turn instances) as Hid
          by (by apply list_elem_of_fmap_2).
      rewrite new_rows_ids in Hid. apply list_elem_of_fmap in Hid as (k & -> & Hk).
      apply elem_of_seq in Hk. lia.
Qed.

Lemma add_turn_instances_destructive_witness :
  exists self',
    database.add_turn_instances schedule_candidates true (uncached schedule_db)
    = (Return schedule_candidates, self')
    /\ instances_of self' 5
       = [models.TurnInstance.mk 10 5 540 660 room_b monday;
          models.TurnInstance.mk 11 5 840 960 room_a friday]
    /\ instances_of self' 6 = [models.TurnInstance.mk 3 6 540 660 room_a wednesday].
Proof.
  destruct (add_turn_instances_destructive (uncached schedule_db) 5 schedule_candidates)
    as (self' & Hcall & _ & _ & Hturn & Hothers & _).
  - discriminate.
  - intros c Hc. repeat (apply elem_of_cons in Hc as [->|Hc]); [reflexivity..|].
    by apply elem_of_nil in Hc.
  - reflexivity.
  - apply (bool_decide_unpack _). vm_compute. exact I.
  - exists self'. split; [exact Hcall|]. split; [exact Hturn|].
    rewrite (Hothers 6) by discriminate. reflexivity.
Defined.

(** ** Synchronising twice *)

Lemma new_rows_stored turn instances row : forall pk,
  row ∈ new_rows pk turn instances ->
  exists instance pk', instance ∈ instances /\ pk <= pk'
    /\ row = models.TurnInstance.mk pk' turn (candidates.TurnInstance.start instance)
               (candidates.TurnInstance.end_ instance)
               (candidates.TurnInstance.room instance)
               (candidates.TurnInstance.weekday instance).
Proof.
  induction instances as [|c cs IH]; intros pk Hin; [by apply elem_of_nil in Hin|].
  cbn [new_rows] in Hin. apply elem_of_cons in Hin as [->|Hin].
  - exists c, pk. split; [apply list_elem_of_here|]. split; [lia|reflexivity].
  - destruct (IH _ Hin) as (c' & pk' & Hc' & Hle & ->).
    exists c', pk'. split; [by apply list_elem_of_further|]. split; [lia|reflexivity].
Qed.

Lemma new_rows_slots turn instances : forall pk,
  slot <$> new_rows pk turn instances = candidate_slot <$> instances.
Proof.
  induction instances as [|c cs IH]; intros pk; [reflexivity|].
  cbn [new_rows]. rewrite !fmap_cons, IH. reflexivity.
Qed.

Section Resync.
Variable self : database.Controller.
Variable turn : Z.
Variable instances : list candidates.TurnInstance.t.
Hypothesis Hsome : instances <> [].
Hypothesis Hturn : forall instance, instance ∈ instances ->
                                    candidates.TurnInstance.turn instance = turn.
Hypothesis Hids : NoDup (models.TurnInstance.id <$> database.turn_instances (database.db self)).
Hypothesis Hgen : keys_generated self.
Hypothesis Hslots : NoDup (slot <$> instances_of self turn).
Hypothesis Hcandidates : NoDup (candidate_slot <$> instances).

Local Abbreviation rows := (database.turn_instances (database.db self)).
Local Abbreviation existing := (instances_of self turn).
Local Abbreviation fresh := (new_rows (database.sequence (database.db self)) turn
                               (unmatched existing instances)).
Local Abbreviation rows' := (omap (synced existing instances) rows ++ fresh)%list.
Local Abbreviation existing' :=
  (filter (fun row => models.TurnInstance.turn row = turn) rows').

Lemma existing_spec e :
  e ∈ existing <-> models.TurnInstance.turn e = turn /\ e ∈ rows.
Proof.
  unfold instances_of, database.all.
  exact (list_elem_of_filter (fun row => models.TurnInstance.turn row = turn) _ e).
Qed.

(** After the call every instance of the turn is in the slot of a
    candidate and has its room. *)
Lemma resync_row_has_candidate row :
  row ∈ rows' -> models.TurnInstance.turn row = turn ->
  exists c, c ∈ instances /\ slot row = candidate_slot c
            /\ models.TurnInstance.room row = candidates.TurnInstance.room c.
Proof.
  intros [Hrow|Hrow]%elem_of_app Hrt.
  - apply list_elem_of_omap in Hrow as (x & Hx & Hsync).
    pose proof (synced_turn _ _ _ _ Hsync) as (Ht & _ & _).
    unfold synced, kept in Hsync. destruct (decide (x ∈ existing)) as [Hxe|Hxe].
    + destruct (matching instances x) as [c|] eqn:Hm; [|discriminate].
      injection Hsync as <-. apply matching_Some in Hm as [Hc Hslot].
      exists c. split; [exact Hc|]. split; [exact Hslot|reflexivity].
    + exfalso. apply Hxe, existing_spec. split; [congruence|exact Hx].
  - apply new_rows_stored in Hrow as (c & pk & Hc & _ & ->).
    apply list_elem_of_filter in Hc as [_ Hc].
    exists c. split; [exact Hc|]. split; reflexivity.
Qed.

(** After the call every candidate has an instance of the turn in its
    slot. *)
Lemma resync_candidate_has_row c :
  c ∈ instances ->
  exists row, row ∈ existing' /\ slot row = candidate_slot c.
Proof.
  intros Hc.
  destruct (decide (Forall (fun row => slot row ≠ candidate_slot c) existing)) as [Hnone|Hsome'].
  - destruct (new_rows_intro turn (unmatched existing instances) c
                (database.sequence (database.db self))) as (pk & _ & Hrow).
    { apply list_elem_of_filter. split; [exact Hnone|exact Hc]. }
    eexists (models.TurnInstance.mk pk turn _ _ _ _). split; [|reflexivity].
    apply list_elem_of_filter. split; [reflexivity|].
    apply elem_of_app. right. exact Hrow.
  - apply not_Forall_Exists in Hsome'; [|apply _].
    apply Exists_exists in Hsome' as (e & He & Hslot). cbn in Hslot.
    apply dec_stable in Hslot.
    exists (models.TurnInstance.set_room (candidates.TurnInstance.room c) e).
    split; [|exact Hslot].
    apply list_elem_of_filter. split; [by apply existing_spec in He as [Het _]|].
    apply elem_of_app. left. apply list_elem_of_omap. exists e.
    split; [by apply existing_spec in He as [_ Hin]|].
    unfold synced, kept. rewrite decide_True by exact He.
    by rewrite (matching_unique instances e c).
Qed.

Lemma resync_ids : NoDup (models.TurnInstance.id <$> rows').
Proof.
  rewrite fmap_app. apply NoDup_app. split; [|split].
  - apply NoDup_omap_key; [|exact Hids].
    intros x y Hxy. by apply synced_turn in Hxy as (_ & Hid & _).
  - intros pk Hold Hnew.
    apply list_elem_of_fmap in Hold as (y & -> & Hy).
    apply list_elem_of_omap in Hy as (x & Hx & Hsync).
    apply synced_turn in Hsync as (_ & Hid & _).
    rewrite new_rows_ids in Hnew. apply list_elem_of_fmap in Hnew as (k & Hk & _).
    specialize (Hgen x Hx). lia.
  - rewrite new_rows_ids. apply NoDup_fmap_2_strong; [|apply NoDup_seq].
    intros a b _ _. lia.
Qed.

Lemma resync_slots : NoDup (slot <$> existing').
Proof.
  rewrite filter_app, fmap_app.
  rewrite filter_omap by (intros x y Hxy; apply synced_turn in Hxy as (Ht & _); by rewrite Ht).
  rewrite (filter_all _ fresh)
    by (apply Forall_forall; intros row Hrow; by eapply new_rows_turn).
  apply NoDup_app. split; [|split].
  - apply NoDup_omap_key; [|exact Hslots].
    intros x y Hxy. by apply synced_turn in Hxy as (_ & _ & Hs).
  - intros s Hold Hnew.
    apply list_elem_of_fmap in Hold as (y & -> & Hy).
    apply list_elem_of_omap in Hy as (x & Hx & Hsync).
    apply synced_turn in Hsync as (_ & _ & Hs).
    rewrite new_rows_slots in Hnew. apply list_elem_of_fmap in Hnew as (c & Hc & Hin).
    apply list_elem_of_filter in Hin as [Hnone _].
    apply (proj1 (Forall_forall _ _) Hnone x Hx). congruence.
  - rewrite new_rows_slots.
    apply NoDup_fmap_2_strong; [|apply NoDup_filter; eapply NoDup_fmap_1; exact Hcandidates].
    intros x y [_ Hx]%list_elem_of_filter [_ Hy]%list_elem_of_filter Hxy.
    eapply same_key_same_row; eauto.
Qed.

(** Synchronising twice, the second time with a list built anew from the
    same candidates: after the first call every candidate has an instance
    of the turn in its slot, and the second call matches every candidate,
    leaves the new list empty and the controller as it is. *)
Lemma resync_twice :
  exists self' left,
    database.add_turn_instances instances false self = (Return left, self')
    /\ (forall c, c ∈ instances ->
          exists row, row ∈ instances_of self' turn /\ slot row = candidate_slot c)
    /\ database.add_turn_instances instances false self' = (Return [], self').
Proof.
  eexists _, _. split; [by apply add_turn_instances_state|].
  rewrite !(leftover_unmatched existing instances Hcandidates).
  split.
  { intros c Hc. rewrite instances_of_rebuilt. by apply resync_candidate_has_row. }
  rewrite add_turn_instances_state with (turn := turn);
    [|exact Hsome|exact Hturn|db_red; exact resync_ids
     |rewrite instances_of_rebuilt; exact resync_slots].
  rewrite !instances_of_rebuilt. db_red.
  assert (leftover existing' instances = []) as ->.
  { rewrite leftover_unmatched by exact Hcandidates.
    apply filter_none. intros c Hc Hnone.
    destruct (resync_candidate_has_row c Hc) as (row & Hrow & Hslot).
    exact (proj1 (Forall_forall _ _) Hnone row Hrow Hslot). }
  assert (omap (synced existing' instances) rows' = rows') as ->.
  { transitivity (omap Some rows'); [|apply omap_id]. apply omap_ext_in. intros row Hrow.
    unfold synced at 1.
    destruct (decide (row ∈ existing')) as [Hin|Hin]; [|reflexivity].
    apply list_elem_of_filter in Hin as [Hrt _].
    destruct (resync_row_has_candidate row Hrow Hrt) as (c & Hc & Hslot & Hroom).
    unfold kept. rewrite (matching_unique instances row c Hcandidates Hc Hslot).
    by rewrite <- Hroom, set_room_same. }
  cbn [new_rows length]. rewrite app_nil_r, Z.add_0_r.
  by destruct self as [[? []]].
Qed.


End Resync.


(** ** Merging a candidate twice *)

(** The row a merge gives is a fixed point of the merge: merging the same
    candidate into it again changes no field, for institutions,
    departments, courses and turns. *)
Theorem merge_twice :
  (forall candidate institution,
      let merged := fst (database.update_institution candidate institution) in
      fst (database.update_institution candidate merged) = merged)
  /\ (forall candidate department,
        let merged := fst (database.update_department candidate department) in
        fst (database.update_department candidate merged) = merged)
  /\ (forall course db_course,
        let merged := fst (database.update_course course db_course) in
        fst (database.update_course course merged) = merged)
  /\ (forall turn db_turn,
        let merged := fst (database.update_turn turn db_turn) in
        fst (database.update_turn turn merged) = merged).
Proof.
  split; [|split; [|split]].
  - intros [ci cn ca [cf cl]] [i n a [fy ly]].
    unfold database.update_institution, py_ne, py_eq.
    destruct cn as [cn|], ca as [ca|], cf as [cf|], cl as [cl|], fy as [fy|], ly as [ly|];
      merge_cases.
  - intros [ci cn cinst [cf cl]] [i n inst [fy ly]].
    unfold database.update_department, py_ne, py_eq.
    destruct cn as [cn|], cf as [cf|], cl as [cl|], fy as [fy|], ly as [ly|];
      merge_cases.
  - intros [ci cn cinst cd ca [cf cl]] [i ii n a dg inst [fy ly]].
    unfold database.update_course.
    destruct ca as [ca|], cd as [cd|], cf as [cf|], cl as [cl|], fy as [fy|], ly as [ly|];
      merge_cases.
  - intros turn db_turn. destruct db_turn.
    unfold database.update_turn, py_ne, py_eq.
    destruct (candidates.Turn.minutes turn) as [m|],
      (candidates.Turn.enrolled turn), (candidates.Turn.capacity turn),
      (candidates.Turn.routes turn), (candidates.Turn.restrictions turn),
      (candidates.Turn.state turn); merge_cases.
Qed.

(** A merge that reports no change has changed no field, so the commit
    that [add_courses] and [add_turn] skip in that case would have had
    nothing to store. *)
Theorem unreported_merge_changes_nothing :
  (forall candidate institution,
      snd (database.update_institution candidate institution) = false ->
      fst (database.update_institution candidate institution) = institution)
  /\ (forall candidate department,
        snd (database.update_department candidate department) = false ->
        fst (database.update_department candidate department) = department)
  /\ (forall course db_course,
        snd (database.update_course course db_course) = false ->
        fst (database.update_course course db_course) = db_course)
  /\ (forall turn db_turn,
        snd (database.update_turn turn db_turn) = false ->
        fst (database.update_turn turn db_turn) = db_turn).
Proof.
  split; [|split; [|split]].
  - intros [ci cn ca [cf cl]] [i n a [fy ly]].
    unfold database.update_institution, py_ne, py_eq.
    destruct cn as [cn|], ca as [ca|], cf as [cf|], cl as [cl|], fy as [fy|], ly as [ly|];
      merge_cases.
  - intros [ci cn cinst [cf cl]] [i n inst [fy ly]].
    unfold database.update_department, py_ne, py_eq.
    destruct cn as [cn|], cf as [cf|], cl as [cl|], fy as [fy|], ly as [ly|];
      merge_cases.
  - intros [ci cn cinst cd ca [cf cl]] [i ii n a dg inst [fy ly]].
    unfold database.update_course.
    destruct ca as [ca|], cd as [cd|], cf as [cf|], cl as [cl|], fy as [fy|], ly as [ly|];
      merge_cases.
  - intros turn db_turn. destruct db_turn.
    unfold database.update_turn, py_ne, py_eq.
    destruct (candidates.Turn.minutes turn) as [m|],
      (candidates.Turn.enrolled turn), (candidates.Turn.capacity turn),
      (candidates.Turn.routes turn), (candidates.Turn.restrictions turn),
      (candidates.Turn.state turn); merge_cases.
Qed.

Lemma unreported_merge_changes_nothing_witness :
  let stored := models.Department.mk 2 (Some "Physics") (Some 97747) (range 1985 2020) in
  database.update_department physics stored = (stored, false).
Proof.
  cbv zeta.
  rewrite (surjective_pairing (database.update_department _ _)).
  rewrite (proj1 (proj2 unreported_merge_changes_nothing) physics
             (models.Department.mk 2 (Some "Physics") (Some 97747) (range 1985 2020))
             eq_refl).
  reflexivity.
Defined.

(** ** The cache and the query *)

(** A dictionary filled by a loop over the rows holds, under a key, the
    value of the last row with that key. *)
Lemma loaded_lookup {A K V} `{Countable K} (key : A -> K) (val : A -> V)
    (rows : list A) (k : K) : forall acc : gmap K V,
  foldl (fun d x => <[key x := val x]> d) acc rows !! k
  = match last (filter (fun x => key x = k) rows) with
    | Some x => Some (val x)
    | None => acc !! k
    end.
Proof.
  induction rows as [|x rows IH]; intros acc; [reflexivity|].
  cbn [foldl]. rewrite IH. destruct (decide (key x = k)) as [Hk|Hk].
  - rewrite filter_cons_True by exact Hk. rewrite last_cons.
    destruct (last _); [reflexivity|]. subst k. apply lookup_insert_eq.
  - rewrite filter_cons_False by exact Hk.
    destruct (last _); [reflexivity|]. by apply lookup_insert_ne.
Qed.

(** [first()] is the head of [all()]. *)
Lemma first_head {A} (P : A -> Prop) `{forall x, Decision (P x)} (rows : list A) :
  snd <$> list_find P rows = head (filter P rows).
Proof.
  induction rows as [|x rows IH]; [reflexivity|].
  cbn [list_find]. destruct (decide (P x)) as [HP|HP].
  - by rewrite filter_cons_True.
  - rewrite filter_cons_False by exact HP. rewrite <- IH.
    by destruct (list_find P rows) as [[? ?]|].
Qed.

(** What the constructor leaves in a controller with the cache on. *)
Lemma cached_fields d :
  database.__caching__ (cached d) = true
  /\ database.db (cached d) = d
  /\ database.__institutions__ (cached d)
     = foldl (fun m i => <[models.Institution.id i := models.Institution.id i]> m) ∅
             (database.institutions d)
  /\ database.__departments__ (cached d)
     = foldl (fun m x => <[models.Department.id x := models.Department.id x]> m) ∅
             (database.departments d)
  /\ database.__courses__ (cached d)
     = foldl (fun m c => <[models.Course.internal_id c := models.Course.id c]> m) ∅
             (database.courses d).
Proof. repeat split; reflexivity. Qed.

Lemma last_filter_holds {A} (P : A -> Prop) `{forall x, Decision (P x)} (rows : list A) x :
  last (filter P rows) = Some x -> P x /\ x ∈ rows.
Proof.
  intros Hlast. apply last_Some in Hlast as [l Hl].
  assert (x ∈ filter P rows) as Hx by (rewrite Hl; apply elem_of_app; right; apply list_elem_of_here).
  by apply list_elem_of_filter in Hx.
Qed.

Lemma last_filter_None {A} (P : A -> Prop) `{forall x, Decision (P x)} (rows : list A) :
  last (filter P rows) = None -> list_find P rows = None.
Proof.
  intros Hlast. apply last_None in Hlast.
  pose proof (first_head P rows) as Hh. rewrite Hlast in Hh.
  by destruct (list_find P rows).
Qed.

(** A controller built with the cache on and one built with the cache off
    over the same rows give the same answer to [get_institution] and to
    [get_department], for every identifier. *)
Theorem getters_agree d identifier :
  result (database.get_institution identifier (cached d))
  = result (database.get_institution identifier (uncached d))
  /\ result (database.get_department identifier (cached d))
     = result (database.get_department identifier (uncached d)).
Proof.
  destruct (cached_fields d) as (Hc & Hdb & Hi & Hd & _).
  unfold database.get_institution, database.get_department. mred.
  rewrite Hc, Hdb, Hi, Hd, !loaded_lookup, !lookup_empty.
  unfold database.cached_object, database.first. cbn -[cached].
  split.
  - destruct (last _) as [x|] eqn:Hlast.
    + apply last_filter_holds in Hlast as [-> _]. reflexivity.
    + by rewrite (last_filter_None _ _ Hlast).
  - destruct (last _) as [x|] eqn:Hlast.
    + apply last_filter_holds in Hlast as [-> _]. reflexivity.
    + by rewrite (last_filter_None _ _ Hlast).
Qed.

(** A row is found again through its primary key. *)
Lemma find_by_key {A K} `{EqDecision K} (key : A -> K) (rows : list A) x :
  NoDup (key <$> rows) -> x ∈ rows ->
  snd <$> list_find (fun r => key r = key x) rows = Some x.
Proof.
  intros Hnd Hx. rewrite first_head.
  destruct (filter _ rows) as [|y l] eqn:Hf.
  - assert (x ∈ filter (fun r => key r = key x) rows) as Hin
        by (by apply list_elem_of_filter).
    rewrite Hf in Hin. by apply elem_of_nil in Hin.
  - assert (y ∈ filter (fun r => key r = key x) rows) as Hin
        by (rewrite Hf; apply list_elem_of_here).
    apply list_elem_of_filter in Hin as [Hk Hy]. cbn. f_equal.
    by eapply same_key_same_row.
Qed.

(** [get_course] by identifier: when the stored courses have distinct
    primary keys and at most one of them has the internal identifier asked
    for, the cache and the query give the same answer. *)
Theorem get_course_by_identifier_agrees d identifier abbreviation year :
  NoDup (models.Course.id <$> database.courses d) ->
  (length (filter (fun c => models.Course.internal_id c = Some identifier)
                  (database.courses d)) <= 1)%nat ->
  result (database.get_course (Some identifier) abbreviation year (cached d))
  = result (database.get_course (Some identifier) abbreviation year (uncached d)).
Proof.
  intros Hids Hone.
  destruct (cached_fields d) as (Hc & Hdb & _ & _ & Hcourses).
  unfold database.get_course. mred. cbn [is_not_None].
  rewrite Hc, Hdb, Hcourses, loaded_lookup, lookup_empty.
  unfold database.cached_object, database.first. cbn -[cached].
  rewrite (first_head (fun c => models.Course.internal_id c = Some identifier)).
  destruct (filter _ (database.courses d)) as [|c [|c' l]] eqn:Hf; cbn in Hone; [| |lia].
  - reflexivity.
  - cbn. f_equal. apply find_by_key; [exact Hids|].
    assert (c ∈ filter (fun c => models.Course.internal_id c = Some identifier)
                       (database.courses d)) as Hin by (rewrite Hf; apply list_elem_of_here).
    by apply list_elem_of_filter in Hin as [_ Hin].
Qed.

Lemma get_course_by_identifier_agrees_witness :
  result (database.get_course (Some 200) None None (cached (course_db [lei_old; lei_new])))
  = Return (Some lei_new)
  /\ result (database.get_course (Some 200) None None
               (uncached (course_db [lei_old; lei_new])))
     = Return (Some lei_new).
Proof.
  split; [|reflexivity].
  rewrite (get_course_by_identifier_agrees (course_db [lei_old; lei_new]) 200 None None).
  - reflexivity.
  - apply (bool_decide_unpack _). vm_compute. exact I.
  - vm_compute. lia.
Defined.

(** ** File types *)

(** [FileType.from_id] and [FileType.from_url_argument] undo the value of
    a member: each member is found again from its number and from its URL
    argument, the member without an argument from [None]; a number or an
    argument that is found belongs to the member returned, and the numbers
    found are 1 to 9. *)
Theorem file_type_round_trip :
  (forall type, models.FileType.from_id (fst (models.FileType.value type)) = Some type)
  /\ (forall type,
        models.FileType.from_url_argument (models.FileType.to_url_argument type) = Some type)
  /\ (forall identifier type,
        models.FileType.from_id identifier = Some type ->
        fst (models.FileType.value type) = identifier)
  /\ (forall arg type,
        models.FileType.from_url_argument arg = Some type ->
        models.FileType.to_url_argument type = arg)
  /\ (forall identifier,
        models.FileType.from_id identifier = None <-> identifier < 1 \/ 9 < identifier).
Proof.
  split; [|split; [|split; [|split]]].
  - intros []; reflexivity.
  - intros []; reflexivity.
  - intros identifier type Hfound. apply find_some in Hfound as [_ Heq].
    unfold py_eq in Heq. by apply bool_decide_eq_true in Heq.
  - intros arg type Hfound. apply find_some in Hfound as [_ Heq].
    unfold py_eq in Heq. by apply bool_decide_eq_true in Heq.
  - intros identifier. split.
    + intros Hnone.
      pose proof (find_none _ _ Hnone) as Hall.
      destruct (decide (identifier < 1 \/ 9 < identifier)) as [Hout|Hin]; [exact Hout|].
      exfalso.
      assert (identifier = 1 \/ identifier = 2 \/ identifier = 3 \/ identifier = 4
              \/ identifier = 5 \/ identifier = 6 \/ identifier = 7 \/ identifier = 8
              \/ identifier = 9) as Hcases by lia.
      destruct Hcases as [->|[->|[->|[->|[->|[->|[->|[->| ->]]]]]]]];
        [specialize (Hall models.FileType.image)
        |specialize (Hall models.FileType.slides)
        |specialize (Hall models.FileType.problems)
        |specialize (Hall models.FileType.protocols)
        |specialize (Hall models.FileType.seminar)
        |specialize (Hall models.FileType.exams)
        |specialize (Hall models.FileType.tests)
        |specialize (Hall models.FileType.support)
        |specialize (Hall models.FileType.others)];
        (assert (true = false) as Habs; [apply Hall; cbn; tauto | discriminate Habs]).
    + intros Hout. destruct (models.FileType.from_id identifier) as [type|] eqn:Hfound;
        [|reflexivity].
      apply find_some in Hfound as [_ Heq].
      unfold py_eq in Heq. apply bool_decide_eq_true in Heq.
      destruct type; cbn in Heq; lia.
Qed.

Lemma file_type_round_trip_witness :
  models.FileType.from_id 6 = Some models.FileType.exams
  /\ models.FileType.to_url_argument models.FileType.exams = Some "ex".
Proof.
  split; [reflexivity|].
  exact (proj1 (proj2 (proj2 (proj2 file_type_round_trip)))
           (Some "ex") models.FileType.exams eq_refl).
Defined.

(** ** Reconciling twice, kind by kind *)

Lemma add_class_stored self candidate db_class self1 :
  database.add_class candidate self = (Return db_class, self1) ->
  stored_class candidate db_class self1.
Proof.
  unfold database.add_class, stored_class. mred.
  destruct (database.first _ (database.classes (database.db self)))
    as [[pos stored]|] eqn:Hfind.
  - apply list_find_Some in Hfind as (Hpos & [Hid Hdep] & _).
    destruct (py_ne _ _) eqn:Hname; [discriminate|].
    destruct (is_not_None _) eqn:Hca.
    + destruct (is_None _) eqn:Hsa.
      * unfold database.commit. mred.
        destruct (database.integrity _); [|discriminate].
        intros [= <- <-]. db_red. split; [|by split].
        eapply list_elem_of_lookup_2. apply list_lookup_insert_eq.
        by eapply lookup_lt_Some.
      * destruct (_ && _); [discriminate|]. intros [= <- <-].
        split; [|by split]. by eapply list_elem_of_lookup_2.
    + intros [= <- <-]. split; [|by split]. by eapply list_elem_of_lookup_2.
  - unfold database.commit. mred.
    destruct (database.integrity _); [|discriminate].
    intros [= <- <-]. db_red. split; [|by split].
    apply elem_of_app. right. apply list_elem_of_here.
Qed.

Lemma add_teacher_resolves candidate self :
  resolves_in id (database.add_teacher candidate) id (stored_teacher candidate) self.
Proof.
  intros teacher self1. unfold id. unfold database.add_teacher at 1. mred.
  destruct (database.first _ _) as [[pos found]|] eqn:Hfind.
  - intros [= <- <-]. split.
    + apply list_find_Some in Hfind as (Hpos & HP & _).
      split; [by eapply list_elem_of_lookup_2 | exact HP].
    + exists self. split; [|reflexivity].
      unfold database.add_teacher. mred. by rewrite Hfind.
  - unfold database.commit. mred.
    destruct (database.integrity _); [|discriminate].
    intros [= <- <-]. db_red. split.
    + split; [apply elem_of_app; right; apply list_elem_of_here | done].
    + eexists. split.
      * unfold database.add_teacher. mred. db_red.
        erewrite first_app_new; [|exact Hfind|done]. reflexivity.
      * reflexivity.
Qed.

Lemma add_room_stored self candidate room self1 :
  database.__caching__ self = false ->
  database.add_room candidate self = (Return (Some room), self1) ->
  stored_room candidate room self1.
Proof.
  intros Hoff. unfold database.add_room. mred. rewrite Hoff.
  destruct (database.first _ _) as [[pos found]|] eqn:Hfind.
  - cbn. rewrite Hoff. cbn. intros [= <- <-].
    apply list_find_Some in Hfind as (Hpos & HP & _).
    split; [by eapply list_elem_of_lookup_2|exact HP].
  - unfold database.commit, database.rollback. mred.
    destruct (database.integrity _) eqn:Hok; cbn; rewrite Hoff; cbn; [|discriminate].
    intros [= <- <-]. split; [|done].
    apply elem_of_app. right. apply list_elem_of_here.
Qed.

Lemma update_enrollment_key enrollment db_enrollment :
  let merged := fst (database.update_enrollment enrollment db_enrollment) in
  models.Enrollment.student merged = models.Enrollment.student db_enrollment
  /\ models.Enrollment.class_instance merged = models.Enrollment.class_instance db_enrollment.
Proof.
  unfold database.update_enrollment.
  repeat match goal with
         | |- context [if ?b then _ else _] => destruct b
         end; cbn; split; reflexivity.
Qed.

Lemma update_enrollment_twice enrollment db_enrollment :
  database.update_enrollment enrollment
    (fst (database.update_enrollment enrollment db_enrollment))
  = (fst (database.update_enrollment enrollment db_enrollment), false).
Proof.
  destruct enrollment as [s ci [a|] [y|] [st|] [o|]],
    db_enrollment as [i s' ci' [a'|] [y'|] [st'|] [o'|]]; reflexivity.
Qed.

Lemma update_enrollment_new pk enrollment :
  let row := models.Enrollment.mk pk (candidates.Enrollment.student enrollment)
               (candidates.Enrollment.class_instance enrollment)
               (candidates.Enrollment.attempt enrollment)
               (candidates.Enrollment.student_year enrollment)
               (candidates.Enrollment.statutes enrollment)
               (candidates.Enrollment.observation enrollment) in
  database.update_enrollment enrollment row = (row, false).
Proof.
  destruct enrollment as [s ci [a|] [y|] [st|] [o|]]; reflexivity.
Qed.

Lemma set_enrollments_same rows d :
  database.enrollments d = rows -> database.set_enrollments rows d = d.
Proof. intros <-. by destruct d. Qed.

Lemma add_enrollments_resolves enrollment self :
  resolves_in database.db (database.add_enrollments [enrollment]) id
    (stored_enrollment enrollment) self.
Proof.
  intros [] self1. unfold id. unfold database.add_enrollments at 1. cbn [for_fold]. mred.
  unfold database.add_enrollments_step at 1. mred.
  destruct (database.first _ _) as [[pos found]|] eqn:Hfind.
  - pose proof (update_enrollment_key enrollment found) as Hkey.
    pose proof (update_enrollment_twice enrollment found) as Htwice.
    destruct (database.update_enrollment enrollment found) as [merged changed].
    cbn [fst] in Hkey, Htwice. mred.
    pose proof Hfind as Hfound. apply list_find_Some in Hfound as (Hpos & [Hs Hc] & _).
    assert (Hagain : database.first
              (fun e => models.Enrollment.student e = candidates.Enrollment.student enrollment
                        /\ models.Enrollment.class_instance e
                           = candidates.Enrollment.class_instance enrollment)
              (<[pos := merged]> (database.enrollments (database.db self)))
            = Some (pos, merged)).
    { apply first_insert with (x := found); [exact Hfind|].
      destruct Hkey as [-> ->]. by split. }
    assert (Hstored : merged ∈ <[pos := merged]> (database.enrollments (database.db self))).
    { eapply list_elem_of_lookup_2. apply list_lookup_insert_eq. by eapply lookup_lt_Some. }
    assert (Hsecond : forall s,
              database.enrollments (database.db s)
              = <[pos := merged]> (database.enrollments (database.db self)) ->
              exists self2,
                database.add_enrollments [enrollment] s = (Return tt, self2)
                /\ database.db self2 = database.db s).
    { intros s Hrows. unfold database.add_enrollments. cbn [for_fold]. mred.
      unfold database.add_enrollments_step. mred. rewrite Hrows, Hagain, Htwice. mred.
      eexists. split; [reflexivity|]. db_red.
      apply set_enrollments_same. rewrite Hrows.
      symmetry. apply list_insert_id. apply list_lookup_insert_eq. by eapply lookup_lt_Some. }
    destruct changed.
    + unfold database.commit. mred. destruct (database.integrity _); [|discriminate].
      intros [= <-]. db_red. split.
      * exists merged. split; [exact Hstored|]. destruct Hkey as [-> ->]. by split.
      * apply Hsecond. reflexivity.
    + intros [= <-]. db_red. split.
      * exists merged. split; [exact Hstored|]. destruct Hkey as [-> ->]. by split.
      * apply Hsecond. reflexivity.
  - unfold database.commit. mred. destruct (database.integrity _); [|discriminate].
    intros [= <-]. db_red. split.
    + eexists. split; [apply elem_of_app; right; apply list_elem_of_here|]. by split.
    + unfold database.add_enrollments. cbn [for_fold]. mred.
      unfold database.add_enrollments_step. mred. db_red.
      erewrite first_app_new; [|exact Hfind|done].
      rewrite update_enrollment_new. mred.
      eexists. split; [reflexivity|]. db_red.
      apply set_enrollments_same. db_red.
      symmetry. apply list_insert_id. rewrite lookup_app_r by lia.
      by rewrite Nat.sub_diag.
Qed.

Lemma current_institutions self :
  institutions_current self -> database.__caching__ self = true ->
  database.__institutions__ self
  = foldl (fun m i => <[models.Institution.id i := models.Institution.id i]> m) ∅
          (database.institutions (database.db self)).
Proof.
  intros Hcur Hon. specialize (Hcur Hon).
  apply (f_equal database.__institutions__) in Hcur. rewrite <- Hcur. reflexivity.
Qed.

Lemma current_departments self :
  departments_current self -> database.__caching__ self = true ->
  database.__departments__ self
  = foldl (fun m x => <[models.Department.id x := models.Department.id x]> m) ∅
          (database.departments (database.db self)).
Proof.
  intros Hcur Hon. specialize (Hcur Hon).
  apply (f_equal database.__departments__) in Hcur. rewrite <- Hcur. reflexivity.
Qed.

(** A dictionary loaded from the rows answers as the query does. *)
Lemma loaded_find {A} (key : A -> Z) (rows : list A) (k : Z) :
  match foldl (fun (m : gmap Z Z) x => <[key x := key x]> m) ∅ rows !! k with
  | Some pk => database.cached_object key rows pk
  | None => None
  end = database.first (fun x => key x = k) rows.
Proof.
  rewrite loaded_lookup, lookup_empty.
  unfold database.cached_object, database.first.
  destruct (last _) as [x|] eqn:Hlast.
  - apply last_filter_holds in Hlast as [-> _]. reflexivity.
  - symmetry. by apply last_filter_None.
Qed.

Lemma update_institution_twice candidate institution :
  fst (database.update_institution candidate
         (fst (database.update_institution candidate institution)))
  = fst (database.update_institution candidate institution).
Proof.
  destruct candidate as [ci cn ca [cf cl]], institution as [i n a [fy ly]].
  unfold database.update_institution, py_ne, py_eq.
  destruct cn as [cn|], ca as [ca|], cf as [cf|], cl as [cl|], fy as [fy|], ly as [ly|];
    merge_cases.
Qed.

Lemma update_institution_new candidate :
  let row := models.Institution.mk (candidates.Institution.id candidate)
               (candidates.Institution.name candidate)
               (candidates.Institution.abbreviation candidate)
               {| models.first_year := candidates.Institution.first_year candidate;
                  models.last_year := candidates.Institution.last_year candidate |} in
  fst (database.update_institution candidate row) = row.
Proof.
  destruct candidate as [ci cn ca [cf cl]].
  unfold database.update_institution, py_ne, py_eq.
  destruct cn as [cn|], ca as [ca|], cf as [cf|], cl as [cl|]; merge_cases.
Qed.

Lemma set_institutions_same rows d :
  database.institutions d = rows -> database.set_institutions rows d = d.
Proof. intros <-. by destruct d. Qed.

Lemma step_lookup_institution self candidate :
  institutions_current self ->
  (if database.__caching__ self then
     match database.__institutions__ self !! candidates.Institution.id candidate with
     | Some pk => database.cached_object models.Institution.id
                    (database.institutions (database.db self)) pk
     | None => None
     end
   else database.first (fun i => models.Institution.id i = candidates.Institution.id candidate)
          (database.institutions (database.db self)))
  = database.first (fun i => models.Institution.id i = candidates.Institution.id candidate)
      (database.institutions (database.db self)).
Proof.
  intros Hcur. destruct (database.__caching__ self) eqn:Hon; [|reflexivity].
  rewrite (current_institutions self Hcur Hon). apply loaded_find.
Qed.

Lemma add_institutions_commits self rows :
  NoDup (models.Institution.id <$> rows) ->
  database.integrity (database.db self) = true ->
  exists s,
    (let (o, s') := database.commit
                      (database.set_session
                         (database.mkSession (database.committed (database.session self))
                            (database.set_institutions rows (database.db self))) self) in
     match o with
     | Return _ =>
         (if database.__caching__ s' then database.__load_institutions__
          else fun s : database.Controller => (Return (), s)) s'
     | Raise e => (Raise e, s')
     end) = (Return tt, s)
    /\ committed_institutions rows self s.
Proof.
  intros Hkeys Hok. unfold database.commit. mred. db_red.
  rewrite (integrity_set_institutions _ _ Hkeys Hok). db_red.
  destruct (database.__caching__ self) eqn:Hon.
  - unfold database.__load_institutions__. mred. db_red.
    eexists. split; [reflexivity|].
    unfold committed_institutions, institutions_current.
    cbn [database.set___institutions__ database.db database.session database.pending
         database.set_session database.__caching__].
    split; [reflexivity|]. split; [reflexivity|]. split.
    + intros _. reflexivity.
    + by apply integrity_set_institutions.
  - eexists. split; [reflexivity|].
    unfold committed_institutions, institutions_current. db_red.
    split; [reflexivity|]. split; [reflexivity|]. split.
    + intros Hcon. congruence.
    + by apply integrity_set_institutions.
Qed.

Lemma add_institutions_found candidate s pos found :
  institutions_current s ->
  database.integrity (database.db s) = true ->
  database.first (fun i => models.Institution.id i = candidates.Institution.id candidate)
    (database.institutions (database.db s)) = Some (pos, found) ->
  exists s',
    database.add_institutions [candidate] s = (Return tt, s')
    /\ committed_institutions
         (<[pos := fst (database.update_institution candidate found)]>
            (database.institutions (database.db s))) s s'.
Proof.
  intros Hcur Hok Hfind.
  unfold database.add_institutions, database.add_institutions_try. cbn [for_fold]. mred.
  unfold database.add_institutions_step. mred.
  rewrite (step_lookup_institution s candidate Hcur), Hfind.
  pose proof (proj1 update_keeps_id candidate found) as Hid.
  destruct (database.update_institution candidate found) as [merged updated].
  cbn [fst] in *. mred.
  apply list_find_Some in Hfind as (Hpos & _).
  assert (Hkeys : NoDup (models.Institution.id
                           <$> <[pos := merged]> (database.institutions (database.db s)))).
  { rewrite list_fmap_insert, list_insert_id.
    - by apply integrity_institutions.
    - by rewrite list_lookup_fmap, Hpos, Hid. }
  destruct (add_institutions_commits s _ Hkeys Hok) as (s' & -> & Hcommitted).
  exists s'. split; [reflexivity|exact Hcommitted].
Qed.

Lemma add_institutions_new candidate s :
  institutions_current s ->
  database.integrity (database.db s) = true ->
  database.first (fun i => models.Institution.id i = candidates.Institution.id candidate)
    (database.institutions (database.db s)) = None ->
  exists s',
    database.add_institutions [candidate] s = (Return tt, s')
    /\ committed_institutions
         (database.institutions (database.db s) ++ [new_institution candidate])%list s s'.
Proof.
  intros Hcur Hok Hfind.
  unfold database.add_institutions, database.add_institutions_try. cbn [for_fold]. mred.
  unfold database.add_institutions_step. mred.
  rewrite (step_lookup_institution s candidate Hcur), Hfind. mred.
  apply list_find_None in Hfind.
  assert (Hkeys : NoDup (models.Institution.id
                           <$> (database.institutions (database.db s)
                                ++ [new_institution candidate])%list)).
  { rewrite fmap_app. apply NoDup_app. split; [by apply integrity_institutions|]. split.
    - intros i Hi Hnew. apply list_elem_of_singleton in Hnew. cbn in Hnew. subst i.
      apply list_elem_of_fmap in Hi as (row & Hrow & Hin).
      exact (proj1 (Forall_forall _ _) Hfind row Hin (eq_sym Hrow)).
    - apply NoDup_singleton. }
  destruct (add_institutions_commits s _ Hkeys Hok) as (s' & Hrun & Hcommitted).
  unfold new_institution in Hrun. rewrite Hrun.
  exists s'. split; [reflexivity|exact Hcommitted].
Qed.

Lemma add_institutions_resolves candidate self :
  institutions_current self ->
  database.integrity (database.db self) = true ->
  resolves_in database.db (database.add_institutions [candidate]) id
    (stored_institution candidate) self.
Proof.
  intros Hcur Hok [] self1 Hfirst. unfold id in *.
  assert (Hsettled : forall s pos row,
            institutions_current s ->
            database.integrity (database.db s) = true ->
            database.first
              (fun i => models.Institution.id i = candidates.Institution.id candidate)
              (database.institutions (database.db s)) = Some (pos, row) ->
            fst (database.update_institution candidate row) = row ->
            stored_institution candidate tt s
            /\ exists self2,
                 database.add_institutions [candidate] s = (Return tt, self2)
                 /\ database.db self2 = database.db s).
  { intros s pos row Hcs Hoks Hfind Hfixed. split.
    - apply list_find_Some in Hfind as (Hpos & Hid & _).
      exists row. split; [by eapply list_elem_of_lookup_2|exact Hid].
    - destruct (add_institutions_found candidate s pos row Hcs Hoks Hfind)
        as (self2 & Hcall & Hdb & _).
      exists self2. split; [exact Hcall|]. rewrite Hdb, Hfixed.
      apply set_institutions_same. symmetry. apply list_insert_id.
      by apply list_find_Some in Hfind as (Hpos & _). }
  destruct (database.first
              (fun i => models.Institution.id i = candidates.Institution.id candidate)
              (database.institutions (database.db self))) as [[pos found]|] eqn:Hfind.
  - destruct (add_institutions_found candidate self pos found Hcur Hok Hfind)
      as (s' & Hcall & Hdb & Hcaching & Hcur' & Hok').
    rewrite Hcall in Hfirst. injection Hfirst as <-.
    apply (Hsettled s' pos (fst (database.update_institution candidate found)) Hcur' Hok').
    + rewrite Hdb. db_red. apply first_insert with (x := found); [exact Hfind|].
      rewrite (proj1 update_keeps_id). by apply list_find_Some in Hfind as (_ & Hid & _).
    + apply update_institution_twice.
  - destruct (add_institutions_new candidate self Hcur Hok Hfind)
      as (s' & Hcall & Hdb & Hcaching & Hcur' & Hok').
    rewrite Hcall in Hfirst. injection Hfirst as <-.
    apply (Hsettled s' (length (database.institutions (database.db self)))
             (new_institution candidate) Hcur' Hok').
    + rewrite Hdb. db_red. by apply first_app_new.
    + apply update_institution_new.
Qed.

Lemma update_department_twice candidate department :
  fst (database.update_department candidate
         (fst (database.update_department candidate department)))
  = fst (database.update_department candidate department).
Proof.
  destruct candidate as [ci cn cinst [cf cl]], department as [i n inst [fy ly]].
  unfold database.update_department, py_ne, py_eq.
  destruct cn as [cn|], cf as [cf|], cl as [cl|], fy as [fy|], ly as [ly|];
    merge_cases.
Qed.

Lemma update_department_new candidate :
  let row := models.Department.mk (candidates.Department.id candidate)
               (candidates.Department.name candidate)
               (candidates.Department.institution candidate)
               {| models.first_year := candidates.Department.first_year candidate;
                  models.last_year := candidates.Department.last_year candidate |} in
  fst (database.update_department candidate row) = row.
Proof.
  destruct candidate as [ci cn cinst [cf cl]].
  unfold database.update_department, py_ne, py_eq.
  destruct cn as [cn|], cf as [cf|], cl as [cl|]; merge_cases.
Qed.

Lemma set_departments_same rows d :
  database.departments d = rows -> database.set_departments rows d = d.
Proof. intros <-. by destruct d. Qed.

Lemma step_lookup_department self candidate :
  departments_current self ->
  (if database.__caching__ self then
     match database.__departments__ self !! candidates.Department.id candidate with
     | Some pk => database.cached_object models.Department.id
                    (database.departments (database.db self)) pk
     | None => None
     end
   else database.first (fun i => models.Department.id i = candidates.Department.id candidate)
          (database.departments (database.db self)))
  = database.first (fun i => models.Department.id i = candidates.Department.id candidate)
      (database.departments (database.db self)).
Proof.
  intros Hcur. destruct (database.__caching__ self) eqn:Hon; [|reflexivity].
  rewrite (current_departments self Hcur Hon). apply loaded_find.
Qed.

Lemma add_departments_commits self rows :
  NoDup (models.Department.id <$> rows) ->
  database.integrity (database.db self) = true ->
  exists s,
    (let (o, s') := database.commit
                      (database.set_session
                         (database.mkSession (database.committed (database.session self))
                            (database.set_departments rows (database.db self))) self) in
     match o with
     | Return _ =>
         (if database.__caching__ s' then database.__load_departments__
          else fun s : database.Controller => (Return (), s)) s'
     | Raise e => (Raise e, s')
     end) = (Return tt, s)
    /\ committed_departments rows self s.
Proof.
  intros Hkeys Hok. unfold database.commit. mred. db_red.
  rewrite (integrity_set_departments _ _ Hkeys Hok). db_red.
  destruct (database.__caching__ self) eqn:Hon.
  - unfold database.__load_departments__. mred. db_red.
    eexists. split; [reflexivity|].
    unfold committed_departments, departments_current.
    cbn [database.set___departments__ database.db database.session database.pending
         database.set_session database.__caching__].
    split; [reflexivity|]. split; [reflexivity|]. split.
    + intros _. reflexivity.
    + by apply integrity_set_departments.
  - eexists. split; [reflexivity|].
    unfold committed_departments, departments_current. db_red.
    split; [reflexivity|]. split; [reflexivity|]. split.
    + intros Hcon. congruence.
    + by apply integrity_set_departments.
Qed.

Lemma add_departments_found candidate s pos found :
  departments_current s ->
  database.integrity (database.db s) = true ->
  database.first (fun i => models.Department.id i = candidates.Department.id candidate)
    (database.departments (database.db s)) = Some (pos, found) ->
  exists s',
    database.add_departments [candidate] s = (Return tt, s')
    /\ committed_departments
         (<[pos := fst (database.update_department candidate found)]>
            (database.departments (database.db s))) s s'.
Proof.
  intros Hcur Hok Hfind.
  unfold database.add_departments, database.add_departments_try. cbn [for_fold]. mred.
  unfold database.add_departments_step. mred.
  rewrite (step_lookup_department s candidate Hcur), Hfind.
  pose proof (proj2 update_keeps_id candidate found) as Hid.
  destruct (database.update_department candidate found) as [merged updated].
  cbn [fst] in *. mred.
  apply list_find_Some in Hfind as (Hpos & _).
  assert (Hkeys : NoDup (models.Department.id
                           <$> <[pos := merged]> (database.departments (database.db s)))).
  { rewrite list_fmap_insert, list_insert_id.
    - by apply integrity_departments.
    - by rewrite list_lookup_fmap, Hpos, Hid. }
  destruct (add_departments_commits s _ Hkeys Hok) as (s' & -> & Hcommitted).
  exists s'. split; [reflexivity|exact Hcommitted].
Qed.

Lemma add_departments_new candidate s :
  departments_current s ->
  database.integrity (database.db s) = true ->
  database.first (fun i => models.Department.id i = candidates.Department.id candidate)
    (database.departments (database.db s)) = None ->
  exists s',
    database.add_departments [candidate] s = (Return tt, s')
    /\ committed_departments
         (database.departments (database.db s) ++ [new_department candidate])%list s s'.
Proof.
  intros Hcur Hok Hfind.
  unfold database.add_departments, database.add_departments_try. cbn [for_fold]. mred.
  unfold database.add_departments_step. mred.
  rewrite (step_lookup_department s candidate Hcur), Hfind. mred.
  apply list_find_None in Hfind.
  assert (Hkeys : NoDup (models.Department.id
                           <$> (database.departments (database.db s)
                                ++ [new_department candidate])%list)).
  { rewrite fmap_app. apply NoDup_app. split; [by apply integrity_departments|]. split.
    - intros i Hi Hnew. apply list_elem_of_singleton in Hnew. cbn in Hnew. subst i.
      apply list_elem_of_fmap in Hi as (row & Hrow & Hin).
      exact (proj1 (Forall_forall _ _) Hfind row Hin (eq_sym Hrow)).
    - apply NoDup_singleton. }
  destruct (add_departments_commits s _ Hkeys Hok) as (s' & Hrun & Hcommitted).
  unfold new_department in Hrun. rewrite Hrun.
  exists s'. split; [reflexivity|exact Hcommitted].
Qed.

Lemma add_departments_resolves candidate self :
  departments_current self ->
  database.integrity (database.db self) = true ->
  resolves_in database.db (database.add_departments [candidate]) id
    (stored_department candidate) self.
Proof.
  intros Hcur Hok [] self1 Hfirst. unfold id in *.
  assert (Hsettled : forall s pos row,
            departments_current s ->
            database.integrity (database.db s) = true ->
            database.first
              (fun i => models.Department.id i = candidates.Department.id candidate)
              (database.departments (database.db s)) = Some (pos, row) ->
            fst (database.update_department candidate row) = row ->
            stored_department candidate tt s
            /\ exists self2,
                 database.add_departments [candidate] s = (Return tt, self2)
                 /\ database.db self2 = database.db s).
  { intros s pos row Hcs Hoks Hfind Hfixed. split.
    - apply list_find_Some in Hfind as (Hpos & Hid & _).
      exists row. split; [by eapply list_elem_of_lookup_2|exact Hid].
    - destruct (add_departments_found candidate s pos row Hcs Hoks Hfind)
        as (self2 & Hcall & Hdb & _).
      exists self2. split; [exact Hcall|]. rewrite Hdb, Hfixed.
      apply set_departments_same. symmetry. apply list_insert_id.
      by apply list_find_Some in Hfind as (Hpos & _). }
  destruct (database.first
              (fun i => models.Department.id i = candidates.Department.id candidate)
              (database.departments (database.db self))) as [[pos found]|] eqn:Hfind.
  - destruct (add_departments_found candidate self pos found Hcur Hok Hfind)
      as (s' & Hcall & Hdb & Hcaching & Hcur' & Hok').
    rewrite Hcall in Hfirst. injection Hfirst as <-.
    apply (Hsettled s' pos (fst (database.update_department candidate found)) Hcur' Hok').
    + rewrite Hdb. db_red. apply first_insert with (x := found); [exact Hfind|].
      rewrite (proj2 update_keeps_id). by apply list_find_Some in Hfind as (_ & Hid & _).
    + apply update_department_twice.
  - destruct (add_departments_new candidate self Hcur Hok Hfind)
      as (s' & Hcall & Hdb & Hcaching & Hcur' & Hok').
    rewrite Hcall in Hfirst. injection Hfirst as <-.
    apply (Hsettled s' (length (database.departments (database.db self)))
             (new_department candidate) Hcur' Hok').
    + rewrite Hdb. db_red. by apply first_app_new.
    + apply update_department_new.
Qed.

Lemma update_course_twice course db_course :
  fst (database.update_course course (fst (database.update_course course db_course)))
  = fst (database.update_course course db_course).
Proof.
  destruct course as [ci cn cinst cd ca [cf cl]], db_course as [i ii n a dg inst [fy ly]].
  unfold database.update_course.
  destruct ca as [ca|], cd as [cd|], cf as [cf|], cl as [cl|], fy as [fy|], ly as [ly|];
    merge_cases.
Qed.

Lemma update_course_new pk course :
  fst (database.update_course course (new_course pk course)) = new_course pk course.
Proof.
  destruct course as [ci cn cinst cd ca [cf cl]].
  unfold database.update_course, new_course.
  destruct ca as [ca|], cd as [cd|], cf as [cf|], cl as [cl|]; merge_cases.
Qed.

Lemma update_course_identity course db_course :
  let merged := fst (database.update_course course db_course) in
  models.Course.internal_id merged = models.Course.internal_id db_course
  /\ models.Course.institution merged = models.Course.institution db_course
  /\ models.Course.name merged = models.Course.name db_course.
Proof.
  destruct course as [ci cn cinst cd ca [cf cl]], db_course as [i ii n a dg inst [fy ly]].
  unfold database.update_course.
  destruct ca as [ca|], cd as [cd|], cf as [cf|], cl as [cl|], fy as [fy|], ly as [ly|];
    merge_cases; repeat split.
Qed.

Lemma integrity_set_courses rows d :
  database.integrity (database.set_courses rows d) = database.integrity d.
Proof. reflexivity. Qed.

Lemma integrity_set_sequence pk d :
  database.integrity (database.set_sequence pk d) = database.integrity d.
Proof. reflexivity. Qed.

Lemma set_courses_same rows d :
  database.courses d = rows -> database.set_courses rows d = d.
Proof. intros <-. by destruct d. Qed.

Local Abbreviation course_key course :=
  (fun c => models.Course.internal_id c = Some (candidates.Course.id course)
            /\ models.Course.institution c = candidates.Course.institution course).

Lemma add_courses_found course s pos found :
  database.integrity (database.db s) = true ->
  database.first (course_key course) (database.courses (database.db s)) = Some (pos, found) ->
  is_not_None (candidates.Course.name course)
  && py_ne (candidates.Course.name course) (models.Course.name found) = false ->
  exists s',
    database.add_courses [course] s = (Return tt, s')
    /\ database.db s'
       = database.set_courses
           (<[pos := fst (database.update_course course found)]>
              (database.courses (database.db s))) (database.db s).
Proof.
  intros Hok Hfind Hname.
  unfold database.add_courses, database.add_courses_try. cbn [for_fold]. mred.
  unfold database.add_courses_step. mred. rewrite Hfind, Hname.
  destruct (database.update_course course found) as [merged changed]. cbn [fst]. mred.
  destruct changed.
  - unfold database.commit. mred. db_red. rewrite integrity_set_courses, Hok. db_red.
    destruct (database.__caching__ s); eexists; split; reflexivity.
  - db_red. destruct (database.__caching__ s); eexists; split; reflexivity.
Qed.

Lemma add_courses_new course s :
  database.integrity (database.db s) = true ->
  database.first (course_key course) (database.courses (database.db s)) = None ->
  exists s',
    database.add_courses [course] s = (Return tt, s')
    /\ database.db s'
       = database.set_courses
           (database.courses (database.db s)
            ++ [new_course (database.sequence (database.db s)) course])%list
           (database.set_sequence (database.sequence (database.db s) + 1) (database.db s)).
Proof.
  intros Hok Hfind.
  unfold database.add_courses, database.add_courses_try. cbn [for_fold]. mred.
  unfold database.add_courses_step. mred. rewrite Hfind. mred.
  unfold database.commit. mred. db_red.
  rewrite integrity_set_courses, integrity_set_sequence, Hok. db_red.
  destruct (database.__caching__ s); eexists; split; reflexivity.
Qed.

Lemma add_courses_conflict course s pos found r s' :
  database.first (course_key course) (database.courses (database.db s)) = Some (pos, found) ->
  is_not_None (candidates.Course.name course)
  && py_ne (candidates.Course.name course) (models.Course.name found) = true ->
  database.add_courses [course] s = (Return r, s') -> False.
Proof.
  intros Hfind Hname.
  unfold database.add_courses, database.add_courses_try. cbn [for_fold]. mred.
  unfold database.add_courses_step. mred. rewrite Hfind, Hname.
  unfold database.rollback. mred.
  destruct (database.__caching__ _); discriminate.
Qed.

Lemma add_courses_resolves course self :
  database.integrity (database.db self) = true ->
  resolves_in database.db (database.add_courses [course]) id (stored_course course) self.
Proof.
  intros Hok [] self1 Hfirst. unfold id in *.
  assert (Hsettled : forall s pos row,
            database.integrity (database.db s) = true ->
            database.first (course_key course) (database.courses (database.db s))
            = Some (pos, row) ->
            is_not_None (candidates.Course.name course)
            && py_ne (candidates.Course.name course) (models.Course.name row) = false ->
            fst (database.update_course course row) = row ->
            stored_course course tt s
            /\ exists self2,
                 database.add_courses [course] s = (Return tt, self2)
                 /\ database.db self2 = database.db s).
  { intros s pos row Hoks Hfind Hname Hfixed. split.
    - apply list_find_Some in Hfind as (Hpos & Hkey & _).
      exists row. split; [by eapply list_elem_of_lookup_2|exact Hkey].
    - destruct (add_courses_found course s pos row Hoks Hfind Hname) as (self2 & Hcall & Hdb).
      exists self2. split; [exact Hcall|]. rewrite Hdb, Hfixed.
      apply set_courses_same. symmetry. apply list_insert_id.
      by apply list_find_Some in Hfind as (Hpos & _). }
  destruct (database.first (course_key course) (database.courses (database.db self)))
    as [[pos found]|] eqn:Hfind.
  - destruct (is_not_None (candidates.Course.name course)
              && py_ne (candidates.Course.name course) (models.Course.name found)) eqn:Hname.
    { exfalso. eapply add_courses_conflict; eauto. }
    destruct (add_courses_found course self pos found Hok Hfind Hname) as (s' & Hcall & Hdb).
    rewrite Hcall in Hfirst. injection Hfirst as <-.
    destruct (update_course_identity course found) as (Hiid & Hinst & Hnm).
    apply (Hsettled s' pos (fst (database.update_course course found))).
    + rewrite Hdb. by rewrite integrity_set_courses.
    + rewrite Hdb. db_red. apply first_insert with (x := found); [exact Hfind|].
      rewrite Hiid, Hinst. by apply list_find_Some in Hfind as (_ & Hkey & _).
    + by rewrite Hnm.
    + apply update_course_twice.
  - destruct (add_courses_new course self Hok Hfind) as (s' & Hcall & Hdb).
    rewrite Hcall in Hfirst. injection Hfirst as <-.
    apply (Hsettled s' (length (database.courses (database.db self)))
             (new_course (database.sequence (database.db self)) course)).
    + rewrite Hdb. by rewrite integrity_set_courses, integrity_set_sequence.
    + rewrite Hdb. db_red. by apply first_app_new.
    + unfold new_course, py_ne, py_eq. cbn.
      rewrite bool_decide_eq_true_2 by reflexivity. apply andb_false_r.
    + apply update_course_new.
Qed.

Lemma integrity_buildings d :
  database.integrity d = true -> NoDup (models.Building.id <$> database.buildings d).
Proof.
  intros Hok. unfold database.integrity in Hok.
  repeat (apply andb_prop in Hok as [Hok ?]).
  match goal with
  | H : database.unique _ (database.buildings d) = true |- _ =>
      unfold database.unique in H; apply bool_decide_eq_true in H;
      exact (eq_ind_r NoDup H (fmap_as_omap models.Building.id _))
  end.
Qed.

Lemma current_buildings self :
  buildings_current self -> database.__caching__ (database.base self) = true ->
  database.__buildings__ self
  = foldl (fun m b => <[models.Building.name b := models.Building.id b]> m) ∅
          (database.buildings (database.db (database.base self))).
Proof.
  intros Hcur Hon. specialize (Hcur Hon).
  apply (f_equal database.__buildings__) in Hcur. rewrite <- Hcur. reflexivity.
Qed.

(** What the dictionary of buildings, loaded from [rows], holds under a
    name: the last row of that name, found again through its key. *)
Lemma loaded_building rows name :
  NoDup (models.Building.id <$> rows) ->
  match foldl (fun (m : gmap string Z) b => <[models.Building.name b := models.Building.id b]> m)
              ∅ rows !! name with
  | Some pk => Some (snd <$> database.cached_object models.Building.id rows pk)
  | None => None
  end
  = Some <$> last (filter (fun b => models.Building.name b = name) rows).
Proof.
  intros Hids. rewrite loaded_lookup, lookup_empty.
  destruct (last _) as [x|] eqn:Hlast; [|reflexivity].
  apply last_filter_holds in Hlast as [_ Hx]. cbn. f_equal.
  unfold database.cached_object. by apply find_by_key.
Qed.

Ltac fold_snd :=
  change (fun p : nat * models.Building.t => let (_, y) := p in y)
    with (@snd nat models.Building.t).

Lemma add_building_resolves building self :
  buildings_current self ->
  database.integrity (database.db (database.base self)) = true ->
  resolves_in (fun s => database.db (database.base s)) (database.add_building building) Some
    (stored_building building) self.
Proof.
  intros Hcur Hok db_building self1.
  unfold database.add_building at 1. mred. fold_snd.
  destruct (database.__caching__ (database.base self)) eqn:Hon.
  - rewrite (current_buildings self Hcur Hon).
    pose proof (loaded_building (database.buildings (database.db (database.base self)))
                  (candidates.Building.name building) (integrity_buildings _ Hok)) as Hload.
    destruct (foldl _ _ _ !! candidates.Building.name building) as [pk|] eqn:Hhit.
    + destruct (last _) as [x|] eqn:Hlast; [|discriminate]. cbn in Hload.
      injection Hload as Hload. rewrite Hload. intros [= <- <-].
      apply last_filter_holds in Hlast as [Hname Hin]. split; [by split|].
      exists self. split; [|reflexivity].
      unfold database.add_building. mred. fold_snd. rewrite Hon.
      rewrite (current_buildings self Hcur Hon), Hhit, Hload. reflexivity.
    + clear Hload. unfold database.on_base, database.commit, database.rollback. mred.
      cbn [database.base database.__buildings__]. db_red.
      destruct (database.integrity (database.set_buildings _ _)) eqn:Hok'.
      * cbn [database.base database.__buildings__]. db_red. rewrite Hon.
        unfold database.__load_buildings__. mred.
        cbn [database.base database.__buildings__]. db_red.
        intros [= <- <-]. cbn [database.base database.__buildings__]. db_red.
        split.
        { split; [apply elem_of_app; right; apply list_elem_of_here|reflexivity]. }
        eexists. split.
        { unfold database.add_building. mred. fold_snd.
          cbn [database.base database.__buildings__]. db_red. rewrite Hon.
          pose proof (loaded_building
                        (database.buildings (database.db (database.base self))
                         ++ [database.new_building building])%list
                        (candidates.Building.name building)
                        (integrity_buildings _ Hok')) as Hload'.
          rewrite filter_app, filter_cons_True, filter_nil, last_snoc in Hload' by reflexivity.
          cbn [fmap option_fmap option_map] in Hload'.
          destruct (foldl _ _ (_ ++ [_]) !! candidates.Building.name building) as [pk|];
            [|discriminate].
          injection Hload' as Hload'. rewrite Hload'. reflexivity. }
        reflexivity.
      * cbn [database.base database.__buildings__]. db_red. rewrite Hon.
        unfold database.__load_buildings__. mred. discriminate.
  - unfold database.first.
    destruct (list_find _ _) as [[pos found]|] eqn:Hfind.
    + intros [= <- <-]. split.
      * apply list_find_Some in Hfind as (Hpos & Hname & _).
        split; [by eapply list_elem_of_lookup_2|exact Hname].
      * exists self. split; [|reflexivity].
        unfold database.add_building. mred. rewrite Hon. unfold database.first.
        by rewrite Hfind.
    + unfold database.on_base, database.commit. mred.
      cbn [database.base database.__buildings__]. db_red.
      destruct (database.integrity (database.set_buildings _ _)) eqn:Hok'; [|discriminate].
      intros [= <- <-]. cbn [database.base database.__buildings__]. db_red.
      split.
      { split; [apply elem_of_app; right; apply list_elem_of_here|reflexivity]. }
      eexists. split.
      { unfold database.add_building. mred.
        cbn [database.base database.__buildings__]. db_red. rewrite Hon.
        erewrite first_app_new; [reflexivity|exact Hfind|reflexivity]. }
      reflexivity.
Qed.

Lemma all_single {A} (P : A -> Prop) `{forall x, Decision (P x)} rows s :
  database.all P rows = [s] ->
  exists pos, database.first P rows = Some (pos, s) /\ rows !! pos = Some s /\ P s.
Proof.
  intros Hall. pose proof (first_head P rows) as Hhead.
  unfold database.all in Hall. rewrite Hall in Hhead. cbn in Hhead.
  unfold database.first. destruct (list_find P rows) as [[pos x]|] eqn:Hfind; [|discriminate].
  cbn in Hhead. injection Hhead as ->. exists pos. split; [reflexivity|].
  by apply list_find_Some in Hfind as (Hpos & HP & _).
Qed.

Lemma all_insert_single {A} (P : A -> Prop) `{forall x, Decision (P x)} rows pos s r :
  database.all P rows = [s] -> database.first P rows = Some (pos, s) -> P r ->
  database.all P (<[pos := r]> rows) = [r]
  /\ database.first P (<[pos := r]> rows) = Some (pos, r).
Proof.
  intros Hall Hfind Hr. split; [|by eapply first_insert].
  unfold database.all in *. unfold database.first in Hfind.
  apply list_find_Some in Hfind as (Hpos & Hs & Hbefore).
  rewrite insert_take_drop by (by eapply lookup_lt_Some).
  rewrite <- (take_drop_middle rows pos s Hpos) in Hall.
  rewrite filter_app, filter_cons_True in Hall by exact Hs.
  rewrite filter_app, filter_cons_True by exact Hr.
  destruct (filter P (take pos rows)) as [|x l] eqn:Htake.
  - cbn in Hall. injection Hall as Hdrop. cbn. by rewrite Hdrop.
  - exfalso. assert (x ∈ filter P (take pos rows)) as Hx by (rewrite Htake; apply list_elem_of_here).
    apply list_elem_of_filter in Hx as [HPx Hx].
    apply list_elem_of_lookup in Hx as [j Hj].
    pose proof (lookup_lt_Some _ _ _ Hj) as Hlt. rewrite length_take in Hlt.
    rewrite lookup_take_lt in Hj by lia. eapply Hbefore; eauto. lia.
Qed.

Lemma all_app_new {A} (P : A -> Prop) `{forall x, Decision (P x)} rows n :
  database.all P rows = [] -> P n ->
  database.all P (rows ++ [n]) = [n]
  /\ database.first P (rows ++ [n]) = Some (length rows, n).
Proof.
  intros Hall Hn. unfold database.all in *. split.
  - by rewrite filter_app, Hall, filter_cons_True, filter_nil.
  - apply first_app_new; [|exact Hn].
    pose proof (first_head P rows) as Hhead. rewrite Hall in Hhead.
    unfold database.first. by destruct (list_find P rows).
Qed.

Lemma set_students_same rows d :
  database.students d = rows -> database.set_students rows d = d.
Proof. intros <-. by destruct d. Qed.

Local Abbreviation student_key student :=
  (fun s => models.Student.internal_id s = candidates.Student.id student).

(** A stored student whom the candidate has nothing to add to is given
    back as it is. *)
Lemma add_student_settled student institution s pos r :
  database.all (student_key student) (database.students (database.db s)) = [r] ->
  database.first (student_key student) (database.students (database.db s)) = Some (pos, r) ->
  (models.Student.abbreviation r = candidates.Student.abbreviation student
   \/ models.Student.name r = candidates.Student.name student) ->
  (candidates.Student.abbreviation student = None
   \/ candidates.Student.abbreviation student = models.Student.abbreviation r) ->
  (forall course, candidates.Student.course student = Some course ->
                  models.Student.course r = Some (models.Course.id course)
                  /\ database.integrity (database.db s) = true) ->
  exists s2, database.add_student_checked student institution s = (Return r, s2)
             /\ database.db s2 = database.db s.
Proof.
  intros Hall Hfind Hagree Habbr Hcourse.
  unfold database.add_student_checked. mred.
  assert (Hcond : py_eq (models.Student.abbreviation r)
                    (candidates.Student.abbreviation student)
                  || py_eq (models.Student.name r) (candidates.Student.name student) = true).
  { unfold py_eq. destruct Hagree as [->| ->].
    - by rewrite bool_decide_eq_true_2.
    - rewrite (bool_decide_eq_true_2 (candidates.Student.name student = _)) by reflexivity.
      apply orb_true_r. }
  assert (Hkeep : (if is_None (models.Student.abbreviation r)
                   then is_not_None (candidates.Student.abbreviation student)
                   else is_not_None (candidates.Student.abbreviation student)
                        && py_ne (candidates.Student.abbreviation student)
                                 (models.Student.abbreviation r)) = false).
  { unfold py_ne, py_eq. destruct Habbr as [->| ->].
    - by destruct (models.Student.abbreviation r).
    - rewrite bool_decide_eq_true_2 by reflexivity.
      destruct (models.Student.abbreviation r); reflexivity. }
  rewrite Hall, Hfind, Hcond.
  destruct (candidates.Student.course student) as [course|] eqn:Hc.
  - destruct (Hcourse course eq_refl) as [Hrc Hok].
    assert (Hsame : models.Student.set_course (Some (models.Course.id course)) r = r).
    { destruct r. cbn in *. by subst. }
    assert (Hrows : <[pos := r]> (database.students (database.db s))
                    = database.students (database.db s)).
    { apply list_insert_id. by apply list_find_Some in Hfind as (Hpos & _). }
    destruct (is_None (models.Student.abbreviation r)); rewrite Hkeep; mred;
      unfold database.commit; mred; db_red;
      rewrite Hsame, Hrows, (set_students_same _ _ eq_refl), Hok;
      (eexists; split; reflexivity).
  - destruct (is_None (models.Student.abbreviation r)); rewrite Hkeep; mred;
      eexists; split; reflexivity.
Qed.

Lemma student_kept student institution self self1 pos s r :
  database.all (student_key student) (database.students (database.db self)) = [s] ->
  database.first (student_key student) (database.students (database.db self)) = Some (pos, s) ->
  database.students (database.db self1) = <[pos := r]> (database.students (database.db self)) ->
  models.Student.internal_id r = candidates.Student.id student ->
  (models.Student.abbreviation r = candidates.Student.abbreviation student
   \/ models.Student.name r = candidates.Student.name student) ->
  (candidates.Student.abbreviation student = None
   \/ candidates.Student.abbreviation student = models.Student.abbreviation r) ->
  (forall course, candidates.Student.course student = Some course ->
                  models.Student.course r = Some (models.Course.id course)
                  /\ database.integrity (database.db self1) = true) ->
  stored_student student r self1
  /\ exists self2, database.add_student_checked student institution self1 = (Return r, self2)
                   /\ database.db self2 = database.db self1.
Proof.
  intros Hall Hfind Hrows Hkey Hagree Habbr Hcourse.
  destruct (all_insert_single (student_key student) _ pos s r Hall Hfind Hkey)
    as [Hall1 Hfind1].
  rewrite <- Hrows in Hall1, Hfind1. split.
  - split; [|exact Hkey]. rewrite Hrows.
    eapply list_elem_of_lookup_2, list_lookup_insert_eq.
    apply list_find_Some in Hfind as (Hpos & _). by eapply lookup_lt_Some.
  - by eapply add_student_settled.
Qed.

Lemma add_student_checked_resolves student institution self :
  student_agrees student self ->
  resolves_in database.db (database.add_student_checked student institution) id
    (stored_student student) self.
Proof.
  intros Hagrees r self1. unfold database.add_student_checked at 1, id. mred.
  destruct (database.all _ _) as [|s [|s' l]] eqn:Hall.
  - (* a new student *)
    unfold database.commit. mred. db_red.
    destruct (database.integrity _) eqn:Hok; [|discriminate].
    intros [= <- <-]. db_red.
    destruct (all_app_new (student_key student) (database.students (database.db self))
                (database.new_student (database.sequence (database.db self)) student
                   institution) Hall eq_refl) as [Hall1 Hfind1].
    split.
    { split; [apply elem_of_app; right; apply list_elem_of_here|reflexivity]. }
    eapply add_student_settled.
    + db_red. exact Hall1.
    + db_red. exact Hfind1.
    + right. reflexivity.
    + right. reflexivity.
    + intros course Hc. db_red. split; [cbn; by rewrite Hc|exact Hok].
  - (* one student under the identifier *)
    destruct (all_single _ _ _ Hall) as (pos & Hfind & Hpos & Hkey).
    rewrite Hfind.
    destruct (py_eq _ _ || py_eq _ _) eqn:Hcond.
    2:{ exfalso. destruct (Hagrees s (list_elem_of_lookup_2 _ _ _ Hpos) Hkey) as [Ha|Hn];
          unfold py_eq in Hcond; apply orb_false_elim in Hcond as [Hc1 Hc2].
        - by rewrite bool_decide_eq_true_2 in Hc1.
        - by rewrite bool_decide_eq_true_2 in Hc2. }
    assert (Hagree : models.Student.abbreviation s = candidates.Student.abbreviation student
                     \/ models.Student.name s = candidates.Student.name student)
      by exact (Hagrees s (list_elem_of_lookup_2 _ _ _ Hpos) Hkey).
    clear Hcond. unfold database.commit. mred. db_red.
    destruct (is_None (models.Student.abbreviation s)) eqn:Hsa.
    + destruct (is_not_None (candidates.Student.abbreviation student)) eqn:Hca.
      * destruct (database.integrity _) eqn:Hok1; mred; [|discriminate].
        destruct (candidates.Student.course student) as [course|] eqn:Hc.
        -- db_red. destruct (database.integrity (database.set_students _ (database.set_students _ _))) eqn:Hok2; mred; [|discriminate].
           intros [= <- <-].
           eapply student_kept with (pos := pos); [exact Hall|exact Hfind|..].
           ++ db_red. by rewrite list_insert_insert_eq.
           ++ exact Hkey.
           ++ left. reflexivity.
           ++ right. reflexivity.
           ++ rewrite Hc. intros ? [= <-]. split; [reflexivity|]. db_red. exact Hok2.
        -- intros [= <- <-].
           eapply student_kept with (pos := pos); [exact Hall|exact Hfind|..].
           ++ db_red. reflexivity.
           ++ exact Hkey.
           ++ left. reflexivity.
           ++ right. reflexivity.
           ++ rewrite Hc. discriminate.
      * assert (Hnone : candidates.Student.abbreviation student = None)
          by (by destruct (candidates.Student.abbreviation student)).
        assert (Hsnone : models.Student.abbreviation s = None)
          by (by destruct (models.Student.abbreviation s)).
        destruct (candidates.Student.course student) as [course|] eqn:Hc.
        -- db_red. destruct (database.integrity _) eqn:Hok2; mred; [|discriminate].
           intros [= <- <-].
           eapply student_kept with (pos := pos); [exact Hall|exact Hfind|..].
           ++ db_red. reflexivity.
           ++ exact Hkey.
           ++ destruct s; exact Hagree.
           ++ left. exact Hnone.
           ++ rewrite Hc. intros ? [= <-]. split; [by destruct s|]. db_red. exact Hok2.
        -- intros [= <- <-].
           eapply student_kept with (pos := pos); [exact Hall|exact Hfind|..].
           ++ symmetry. by apply list_insert_id.
           ++ exact Hkey.
           ++ exact Hagree.
           ++ left. exact Hnone.
           ++ rewrite Hc. discriminate.
    + destruct (is_not_None _ && py_ne _ _) eqn:Hchange; mred; [discriminate|].
      assert (Habbr : candidates.Student.abbreviation student = None
                      \/ candidates.Student.abbreviation student
                         = models.Student.abbreviation s).
      { unfold py_ne, py_eq in Hchange.
        destruct (candidates.Student.abbreviation student) as [a|]; [|by left].
        right. cbn in Hchange. apply negb_false_iff, bool_decide_eq_true in Hchange.
        exact Hchange. }
      destruct (candidates.Student.course student) as [course|] eqn:Hc.
      * db_red. destruct (database.integrity _) eqn:Hok2; mred; [|discriminate].
        intros [= <- <-].
        eapply student_kept with (pos := pos); [exact Hall|exact Hfind|..].
        -- db_red. reflexivity.
        -- exact Hkey.
        -- destruct s; exact Hagree.
        -- destruct s; exact Habbr.
        -- rewrite Hc. intros ? [= <-]. split; [by destruct s|]. db_red. exact Hok2.
      * intros [= <- <-].
        eapply student_kept with (pos := pos); [exact Hall|exact Hfind|..].
        -- symmetry. by apply list_insert_id.
        -- exact Hkey.
        -- exact Hagree.
        -- exact Habbr.
        -- rewrite Hc. discriminate.
  - (* several students under the identifier *)
    discriminate.
Qed.

Lemma add_student_resolves student self :
  student_agrees student self ->
  resolves_in database.db (database.add_student student) id (stored_student student) self.
Proof.
  intros Hagrees r self1. unfold database.add_student, id. mred.
  destruct (is_None (candidates.Student.name student) || _); mred; [discriminate|].
  destruct (is_None (candidates.Student.id student)); mred; [discriminate|].
  destruct (candidates.Student.course student) as [course|]; mred.
  - apply add_student_checked_resolves. exact Hagrees.
  - destruct (is_not_None _); mred; [|discriminate].
    apply add_student_checked_resolves. exact Hagrees.
Qed.

Local Abbreviation turn_key turn :=
  (fun t => models.Turn.number t = candidates.Turn.number turn
            /\ models.Turn.class_instance t = candidates.Turn.class_instance turn
            /\ models.Turn.type_ t = candidates.Turn.type_ turn).

Lemma update_turn_twice turn db_turn :
  let merged := fst (database.update_turn turn db_turn) in
  fst (database.update_turn turn merged) = merged.
Proof.
  destruct db_turn. unfold database.update_turn, py_ne, py_eq.
  destruct (candidates.Turn.minutes turn) as [m|],
    (candidates.Turn.enrolled turn), (candidates.Turn.capacity turn),
    (candidates.Turn.routes turn), (candidates.Turn.restrictions turn),
    (candidates.Turn.state turn); merge_cases.
Qed.

Lemma update_turn_new turn pk :
  candidates.Turn.state turn = None
  \/ candidates.Turn.state turn = candidates.Turn.restrictions turn ->
  let db_turn :=
    models.Turn.mk pk (candidates.Turn.class_instance turn) (candidates.Turn.number turn)
      (candidates.Turn.type_ turn) (candidates.Turn.enrolled turn)
      (candidates.Turn.capacity turn) (candidates.Turn.minutes turn)
      (candidates.Turn.routes turn) (candidates.Turn.restrictions turn)
      (candidates.Turn.restrictions turn) in
  fst (database.update_turn turn db_turn) = db_turn.
Proof.
  intros Hstate. unfold database.update_turn, py_ne, py_eq.
  destruct (candidates.Turn.minutes turn) as [m|],
    (candidates.Turn.enrolled turn), (candidates.Turn.capacity turn),
    (candidates.Turn.routes turn), (candidates.Turn.restrictions turn),
    (candidates.Turn.state turn); destruct Hstate as [Hs|Hs]; try discriminate Hs;
    try (injection Hs as ->); merge_cases.
Qed.

Lemma update_turn_key turn db_turn :
  turn_key turn db_turn -> turn_key turn (fst (database.update_turn turn db_turn)).
Proof.
  unfold database.update_turn.
  repeat match goal with
         | |- context [if ?b then _ else _] => destruct b
         end; cbn; tauto.
Qed.

Lemma set_turns_same rows d :
  database.turns d = rows -> database.set_turns rows d = d.
Proof. intros <-. by destruct d. Qed.

Lemma integrity_turn_teachers d :
  database.integrity d = true -> NoDup (database.turn_teachers d).
Proof.
  intros Hok. unfold database.integrity in Hok.
  repeat (apply andb_prop in Hok as [Hok ?]).
  match goal with
  | H : database.unique _ (database.turn_teachers d) = true |- _ =>
      unfold database.unique in H; apply bool_decide_eq_true in H;
      rewrite <- (list_fmap_id (database.turn_teachers d));
      exact (eq_ind_r NoDup H (fmap_as_omap _ _))
  end.
Qed.

Lemma integrity_set_turn_teachers rows d :
  NoDup rows -> database.integrity d = true ->
  database.integrity (database.set_turn_teachers rows d) = true.
Proof.
  intros Hrows Hok. unfold database.integrity in *. db_red.
  repeat (apply andb_prop in Hok as [Hok ?]).
  repeat (apply andb_true_intro; split); try assumption.
  unfold database.unique. apply bool_decide_eq_true.
  rewrite <- (list_fmap_id rows) in Hrows.
  exact (eq_ind _ NoDup Hrows _ (fmap_as_omap _ rows)).
Qed.

Lemma added_new (original xs : list Z) :
  database.added original (original ++ xs) = filter (fun c => c ∉ original) xs.
Proof.
  unfold database.added. rewrite filter_app.
  assert (filter (fun c => c ∉ original) original = []) as ->; [|reflexivity].
  apply filter_none. intros x Hx Hnot. exact (Hnot Hx).
Qed.

Lemma collection_app table owner xs :
  database.collection (table ++ (pair owner <$> xs)) owner
  = (database.collection table owner ++ xs)%list.
Proof.
  unfold database.collection. rewrite filter_app, fmap_app. f_equal.
  induction xs as [|x xs IH]; [reflexivity|].
  rewrite fmap_cons, filter_cons_True by reflexivity. cbn. by rewrite IH.
Qed.

(** Appending teachers to a turn: the rows written keep the constraints
    when no teacher is named twice, the turns are untouched and every
    teacher is associated afterwards. *)
Lemma append_all_teachers_spec self owner xs :
  NoDup xs -> database.integrity (database.db self) = true ->
  exists self',
    database.append_all database.turn_teachers database.set_turn_teachers owner xs self
    = (Return (teachers_of self owner ++ xs)%list, self')
    /\ database.turns (database.db self') = database.turns (database.db self)
    /\ database.integrity (database.db self') = true
    /\ forall x, x ∈ xs -> x ∈ teachers_of self' owner.
Proof.
  intros Hxs Hok. unfold database.append_all. mred. fold (teachers_of self owner).
  eexists. split; [reflexivity|]. db_red. split; [reflexivity|]. split.
  - apply integrity_set_turn_teachers; [|exact Hok].
    rewrite added_new. apply NoDup_app. split; [by apply integrity_turn_teachers|]. split.
    + intros [o x] Hin Hnew. apply list_elem_of_fmap in Hnew as (y & [= -> ->] & Hy).
      apply list_elem_of_filter in Hy as [Hnot _]. apply Hnot.
      unfold teachers_of, database.collection. apply list_elem_of_fmap.
      exists (owner, y). split; [reflexivity|]. by apply list_elem_of_filter.
    + apply NoDup_fmap_2; [intros ? ? [= ->]; reflexivity|]. by apply NoDup_filter.
  - intros x Hx. unfold teachers_of at 1. db_red. rewrite collection_app, added_new.
    fold (teachers_of self owner).
    destruct (decide (x ∈ teachers_of self owner)) as [Hin|Hnot].
    + apply elem_of_app. by left.
    + apply elem_of_app. right. by apply list_elem_of_filter.
Qed.

(** [add_turn] for a candidate whose turn is stored, with its teachers
    all associated. *)
Lemma add_turn_found self turn pos db_turn :
  database.integrity (database.db self) = true ->
  database.first (turn_key turn) (database.turns (database.db self)) = Some (pos, db_turn) ->
  (forall t, t ∈ candidates.Turn.teachers turn -> t ∈ teachers_of self (models.Turn.id db_turn)) ->
  exists self',
    database.add_turn turn self
    = (Return (fst (database.update_turn turn db_turn)), self')
    /\ database.db self'
       = database.set_turns (<[pos := fst (database.update_turn turn db_turn)]>
                               (database.turns (database.db self))) (database.db self).
Proof.
  intros Hok Hfind Hall.
  destruct (update_turn_identity turn db_turn) as [Hid Hkey].
  pose proof Hfind as Hpos. apply list_find_Some in Hpos as (Hpos & _).
  unfold database.add_turn. mred. rewrite Hfind.
  destruct (database.update_turn turn db_turn) as [db_turn' changed].
  cbn in Hid, Hkey. mred.
  destruct changed.
  - unfold database.commit. mred. db_red.
    rewrite (integrity_update_turn _ _ _ _ Hpos Hkey), Hok.
    match goal with
    | |- context [database.append_all _ _ _ _ ?s] =>
        destruct (append_all_teachers_loaded s (models.Turn.id db_turn')
                    (candidates.Turn.teachers turn)) as [-> _]
    end.
    { rewrite Hid. exact Hall. }
    eexists. split; reflexivity.
  - match goal with
    | |- context [database.append_all _ _ _ _ ?s] =>
        destruct (append_all_teachers_loaded s (models.Turn.id db_turn')
                    (candidates.Turn.teachers turn)) as [-> _]
    end.
    { rewrite Hid. exact Hall. }
    eexists. split; reflexivity.
Qed.

(** What a call of [add_turn] that returns leaves behind. *)
Lemma add_turn_leaves self turn r self1 :
  database.integrity (database.db self) = true ->
  NoDup (candidates.Turn.teachers turn) ->
  database.add_turn turn self = (Return r, self1) ->
  exists pos,
    database.first (turn_key turn) (database.turns (database.db self1)) = Some (pos, r)
    /\ database.integrity (database.db self1) = true
    /\ (forall t, t ∈ candidates.Turn.teachers turn -> t ∈ teachers_of self1 (models.Turn.id r))
    /\ (turn_settled turn self -> fst (database.update_turn turn r) = r).
Proof.
  intros Hok Hteachers. unfold database.add_turn. mred.
  destruct (database.first _ _) as [[pos db_turn]|] eqn:Hfind.
  - pose proof Hfind as Hpos. apply list_find_Some in Hpos as (Hpos & Hk & _).
    destruct (update_turn_identity turn db_turn) as [Hid Hkey].
    pose proof (update_turn_twice turn db_turn) as Htwice.
    pose proof (update_turn_key turn db_turn Hk) as Hk'.
    destruct (database.update_turn turn db_turn) as [db_turn' changed].
    cbn in Hid, Hkey, Htwice, Hk'. mred.
    assert (Hok' : database.integrity
                     (database.set_turns (<[pos := db_turn']> (database.turns (database.db self)))
                        (database.db self)) = true)
      by (by rewrite (integrity_update_turn _ _ _ _ Hpos Hkey)).
    destruct changed.
    + unfold database.commit. mred. db_red. rewrite Hok'.
      match goal with
      | |- context [database.append_all _ _ ?o ?xs ?s] =>
          destruct (append_all_teachers_spec s o xs Hteachers)
            as (s' & -> & Hturns & Hok1 & Hall)
      end.
      { db_red. exact Hok'. }
      intros [= <- <-]. exists pos. rewrite Hturns. db_red.
      split; [by eapply first_insert|]. split; [exact Hok1|]. split; [exact Hall|].
      intros _. exact Htwice.
    + match goal with
      | |- context [database.append_all _ _ ?o ?xs ?s] =>
          destruct (append_all_teachers_spec s o xs Hteachers)
            as (s' & -> & Hturns & Hok1 & Hall)
      end.
      { db_red. exact Hok'. }
      intros [= <- <-]. exists pos. rewrite Hturns. db_red.
      split; [by eapply first_insert|]. split; [exact Hok1|]. split; [exact Hall|].
      intros _. exact Htwice.
  - unfold database.commit. mred. db_red.
    destruct (database.integrity (database.set_turns _ _)) eqn:Hok'; mred; [|discriminate].
    match goal with
    | |- context [database.append_all _ _ ?o ?xs ?s] =>
        destruct (append_all_teachers_spec s o xs Hteachers)
          as (s' & -> & Hturns & Hok1 & Hall)
    end.
    { db_red. exact Hok'. }
    intros [= <- <-]. exists (length (database.turns (database.db self))).
    rewrite Hturns. db_red.
    split; [by apply first_app_new|]. split; [exact Hok1|]. split; [exact Hall|].
    intros [[db_turn [pos Hfound]]|Hstate].
    + unfold resolves_to in Hfound. rewrite Hfind in Hfound. discriminate.
    + by apply update_turn_new.
Qed.

(** [add_turn] again: the turn the first call returned is found, merged
    with the candidate once more and written back in its place. *)
Lemma add_turn_second self turn r self1 :
  database.integrity (database.db self) = true ->
  NoDup (candidates.Turn.teachers turn) ->
  database.add_turn turn self = (Return r, self1) ->
  stored_turn turn r self1
  /\ exists self2,
       database.add_turn turn self1
       = (Return (fst (database.update_turn turn r)), self2)
       /\ models.Turn.id (fst (database.update_turn turn r)) = models.Turn.id r
       /\ models.Turn.id <$> database.turns (database.db self2)
          = models.Turn.id <$> database.turns (database.db self1)
       /\ database.turn_teachers (database.db self2)
          = database.turn_teachers (database.db self1)
       /\ (turn_settled turn self ->
           fst (database.update_turn turn r) = r /\ database.db self2 = database.db self1).
Proof.
  intros Hok Hteachers Hfirst.
  destruct (add_turn_leaves self turn r self1 Hok Hteachers Hfirst)
    as (pos & Hfind & Hok1 & Hall & Hsettled).
  pose proof Hfind as Hpos. apply list_find_Some in Hpos as (Hpos & Hk & _).
  split; [split; [by eapply list_elem_of_lookup_2|exact Hk]|].
  destruct (add_turn_found self1 turn pos r Hok1 Hfind Hall) as (self2 & Hsecond & Hdb).
  destruct (update_turn_identity turn r) as [Hid _].
  exists self2. split; [exact Hsecond|]. split; [exact Hid|]. rewrite Hdb. db_red.
  split; [|split; [reflexivity|]].
  - rewrite list_fmap_insert. cbn in Hid. rewrite Hid. apply list_insert_id.
    by rewrite list_lookup_fmap, Hpos.
  - intros Hs. specialize (Hsettled Hs). split; [exact Hsettled|].
    rewrite Hsettled. apply set_turns_same. symmetry. by apply list_insert_id.
Qed.

(** ** The claim, kind by kind *)

Lemma add_class_resolves candidate self :
  resolves_in id (database.add_class candidate) id (stored_class candidate) self.
Proof.
  intros db_class self1 Hfirst. unfold id in *.
  split; [exact (add_class_stored self candidate db_class self1 Hfirst)|].
  exists self1. split; [exact (add_class_twice self candidate db_class self1 Hfirst)|].
  reflexivity.
Qed.

Lemma add_class_instances_resolves instances self :
  resolves_in id (database.add_class_instances instances) id
    (stored_class_instances instances) self.
Proof.
  intros [] self1 Hfirst. unfold id in *. split.
  - revert Hfirst. unfold database.add_class_instances. mred.
    destruct (for_fold instances 0 _ self) as [[n|e] self'] eqn:Hrun; [|discriminate].
    intros [= <-]. by apply add_class_instances_stores in Hrun as [Hall _].
  - exists self1. split; [exact (add_class_instances_twice self instances self1 Hfirst)|].
    reflexivity.
Qed.

Lemma add_room_resolves candidate self :
  database.__caching__ self = false ->
  resolves_in id (database.add_room candidate) Some (stored_room candidate) self.
Proof.
  intros Hoff room self1 Hfirst.
  split; [exact (add_room_stored self candidate room self1 Hoff Hfirst)|].
  exists self1. split; [exact (add_room_twice self candidate room self1 Hoff Hfirst)|].
  reflexivity.
Qed.

Lemma add_turn_resolves turn self :
  database.integrity (database.db self) = true ->
  NoDup (candidates.Turn.teachers turn) ->
  turn_settled turn self ->
  resolves_in database.db (database.add_turn turn) id (stored_turn turn) self.
Proof.
  intros Hok Hteachers Hsettled r self1 Hfirst. unfold id in *.
  destruct (add_turn_second self turn r self1 Hok Hteachers Hfirst)
    as (Hstored & self2 & Hsecond & _ & _ & _ & Hsame).
  destruct (Hsame Hsettled) as [Hr Hdb].
  rewrite Hr in Hsecond.
  split; [exact Hstored|]. exists self2. split; [exact Hsecond|exact Hdb].
Qed.

(** [add_admissions] appends a row for every candidate, whatever is
    stored. *)
Lemma add_admissions_rows admissions self self1 :
  database.add_admissions admissions self = (Return tt, self1) ->
  database.admissions (database.db self1)
  = (database.admissions (database.db self)
     ++ database.new_admissions (database.sequence (database.db self)) admissions)%list.
Proof.
  unfold database.add_admissions. mred.
  destruct (0 <? _).
  - unfold database.commit. mred.
    destruct (database.integrity _); [|discriminate]. by intros [= <-].
  - by intros [= <-].
Qed.

(** A student stored under the identifier of the candidate with another
    name and another abbreviation: the first call adds a second row
    under the identifier and does not commit it; the second call finds
    both and raises. *)
Example add_student_disagreeing_twice :
  let self1 := final (database.add_student other_rui (uncached student_db)) in
  result (database.add_student other_rui (uncached student_db))
    = Return (database.new_student 2 other_rui (models.Course.institution informatics))
  /\ database.students (database.db self1)
     = [stored_rui; database.new_student 2 other_rui (models.Course.institution informatics)]
  /\ database.students (database.committed (database.session self1)) = [stored_rui]
  /\ result (database.add_student other_rui self1)
     = Raise (Exception
                ("Duplicated students found:" ++ nl
                 ++ "Rui Costa (1, r.costa),Rui M. Costa (2, rm.costa),")).
Proof. vm_compute. repeat split. Qed.

(** A new turn is stored with the restrictions of the candidate as its
    state; the second call finds it and gives it the state of the
    candidate: the same row, one field changed. *)
Example add_turn_state_twice :
  let self1 := final (database.add_turn lecture_candidate (uncached database.empty_db)) in
  let self2 := final (database.add_turn lecture_candidate self1) in
  result (database.add_turn lecture_candidate (uncached database.empty_db))
    = Return (models.Turn.mk 1 7 1 (Some 1) None None None None (Some "LEI") (Some "LEI"))
  /\ result (database.add_turn lecture_candidate self1)
     = Return (models.Turn.mk 1 7 1 (Some 1) None None None None (Some "LEI") (Some "Aberto"))
  /\ database.turns (database.db self2)
     = [models.Turn.mk 1 7 1 (Some 1) None None None None (Some "LEI") (Some "Aberto")]
  /\ result (database.add_turn lecture_candidate self2)
     = result (database.add_turn lecture_candidate self1)
  /\ database.db (final (database.add_turn lecture_candidate self2)) = database.db self2.
Proof. vm_compute. repeat split. Qed.

(** The list the incremental [add_turn_instances] has left, given to it
    again: Friday's candidate is all it holds, so Monday's instance, kept
    by the first call, is deleted by the second. *)
Example add_turn_instances_residual :
  let first := database.add_turn_instances schedule_candidates false (uncached schedule_db) in
  let second := database.add_turn_instances
                  [candidates.TurnInstance.mk 5 840 960 friday room_a] false (final first) in
  result first = Return [candidates.TurnInstance.mk 5 840 960 friday room_a]
  /\ result second = Return []
  /\ instances_of (final second) 5 = [models.TurnInstance.mk 10 5 840 960 room_a friday].
Proof. vm_compute. repeat split. Qed.

(** C2, as stated, fails for admissions: the second reconciliation of the
    same admission candidate does not resolve to the row of the first, it
    adds a row. *)
Lemma add_admissions_not_idempotent :
  ~ resolves_in database.db (database.add_admissions [ana]) id (stored_admission ana)
      (uncached database.empty_db).
Proof.
  intros Hresolves.
  destruct (Hresolves tt (final (database.add_admissions [ana] (uncached database.empty_db)))
              eq_refl) as [_ (self2 & Hsecond & Hdb)].
  apply (f_equal snd) in Hsecond. cbn [snd] in Hsecond. subst self2.
  apply (f_equal (fun d => length (database.admissions d))) in Hdb.
  vm_compute in Hdb. discriminate.
Qed.

(** C2, amended.  Every kind of entity that an [add_] method looks up
    under a natural key before it inserts.  When a reconciliation of a
    candidate has returned an entity, that entity is stored under the
    natural key of the candidate, and reconciling the same candidate
    again returns the same entity and leaves every table as it is, so no
    second row is made.  Classes, class instances (a whole batch), rooms
    (without the cache) and teachers: the controller itself is left as it
    is.  Enrollments, institutions, departments and courses (a batch of
    one candidate), buildings (with the cache and without) and students:
    the tables are left as they are; institutions, departments, courses
    and buildings under the unique constraints, the dictionaries being up
    to date, and students when no student is stored under the identifier
    with another name and another abbreviation.  Turns, under the
    constraints and with no teacher named twice: the second call returns
    the turn of the first, merged with the candidate once more, under the
    same primary key, and adds neither a turn nor an association; the
    merge changes nothing, and the tables are left as they are, when the
    turn was stored before the first call or the candidate brings no
    state of its own.  Turn instances, for a list built anew from the
    same candidates, one per slot: every candidate has an instance of the
    turn in its slot and the second call leaves the controller as it is.
    [add_admissions] looks nothing up: every call that returns has
    appended one row for every candidate. *)
Theorem reconcile_twice (self : database.Controller) :
  (forall candidate,
      resolves_in id (database.add_class candidate) id (stored_class candidate) self)
  /\ (forall instances,
        resolves_in id (database.add_class_instances instances) id
          (stored_class_instances instances) self)
  /\ (database.__caching__ self = false ->
      forall candidate,
        resolves_in id (database.add_room candidate) Some (stored_room candidate) self)
  /\ (forall candidate,
        resolves_in id (database.add_teacher candidate) id (stored_teacher candidate) self)
  /\ (forall enrollment,
        resolves_in database.db (database.add_enrollments [enrollment]) id
          (stored_enrollment enrollment) self)
  /\ (forall student,
        student_agrees student self ->
        resolves_in database.db (database.add_student student) id
          (stored_student student) self)
  /\ (database.integrity (database.db self) = true ->
      (institutions_current self ->
       forall candidate,
         resolves_in database.db (database.add_institutions [candidate]) id
           (stored_institution candidate) self)
      /\ (departments_current self ->
          forall candidate,
            resolves_in database.db (database.add_departments [candidate]) id
              (stored_department candidate) self)
      /\ (forall course,
            resolves_in database.db (database.add_courses [course]) id
              (stored_course course) self)
      /\ (forall __buildings__ building,
            let cached_self := database.mkWithBuildings self __buildings__ in
            buildings_current cached_self ->
            resolves_in (fun s => database.db (database.base s))
              (database.add_building building) Some (stored_building building) cached_self)
      /\ (forall turn,
            NoDup (candidates.Turn.teachers turn) ->
            (turn_settled turn self ->
             resolves_in database.db (database.add_turn turn) id (stored_turn turn) self)
            /\ forall db_turn self1,
                 database.add_turn turn self = (Return db_turn, self1) ->
                 stored_turn turn db_turn self1
                 /\ exists self2,
                      database.add_turn turn self1
                      = (Return (fst (database.update_turn turn db_turn)), self2)
                      /\ models.Turn.id (fst (database.update_turn turn db_turn))
                         = models.Turn.id db_turn
                      /\ models.Turn.id <$> database.turns (database.db self2)
                         = models.Turn.id <$> database.turns (database.db self1)
                      /\ database.turn_teachers (database.db self2)
                         = database.turn_teachers (database.db self1)))
  /\ (forall turn instances,
        instances <> [] ->
        (forall instance, instance ∈ instances ->
                          candidates.TurnInstance.turn instance = turn) ->
        NoDup (models.TurnInstance.id <$> database.turn_instances (database.db self)) ->
        keys_generated self ->
        NoDup (slot <$> instances_of self turn) ->
        NoDup (candidate_slot <$> instances) ->
        exists self1 left,
          database.add_turn_instances instances false self = (Return left, self1)
          /\ (forall instance, instance ∈ instances ->
                exists row, row ∈ instances_of self1 turn
                            /\ slot row = candidate_slot instance)
          /\ database.add_turn_instances instances false self1 = (Return [], self1))
  /\ (forall admissions self1,
        database.add_admissions admissions self = (Return tt, self1) ->
        database.admissions (database.db self1)
        = (database.admissions (database.db self)
           ++ database.new_admissions (database.sequence (database.db self))
                admissions)%list).
Proof.
  split; [exact (fun candidate => add_class_resolves candidate self)|].
  split; [exact (fun instances => add_class_instances_resolves instances self)|].
  split; [exact (fun Hoff candidate => add_room_resolves candidate self Hoff)|].
  split; [exact (fun candidate => add_teacher_resolves candidate self)|].
  split; [exact (fun enrollment => add_enrollments_resolves enrollment self)|].
  split; [exact (fun student => add_student_resolves student self)|].
  split; [|split].
  - intros Hok.
    split; [exact (fun Hcur candidate => add_institutions_resolves candidate self Hcur Hok)|].
    split; [exact (fun Hcur candidate => add_departments_resolves candidate self Hcur Hok)|].
    split; [exact (fun course => add_courses_resolves course self Hok)|].
    split.
    + intros cache building cached_self Hcur. by apply add_building_resolves.
    + intros turn Hteachers. split; [by apply add_turn_resolves|].
      intros db_turn self1 Hfirst.
      destruct (add_turn_second self turn db_turn self1 Hok Hteachers Hfirst)
        as (Hstored & self2 & Hsecond & Hid & Hids & Hrows & _).
      split; [exact Hstored|]. by exists self2.
  - intros turn instances. apply resync_twice.
  - intros admissions self1. apply add_admissions_rows.
Qed.

Lemma reconcile_twice_witness :
  let self := cached database.empty_db in
  let self1 := final (database.add_institutions [nova] self) in
  database.integrity (database.db self) = true
  /\ institutions_current self
  /\ database.add_institutions [nova] self = (Return tt, self1)
  /\ stored_institution nova tt self1
  /\ exists self2,
       database.add_institutions [nova] self1 = (Return tt, self2)
       /\ database.db self2 = database.db self1.
Proof.
  assert (Hcur : institutions_current (cached database.empty_db)) by (intros _; reflexivity).
  split; [reflexivity|]. split; [exact Hcur|]. split; [vm_compute; reflexivity|].
  apply (proj1 (proj1 (proj2 (proj2 (proj2 (proj2 (proj2 (proj2
           (reconcile_twice (cached database.empty_db)))))))) eq_refl) Hcur nova tt).
  vm_compute. reflexivity.
Defined.
